(** * DLMS/COSEM client stack: a shallow embedding of the Go sources

    The development follows the package layout of the repository:
    [encoding] (CRC-CCITT), [hdlc] (fields, addresses, frames, link state
    machine), [cosem] (OBIS codes), [xdlms] (conformance block, invoke id,
    GET data block, exception response) and [dlms] (session state machine).
    The definitions come first, package by package; the theorems follow.

    Conventions.
    - A Go [byte]/[uint8], [uint16], [uint32] is a [Z] with the wrap-around
      written out ([u8], [u16], [u32]); an [int] is a [Z]; a [[]byte] is a
      [list Z].
    - A Go function returning [(T, error)] returns [result T]; a run-time
      panic (an explicit [panic], an index or a slice out of range) is the
      third outcome [Panic].  An error keeps its kind and the fixed part of
      its message.
    - A method that mutates its receiver returns the receiver after the
      call.
    - A Go [map] is a stdpp [gmap].
    - A method [M] of a struct [T] is [T_M] where the plain name would
      clash. *)

From Stdlib Require Import ZArith Lia ZifyBool List Bool Ascii String DecimalString.
From stdpp Require Import base decidable countable gmap strings list.
From coqutil Require Import Z.bitblast.

Local Open Scope string_scope.
Local Open Scope list_scope.
Local Open Scope Z_scope.

(** ** Go run-time outcomes *)

Module Go.

(** The error values the modelled packages construct. *)
Inductive error : Type :=
| Errorf (msg : string)                 (* fmt.Errorf *)
| LocalDlmsProtocolError (msg : string) (* exceptions.NewLocalDlmsProtocolError *)
| LocalProtocolError (msg : string)     (* hdlc.NewLocalProtocolError *)
| HdlcParsingError (msg : string)       (* hdlc.NewHdlcParsingError *)
| MissingHdlcFlags.                     (* hdlc.NewMissingHdlcFlags *)

Inductive result (A : Type) : Type :=
| Ok (a : A)
| Err (e : error)
| Panic (msg : string).
Arguments Ok {A} a.
Arguments Err {A} e.
Arguments Panic {A} msg.

Definition bind {A B} (r : result A) (k : A -> result B) : result B :=
  match r with
  | Ok a => k a
  | Err e => Err e
  | Panic m => Panic m
  end.

Definition is_ok {A} (r : result A) : bool :=
  match r with Ok _ => true | _ => false end.

(** Fixed-width unsigned integers. *)
Definition u8 (x : Z) : Z := Z.land x 0xFF.
Definition u16 (x : Z) : Z := Z.land x 0xFFFF.
Definition u32 (x : Z) : Z := Z.land x 0xFFFFFFFF.

Definition is_byte (x : Z) : Prop := 0 <= x < 256.
Definition is_byteb (x : Z) : bool := (0 <=? x) && (x <? 256).
Definition is_u16 (x : Z) : Prop := 0 <= x < 65536.

(** The 256 byte values, for exhaustive checks. *)
Definition all_bytes : list Z := map Z.of_nat (seq 0 256).

(** [len(s)] as a Go [int]. *)
Definition len {A} (s : list A) : Z := Z.of_nat (length s).

(** [s[i]]: panics when [i] is out of range. *)
Definition index (s : list Z) (i : Z) : result Z :=
  if (0 <=? i) && (i <? len s)
  then Ok (nth (Z.to_nat i) s 0)
  else Panic "index out of range".

(** [s[lo:hi]]: panics unless [0 <= lo <= hi <= len(s)] (capacity equals
    length for every slice the modelled code takes). *)
Definition slice (s : list Z) (lo hi : Z) : result (list Z) :=
  if (0 <=? lo) && (lo <=? hi) && (hi <=? len s)
  then Ok (firstn (Z.to_nat (hi - lo)) (skipn (Z.to_nat lo) s))
  else Panic "slice bounds out of range".

(** [s[lo:]] *)
Definition slice_from (s : list Z) (lo : Z) : result (list Z) :=
  slice s lo (len s).

(** [binary.BigEndian.Uint32(b)]: starts with the bounds check [_ = b[3]]. *)
Definition BigEndian_Uint32 (b : list Z) : result Z :=
  match b with
  | b0 :: b1 :: b2 :: b3 :: _ =>
      Ok (Z.lor (Z.lor (Z.lor b3 (Z.shiftl b2 8)) (Z.shiftl b1 16)) (Z.shiftl b0 24))
  | _ => Panic "index out of range [3]"
  end.

(** [binary.BigEndian.PutUint32(b, v)]: starts with the bounds check
    [_ = b[3]], then overwrites the first four bytes of [b]. *)
Definition BigEndian_PutUint32 (b : list Z) (v : Z) : result (list Z) :=
  match b with
  | _ :: _ :: _ :: _ :: rest =>
      Ok (u8 (Z.shiftr v 24) :: u8 (Z.shiftr v 16) :: u8 (Z.shiftr v 8) :: u8 v :: rest)
  | _ => Panic "index out of range [3]"
  end.

(** [make([]byte, n)] *)
Definition make (n : nat) : list Z := repeat 0 n.

(** Signed views of fixed-width values: [int8(x)], [int16(x)], [int32(x)]
    and the 64-bit [int(x)]. *)
Definition int8 (x : Z) : Z := let v := u8 x in if v <? 128 then v else v - 256.
Definition int16 (x : Z) : Z := let v := u16 x in if v <? 32768 then v else v - 65536.
Definition int32 (x : Z) : Z :=
  let v := u32 x in if v <? 2147483648 then v else v - 4294967296.
Definition int (x : Z) : Z :=
  let v := Z.land x (Z.ones 64) in if v <? 2 ^ 63 then v else v - 2 ^ 64.

(** [binary.BigEndian.Uint16(b)] and [binary.BigEndian.PutUint16(b, v)]:
    both start with the bounds check [_ = b[1]]. *)
Definition BigEndian_Uint16 (b : list Z) : result Z :=
  match b with
  | b0 :: b1 :: _ => Ok (Z.lor b1 (Z.shiftl b0 8))
  | _ => Panic "index out of range [1]"
  end.

Definition BigEndian_PutUint16 (b : list Z) (v : Z) : result (list Z) :=
  match b with
  | _ :: _ :: rest => Ok (u8 (Z.shiftr v 8) :: u8 v :: rest)
  | _ => Panic "index out of range [1]"
  end.

End Go.

Export Go.

Notation "'let*' x ':=' r 'in' k" := (Go.bind r (fun x => k))
(at level 10, x name, r at level 100, k at level 200).

(** ** Package [encoding]: CRC-CCITT *)

Module encoding.

Record CRCCCITT : Type := {
  crcTable : list Z;          (* [256]uint16 *)
  startingValue : Z;          (* uint16 *)
  crcCCITTConstant : Z;       (* uint16 *)
  initialized : bool
}.

(** The inner loop of [initCRCTable]: [j] counts the iterations left. *)
Fixpoint initCRCTable_entry (j : nat) (constant crc cVal : Z) : Z :=
  match j with
  | O => crc
  | S j' =>
      let crc' :=
        if negb (Z.land (Z.lxor crc cVal) 0x8000 =? 0)
        then Z.lxor (u16 (Z.shiftl crc 1)) constant
        else u16 (Z.shiftl crc 1) in
      initCRCTable_entry j' constant crc' (u16 (Z.shiftl cVal 1))
  end.

Definition initCRCTable (c : CRCCCITT) : CRCCCITT :=
  if initialized c then c
  else
    {| crcTable :=
         map (fun i => initCRCTable_entry 8 (crcCCITTConstant c) 0
                         (u16 (Z.shiftl (u16 (Z.of_nat i)) 8)))
             (seq 0 256);
       startingValue := startingValue c;
       crcCCITTConstant := crcCCITTConstant c;
       initialized := true |}.

Definition NewCRCCCITT : CRCCCITT :=
  initCRCTable
    {| crcTable := repeat 0 256;
       startingValue := 0xFFFF;
       crcCCITTConstant := 0x1021;
       initialized := false |}.

(** One iteration of the loop of [calculate].  [tmp] is at most 255 for a
    byte [char], so the array access is in range. *)
Definition calculate_step (c : CRCCCITT) (crcValue char : Z) : Z :=
  let tmp := Z.lxor (Z.land (Z.shiftr crcValue 8) 0xFF) char in
  let crcShifted := Z.land (u16 (Z.shiftl crcValue 8)) 0xFF00 in
  Z.lxor crcShifted (nth (Z.to_nat tmp) (crcTable c) 0).

Definition calculate (c : CRCCCITT) (inputData : list Z) : Z :=
  fold_left (calculate_step c) inputData (startingValue c).

(** The loop of [reverseByte]: [n] iterations left, [i] the loop counter.
    All arithmetic is on [byte]. *)
Fixpoint reverseByte_loop (n : nat) (i byteToReverse andValue reversedByte : Z) : Z :=
  match n with
  | O => reversedByte
  | S n' =>
      let term := u8 (Z.shiftr (Z.land byteToReverse andValue) i * u8 (Z.shiftl 1 (7 - i))) in
      reverseByte_loop n' (i + 1) byteToReverse
        (u8 (Z.shiftl andValue 1)) (u8 (reversedByte + term))
  end.

Definition reverseByte (byteToReverse : Z) : Z :=
  reverseByte_loop 8 0 byteToReverse 1 0.

Definition reverseByteMessage (msg : list Z) : list Z := map reverseByte msg.

Definition CalculateFor (c : CRCCCITT) (inputData : list Z) (lsbFirst : bool) : list Z :=
  let reversedData := reverseByteMessage inputData in
  let reversedCRC := calculate c reversedData in
  let lsbRev := Z.land reversedCRC 0x00FF in
  let lsb := Z.lxor (reverseByte (u8 lsbRev)) 0xFF in
  let lsbByte := u8 lsb in
  let msbRev := Z.shiftr (Z.land reversedCRC 0xFF00) 8 in
  let msb := Z.lxor (reverseByte (u8 msbRev)) 0xFF in
  let msbByte := u8 msb in
  if lsbFirst then [lsbByte; msbByte] else [msbByte; lsbByte].

(** Verification "by equality at the call site", as the frame parsers do
    it: the lengths are compared, then the bytes one by one. *)
Fixpoint bytes_equal (received calculated : list Z) : bool :=
  match received, calculated with
  | [], [] => true
  | x :: xs, y :: ys => (x =? y) && bytes_equal xs ys
  | _, _ => false
  end.

Definition verify (c : CRCCCITT) (b crc : list Z) (lsbFirst : bool) : bool :=
  bytes_equal crc (CalculateFor c b lsbFirst).

(** Flipping bit [i] of a byte, and of the byte at position [k] of a
    sequence. *)
Definition flip_bit (x : Z) (i : Z) : Z := Z.lxor x (Z.shiftl 1 i).

Fixpoint flip_bit_at (b : list Z) (k : nat) (i : Z) : list Z :=
  match b, k with
  | [], _ => []
  | x :: xs, O => flip_bit x i :: xs
  | x :: xs, S k' => x :: flip_bit_at xs k' i
  end.

(** *** ber.go *)

(** The dynamic type of the [tag] argument of [Encode]. *)
Inductive ber_tag : Type :=
| TagInt (t : Z)
| TagUint8 (t : Z)
| TagBytes (t : list Z)
| TagOther.

(** [Encode]: a nil and an empty [data] both give the empty output. *)
Definition BER_Encode (tag : ber_tag) (data : list Z) : result (list Z) :=
  match match tag with
        | TagInt t => Some [u8 t]
        | TagUint8 t => Some [u8 t]
        | TagBytes t => Some t
        | TagOther => None
        end with
  | None => Err (Errorf "BER encoding requires int, uint8 or []byte for tag")
  | Some tagBytes =>
      if len data =? 0 then Ok []
      else
        let length := u8 (len data) in
        Ok (tagBytes ++ [length] ++ data)
  end.

(** The loop of [Decode] that moves [n] bytes from the front of [input]
    into [tag]. *)
Fixpoint BER_take_tag (n : nat) (input : list Z) : result (list Z * list Z) :=
  match n with
  | O => Ok ([], input)
  | S n' =>
      let* b := index input 0 in
      let* input := slice_from input 1 in
      let* r := BER_take_tag n' input in
      Ok (b :: fst r, snd r)
  end.

(** [Decode] returns [(tag, length, data)]. *)
Definition BER_Decode (data : list Z) (tagLength : Z) : result (list Z * Z * list Z) :=
  if len data <? tagLength + 1
  then Err (Errorf "insufficient data for BER decoding")
  else if tagLength <? 0 then Panic "makeslice: len out of range"
  else
    let* r := BER_take_tag (Z.to_nat tagLength) data in
    let tag := fst r in
    let input := snd r in
    let* length := index input 0 in
    let* input := slice_from input 1 in
    if negb (len input =? length)
    then Err (Errorf "BER-decoding failed. Length byte does not correspond to length of data")
    else Ok (tag, length, input).

(** *** The A-XDR length prefix *)

(** [for _, b := range lengthBytes { length = (length << 8) | int(b) }] *)
Definition big_endian_int (lengthBytes : list Z) : Z :=
  fold_left (fun length b => Z.lor (int (Z.shiftl length 8)) b) lengthBytes 0.

(** [GetAXdrLength] returns the length and the data after the prefix. *)
Definition GetAXdrLength (data : list Z) : result (Z * list Z) :=
  if len data =? 0 then Err (Errorf "insufficient data for AXDR length")
  else
    let* firstByte := index data 0 in
    let lengthIsMultipleBytes := negb (Z.land firstByte 0x80 =? 0) in
    if negb lengthIsMultipleBytes then
      let* rest := slice_from data 1 in
      Ok (firstByte, rest)
    else
      let numberOfBytes := Z.land firstByte 0x7F in
      if len data <? numberOfBytes + 1
      then Err (Errorf "insufficient data for AXDR length")
      else
        let* lengthBytes := slice data 1 (numberOfBytes + 1) in
        let length := big_endian_int lengthBytes in
        let* rest := slice_from data (numberOfBytes + 1) in
        Ok (length, rest).

End encoding.

(** ** Package [dlmsdata] *)

Module dlmsdata.
Import encoding.

Definition VariableLength : Z := -1.

(** The scalar data types; each constructor is the value a [New...Data]
    constructor builds. *)
Inductive ScalarData : Type :=
| NullData
| BooleanData (value : bool)
| IntegerData (value : Z)               (* int8 *)
| UnsignedIntegerData (value : Z)       (* uint8 *)
| LongData (value : Z)                  (* int16 *)
| UnsignedLongData (value : Z)          (* uint16 *)
| DoubleLongData (value : Z)            (* int32 *)
| DoubleLongUnsignedData (value : Z)    (* uint32 *)
| OctetStringData (value : list Z)
| VisibleStringData (value : list Z).   (* the bytes of the string *)

Definition GetTag (d : ScalarData) : Z :=
  match d with
  | NullData => 0
  | BooleanData _ => 3
  | IntegerData _ => 15
  | UnsignedIntegerData _ => 17
  | LongData _ => 16
  | UnsignedLongData _ => 18
  | DoubleLongData _ => 5
  | DoubleLongUnsignedData _ => 6
  | OctetStringData _ => 9
  | VisibleStringData _ => 10
  end.

Definition GetLength (d : ScalarData) : Z :=
  match d with
  | NullData => 0
  | BooleanData _ | IntegerData _ | UnsignedIntegerData _ => 1
  | LongData _ | UnsignedLongData _ => 2
  | DoubleLongData _ | DoubleLongUnsignedData _ => 4
  | OctetStringData _ | VisibleStringData _ => VariableLength
  end.

(** [BaseDlmsData.ValueToBytes] *)
Definition Base_ValueToBytes : result (list Z) :=
  Err (Errorf "value_to_bytes must be implemented in subclass").

(** [BaseDlmsData.ToBytes]: the call [b.ValueToBytes()] is the call of the
    base method. *)
Definition Base_ToBytes (d : ScalarData) : result (list Z) :=
  let result := [u8 (GetTag d)] in
  let* valueBytes := Base_ValueToBytes in
  let result :=
    if GetLength d =? VariableLength then result ++ [u8 (len valueBytes)] else result in
  Ok (result ++ valueBytes).

(** The [ValueToBytes] method each type declares. *)
Definition ValueToBytes (d : ScalarData) : result (list Z) :=
  match d with
  | NullData => Ok []
  | BooleanData value => Ok [if value then 1 else 0]
  | IntegerData value => Ok [u8 value]
  | UnsignedIntegerData value => Ok [value]
  | LongData value => BigEndian_PutUint16 (make 2) (u16 value)
  | UnsignedLongData value => BigEndian_PutUint16 (make 2) value
  | DoubleLongData value => BigEndian_PutUint32 (make 4) (u32 value)
  | DoubleLongUnsignedData value => BigEndian_PutUint32 (make 4) value
  | OctetStringData value => Ok value
  | VisibleStringData value => Ok value
  end.

(** [ToBytes]: NullData declares its own; every other scalar type has the
    method promoted from its embedded [*BaseDlmsData]. *)
Definition ToBytes (d : ScalarData) : result (list Z) :=
  match d with
  | NullData => Ok [0]
  | _ => Base_ToBytes d
  end.

(** The [FromBytes] methods. *)
Definition NullData_FromBytes (data : list Z) : result ScalarData := Ok NullData.

Definition BooleanData_FromBytes (data : list Z) : result ScalarData :=
  if len data <? 1 then Err (Errorf "insufficient data for BooleanData")
  else let* b := index data 0 in Ok (BooleanData (negb (b =? 0))).

Definition IntegerData_FromBytes (data : list Z) : result ScalarData :=
  if len data <? 1 then Err (Errorf "insufficient data for IntegerData")
  else let* b := index data 0 in Ok (IntegerData (int8 b)).

Definition UnsignedIntegerData_FromBytes (data : list Z) : result ScalarData :=
  if len data <? 1 then Err (Errorf "insufficient data for UnsignedIntegerData")
  else let* b := index data 0 in Ok (UnsignedIntegerData b).

Definition LongData_FromBytes (data : list Z) : result ScalarData :=
  if len data <? 2 then Err (Errorf "insufficient data for LongData")
  else let* v := BigEndian_Uint16 data in Ok (LongData (int16 v)).

Definition UnsignedLongData_FromBytes (data : list Z) : result ScalarData :=
  if len data <? 2 then Err (Errorf "insufficient data for UnsignedLongData")
  else let* v := BigEndian_Uint16 data in Ok (UnsignedLongData v).

Definition DoubleLongData_FromBytes (data : list Z) : result ScalarData :=
  if len data <? 4 then Err (Errorf "insufficient data for DoubleLongData")
  else let* v := BigEndian_Uint32 data in Ok (DoubleLongData (int32 v)).

Definition DoubleLongUnsignedData_FromBytes (data : list Z) : result ScalarData :=
  if len data <? 4 then Err (Errorf "insufficient data for DoubleLongUnsignedData")
  else let* v := BigEndian_Uint32 data in Ok (DoubleLongUnsignedData v).

Definition OctetStringData_FromBytes (data : list Z) : result ScalarData :=
  Ok (OctetStringData data).

Definition VisibleStringData_FromBytes (data : list Z) : result ScalarData :=
  Ok (VisibleStringData data).

(** [FromBytes] of the type of [d], as the interface dispatches it. *)
Definition FromBytes_as (d : ScalarData) (data : list Z) : result ScalarData :=
  match d with
  | NullData => NullData_FromBytes data
  | BooleanData _ => BooleanData_FromBytes data
  | IntegerData _ => IntegerData_FromBytes data
  | UnsignedIntegerData _ => UnsignedIntegerData_FromBytes data
  | LongData _ => LongData_FromBytes data
  | UnsignedLongData _ => UnsignedLongData_FromBytes data
  | DoubleLongData _ => DoubleLongData_FromBytes data
  | DoubleLongUnsignedData _ => DoubleLongUnsignedData_FromBytes data
  | OctetStringData _ => OctetStringData_FromBytes data
  | VisibleStringData _ => VisibleStringData_FromBytes data
  end.

(** The value of [d] is one its Go type can hold. *)
Definition well_typed (d : ScalarData) : Prop :=
  match d with
  | NullData | BooleanData _ => True
  | IntegerData v => -128 <= v <= 127
  | UnsignedIntegerData v => 0 <= v <= 255
  | LongData v => -32768 <= v <= 32767
  | UnsignedLongData v => 0 <= v <= 65535
  | DoubleLongData v => -2147483648 <= v <= 2147483647
  | DoubleLongUnsignedData v => 0 <= v <= 4294967295
  | OctetStringData v | VisibleStringData v => Forall is_byte v
  end.

(** *** The variable-length integer *)

(** [1 << n] on [int]: a negative count panics, a count of 64 or more
    gives 0. *)
Definition shl1_int (n : Z) : result Z :=
  if n <? 0 then Panic "negative shift amount"
  else Ok (if n >=? 64 then 0 else int (Z.shiftl 1 n)).

(** The first loop of [EncodeVariableInteger]: the smallest
    [encodedLength], from the current one on, with
    [length <= (1 << (8 * encodedLength)) - 1].  [None]: the loop is still
    running after [fuel] iterations. *)
Fixpoint encodedLength_loop (fuel : nat) (length encodedLength : Z) : option (result Z) :=
  match fuel with
  | O => None
  | S fuel' =>
      match shl1_int (int (8 * encodedLength)) with
      | Ok p =>
          let maxValue := int (p - 1) in
          if length <=? maxValue then Some (Ok encodedLength)
          else encodedLength_loop fuel' length (int (encodedLength + 1))
      | Err e => Some (Err e)
      | Panic m => Some (Panic m)
      end
  end.

(** The second loop: [lengthBytes[i] = byte(length & 0xFF); length >>= 8]
    for [i] from [encodedLength - 1] down to 0; [n] positions are left to
    fill, [acc] holds the positions filled. *)
Fixpoint lengthBytes_loop (n : nat) (length : Z) (acc : list Z) : list Z :=
  match n with
  | O => acc
  | S n' => lengthBytes_loop n' (Z.shiftr length 8) (u8 (Z.land length 0xFF) :: acc)
  end.

(** [EncodeVariableInteger], with the fuel of its first loop. *)
Definition EncodeVariableInteger (fuel : nat) (length : Z) : option (result (list Z)) :=
  if length <=? 0x7F then Some (Ok [u8 length])
  else
    match encodedLength_loop fuel length 1 with
    | None => None
    | Some r =>
        Some (let* encodedLength := r in
              let lengthByte := u8 (Z.lor 0x80 encodedLength) in
              Ok ([lengthByte] ++ lengthBytes_loop (Z.to_nat encodedLength) length []))
    end.

Definition DecodeVariableInteger (data : list Z) : result (Z * list Z) :=
  if len data =? 0 then Err (Errorf "insufficient data for variable integer")
  else
    let* firstByte := index data 0 in
    let isMultipleBytes := negb (Z.land firstByte 0x80 =? 0) in
    if negb isMultipleBytes then
      let length := Z.land firstByte 0x7F in
      let* rest := slice_from data 1 in
      Ok (length, rest)
    else
      let lengthLength := Z.land firstByte 0x7F in
      if len data <? lengthLength + 1
      then Err (Errorf "insufficient data for variable integer length")
      else
        let* lengthBytes := slice data 1 (lengthLength + 1) in
        let length := big_endian_int lengthBytes in
        let* rest := slice_from data (lengthLength + 1) in
        Ok (length, rest).

(** *** The clock status byte *)

Record ClockStatus : Type := {
  Invalid : bool;
  Doubtful : bool;
  DifferentBase : bool;
  InvalidStatus : bool;
  DaylightSavingActive : bool
}.

Definition ClockStatus_FromBytes (data : list Z) : result ClockStatus :=
  if negb (len data =? 1) then Err (Errorf "ClockStatus is 1 byte")
  else
    let* value := index data 0 in
    Ok {| Invalid := negb (Z.land value 0x01 =? 0);
          Doubtful := negb (Z.land value 0x02 =? 0);
          DifferentBase := negb (Z.land value 0x04 =? 0);
          InvalidStatus := negb (Z.land value 0x08 =? 0);
          DaylightSavingActive := negb (Z.land value 0x80 =? 0) |}.

Definition ClockStatus_ToBytes (c : ClockStatus) : list Z :=
  let value := 0 in
  let value := if Invalid c then Z.lor value 0x01 else value in
  let value := if Doubtful c then Z.lor value 0x02 else value in
  let value := if DifferentBase c then Z.lor value 0x04 else value in
  let value := if InvalidStatus c then Z.lor value 0x08 else value in
  let value := if DaylightSavingActive c then Z.lor value 0x80 else value in
  [value].

End dlmsdata.

(** ** Package [utils] *)

Module utils.

(** [ParseDlmsObject]: the bytes of an array or structure of one-byte
    items, as integers. *)
Definition ParseDlmsObject (sourceBytes : list Z) : result (list Z) :=
  if len sourceBytes =? 0 then Err (Errorf "empty source bytes")
  else
    let data := sourceBytes in
    let* tag := index data 0 in
    let* data := slice_from data 1 in
    let allowed := existsb (fun allowedTag => tag =? allowedTag) [1; 2] in
    if negb allowed then Err (Errorf "cannot use dlms object parse with tag")
    else if len data =? 0 then Err (Errorf "insufficient data for length")
    else
      let* length := index data 0 in
      let* data := slice_from data 1 in
      if len data <? length then Err (Errorf "insufficient data")
      else Ok (firstn (Z.to_nat length) data).

End utils.

(** ** Package [hdlc]: fields, addresses, frames and the link state machine

    Struct fields carry a short prefix of their struct ([ff_] format field,
    [icf_] information control field, [base_] BaseHdlcFrame, ...), since
    several structs share field names.  A pointer field is modelled by the
    value it points to, except [PhysicalAddress], whose nil is meaningful. *)

Module hdlc.
Import encoding.

(** *** fields.go: control fields *)

Record ReceiveReadyControlField : Type := {
  rrcf_ReceiveSequenceNumber : Z (* uint8, 0-7 *)
}.

Record InformationControlField : Type := {
  icf_SendSequenceNumber : Z;    (* uint8, 0-7 *)
  icf_ReceiveSequenceNumber : Z; (* uint8, 0-7 *)
  icf_Final : bool
}.

(** The implementations of the interface [HdlcControlField]. *)
Inductive HdlcControlField : Type :=
| SnrmControlField
| UaControlField
| DisconnectControlField
| ReceiveReadyControl (c : ReceiveReadyControlField)
| InformationControl (c : InformationControlField)
| UnnumberedInformationControlField (Final : bool).

Definition NewSnrmControlField : HdlcControlField := SnrmControlField.
Definition NewUaControlField : HdlcControlField := UaControlField.
Definition NewDisconnectControlField : HdlcControlField := DisconnectControlField.

Definition NewReceiveReadyControlField (receiveSequenceNumber : Z)
  : result ReceiveReadyControlField :=
  if receiveSequenceNumber >? 7
  then Err (Errorf "sequence number can only be between 0-7")
  else Ok {| rrcf_ReceiveSequenceNumber := receiveSequenceNumber |}.

Definition NewInformationControlField (sendSequenceNumber receiveSequenceNumber : Z)
  (final : bool) : result InformationControlField :=
  if sendSequenceNumber >? 7
  then Err (Errorf "send sequence number can only be between 0-7")
  else if receiveSequenceNumber >? 7
  then Err (Errorf "receive sequence number can only be between 0-7")
  else Ok {| icf_SendSequenceNumber := sendSequenceNumber;
             icf_ReceiveSequenceNumber := receiveSequenceNumber;
             icf_Final := final |}.

Definition IsFinal (c : HdlcControlField) : bool :=
  match c with
  | SnrmControlField | UaControlField | DisconnectControlField => true
  | ReceiveReadyControl _ => true
  | InformationControl i => icf_Final i
  | UnnumberedInformationControlField final => final
  end.

Definition or_final (c : HdlcControlField) (out : Z) : Z :=
  if IsFinal c then Z.lor out 0x10 else out.

Definition ControlField_ToBytes (c : HdlcControlField) : list Z :=
  match c with
  | SnrmControlField => [or_final c 0x83]
  | UaControlField => [or_final c 0x63]
  | DisconnectControlField => [or_final c 0x43]
  | ReceiveReadyControl r =>
      let out := 0x01 in
      let out := u8 (out + u8 (Z.shiftl (rrcf_ReceiveSequenceNumber r) 5)) in
      [or_final c out]
  | InformationControl i =>
      let out := 0x00 in
      let out := u8 (out + u8 (Z.shiftl (icf_SendSequenceNumber i) 1)) in
      let out := u8 (out + u8 (Z.shiftl (icf_ReceiveSequenceNumber i) 5)) in
      [or_final c out]
  | UnnumberedInformationControlField _ => [or_final c 0x03]
  end.

Definition ReceiveReadyControlField_FromBytes (inByte : list Z)
  : result ReceiveReadyControlField :=
  match inByte with
  | [value] =>
      let controlFrame := negb (Z.land value 0x01 =? 0) in
      if negb controlFrame
      then Err (Errorf "frame is an information frame not a ReceiveReadyFrame")
      else
        let rsn := Z.shiftr (Z.land value 0xE0) 5 in
        NewReceiveReadyControlField rsn
  | _ => Err (Errorf "ReceiveReadyControlField can only be 1 byte")
  end.

Definition InformationControlField_FromBytes (inByte : list Z)
  : result InformationControlField :=
  match inByte with
  | [value] =>
      let notInfoFrame := negb (Z.land value 0x01 =? 0) in
      if notInfoFrame
      then Err (Errorf "byte is not representing an InformationControlField. LSB is 1, should be 0")
      else
        let ssn := Z.shiftr (Z.land value 0x0E) 1 in
        let rsn := Z.shiftr (Z.land value 0xE0) 5 in
        let final := negb (Z.land value 0x10 =? 0) in
        NewInformationControlField ssn rsn final
  | _ => Err (Errorf "InformationControlField can only be 1 byte")
  end.

Definition UnnumberedInformationControlField_FromBytes (inByte : list Z)
  : result HdlcControlField :=
  match inByte with
  | [value] =>
      let isUnnumberedInfoFrame := Z.land value 0x03 =? 0x03 in
      if negb isUnnumberedInfoFrame
      then Err (Errorf "byte is not representing an UnnumberedInformationControlField")
      else
        let final := negb (Z.land value 0x10 =? 0) in
        Ok (UnnumberedInformationControlField final)
  | _ => Err (Errorf "UnnumberedInformationControlField can only be 1 byte")
  end.

(** *** fields.go: the frame format field *)

Record DlmsHdlcFrameFormatField : Type := {
  ff_Length : Z;       (* uint16, 0-2047 *)
  ff_Segmented : bool
}.

Definition NewDlmsHdlcFrameFormatField (length : Z) (segmented : bool)
  : result DlmsHdlcFrameFormatField :=
  if length >? 0x7FF
  then Err (Errorf "frame length is too long")
  else Ok {| ff_Length := length; ff_Segmented := segmented |}.

Definition correctFrameFormat (bytes : list Z) : bool :=
  let leftmost := nth 0 bytes 0 in
  let maskedLeftmost := Z.land leftmost 0xF0 in
  maskedLeftmost =? 0xA0.

Definition getLengthFromBytes (bytes : list Z) : Z :=
  let total := Z.lor (u16 (Z.shiftl (nth 0 bytes 0) 8)) (nth 1 bytes 0) in
  Z.land total 0x07FF.

Definition FormatField_FromBytes (inBytes : list Z) : result DlmsHdlcFrameFormatField :=
  if negb (len inBytes =? 2)
  then Err (HdlcParsingError "HDLC frame format length should be 2")
  else if negb (correctFrameFormat inBytes)
  then Err (HdlcParsingError "received a HDLC frame of the incorrect format")
  else
    let segmented := negb (Z.land (nth 0 inBytes 0) 0x08 =? 0) in
    let length := getLengthFromBytes inBytes in
    NewDlmsHdlcFrameFormatField length segmented.

Definition FormatField_ToBytes (d : DlmsHdlcFrameFormatField) : list Z :=
  let total := Z.lor 0xA000 (ff_Length d) in
  let total := if ff_Segmented d then Z.lor total 0x0800 else total in
  [u8 (Z.shiftr total 8); u8 (Z.land total 0xFF)].

(** Both check sequence calculators are [encoding.NewCRCCCITT()]. *)
Definition HCS : CRCCCITT := NewCRCCCITT.
Definition FCS : CRCCCITT := NewCRCCCITT.

(** *** The HDLC address *)

Definition AddressType : Type := string.
Definition AddressTypeClient : AddressType := "client".
Definition AddressTypeServer : AddressType := "server".

Record HdlcAddress : Type := {
  addr_LogicalAddress : Z;             (* int *)
  addr_PhysicalAddress : option Z;     (* *int, nil if not used *)
  addr_AddressType : AddressType;
  addr_ExtendedAddressing : bool
}.

Definition validateHdlcAddress (value : Z) : option error :=
  if (value <? 0) || (value >? 127)
  then Some (Errorf "HDLC address must be between 0 and 127")
  else None.

Definition validateHdlcAddressType (addressType : AddressType) : option error :=
  if negb (String.eqb addressType AddressTypeClient)
     && negb (String.eqb addressType AddressTypeServer)
  then Some (Errorf "invalid address type")
  else None.

Definition NewHdlcAddress (logicalAddress : Z) (physicalAddress : option Z)
  (addressType : AddressType) (extendedAddressing : bool) : result HdlcAddress :=
  match validateHdlcAddress logicalAddress with
  | Some _ => Err (Errorf "invalid logical address")
  | None =>
      match match physicalAddress with
            | Some p => validateHdlcAddress p
            | None => None
            end with
      | Some _ => Err (Errorf "invalid physical address")
      | None =>
          match validateHdlcAddressType addressType with
          | Some _ => Err (Errorf "invalid address type")
          | None =>
              Ok {| addr_LogicalAddress := logicalAddress;
                    addr_PhysicalAddress := physicalAddress;
                    addr_AddressType := addressType;
                    addr_ExtendedAddressing := extendedAddressing |}
          end
      end
  end.

(** [splitAddress] returns [(higher, lower)]. *)
Definition splitAddress (address : Z) : Z * Z :=
  if address >? 0x7F
  then (u8 (Z.shiftr (Z.land address 0x3F80) 6), u8 (Z.shiftl (Z.land address 0x7F) 1))
  else (0, u8 (Z.shiftl address 1)).

Definition Address_ToBytes (a : HdlcAddress) : list Z :=
  let out :=
    if String.eqb (addr_AddressType a) AddressTypeClient
    then [u8 (Z.lor (Z.shiftl (addr_LogicalAddress a) 1) 0x01)]
    else
      let '(logicalHigher, logicalLower) := splitAddress (addr_LogicalAddress a) in
      match addr_PhysicalAddress a with
      | Some physical =>
          let '(physicalHigher, physicalLower) := splitAddress physical in
          let physicalLower := Z.lor physicalLower 0x01 in
          [logicalHigher; logicalLower; physicalHigher; physicalLower]
      | None =>
          let logicalLower := Z.lor logicalLower 0x01 in
          [logicalHigher; logicalLower]
      end in
  List.filter (fun addr => if addr =? 0 then addr_ExtendedAddressing a else true) out.

Definition Address_Length (a : HdlcAddress) : Z := len (Address_ToBytes a).

(** The loop of [ExtractAddressBytes]: bytes move from [data] to
    [address] up to and including the first one with its least significant
    bit set. *)
Fixpoint ExtractAddressBytes_loop (data address : list Z) : result (list Z * list Z) :=
  match data with
  | [] => Err (Errorf "insufficient data to extract address")
  | byteVal :: data =>
      let address := address ++ [byteVal] in
      let foundWholeAddress := negb (Z.land byteVal 0x01 =? 0) in
      if len address >? 4
      then Err (Errorf "recovered an HDLC address of length longer than 4 bytes")
      else if foundWholeAddress then Ok (address, data)
      else ExtractAddressBytes_loop data address
  end.

(** [ExtractAddressBytes] returns the address bytes and the data after
    them. *)
Definition ExtractAddressBytes (inData : list Z) : result (list Z * list Z) :=
  ExtractAddressBytes_loop inData [].

(** The bytes of one address: every byte but the last has its least
    significant bit clear, the last has it set. *)
Fixpoint end_marked (addressBytes : list Z) : bool :=
  match addressBytes with
  | [] => false
  | [last] => negb (Z.land last 0x01 =? 0)
  | b :: rest => (Z.land b 0x01 =? 0) && end_marked rest
  end.

Record AddressData : Type := {
  ad_Logical : Z;
  ad_Physical : option Z;
  ad_Length : Z
}.

Definition parseTwoByteAddress (addressBytes : list Z) : result Z :=
  match addressBytes with
  | [b0; b1] =>
      let upper := Z.shiftr b0 1 in
      let lower := Z.shiftr b1 1 in
      Ok (lower + Z.shiftl upper 7)
  | _ => Panic "can only parse 2 bytes for address"
  end.

(** The loop over the candidate end positions of an address: the first
    position inside the frame whose byte has its least significant bit set
    gives the length; the length stays 1 when there is none. *)
Fixpoint findAddressLength (hdlcFrameBytes : list Z) (positions : list (Z * Z))
  (length : Z) : Z :=
  match positions with
  | [] => length
  | (posIdx, l) :: rest =>
      if posIdx >=? len hdlcFrameBytes
      then findAddressLength hdlcFrameBytes rest length
      else
        let endByte := nth (Z.to_nat posIdx) hdlcFrameBytes 0 in
        if negb (Z.land endByte 0x01 =? 0)
        then l
        else findAddressLength hdlcFrameBytes rest length
  end.

(** The [switch] on the address length found, for the address that starts
    at [start]. *)
Definition readAddress (hdlcFrameBytes : list Z) (start length : Z) (what : string)
  : result AddressData :=
  if length =? 1 then
    if len hdlcFrameBytes <? start + 1 then Err (Errorf what)
    else
      let* b0 := index hdlcFrameBytes start in
      Ok {| ad_Logical := Z.shiftr b0 1; ad_Physical := None; ad_Length := length |}
  else if length =? 2 then
    if len hdlcFrameBytes <? start + 2 then Err (Errorf what)
    else
      let* b0 := index hdlcFrameBytes start in
      let* b1 := index hdlcFrameBytes (start + 1) in
      Ok {| ad_Logical := Z.shiftr b0 1;
            ad_Physical := Some (Z.shiftr b1 1);
            ad_Length := length |}
  else if length =? 4 then
    if len hdlcFrameBytes <? start + 4 then Err (Errorf what)
    else
      let* addrBytes := slice hdlcFrameBytes start (start + 4) in
      let* hi := slice addrBytes 0 2 in
      let* logical := parseTwoByteAddress hi in
      let* lo := slice_from addrBytes 2 in
      let* physical := parseTwoByteAddress lo in
      Ok {| ad_Logical := logical; ad_Physical := Some physical; ad_Length := length |}
  else Ok {| ad_Logical := 0; ad_Physical := None; ad_Length := length |}.

Definition FindAddressInFrameBytes (hdlcFrameBytes : list Z)
  : result (AddressData * AddressData) :=
  if len hdlcFrameBytes <? 4 then Err (Errorf "frame too short")
  else
    let destinationLength :=
      findAddressLength hdlcFrameBytes [(3, 1); (4, 2); (6, 4)] 1 in
    let* destData :=
      readAddress hdlcFrameBytes 3 destinationLength
        "frame too short for destination address" in
    let sourceStartPos := 3 + destinationLength in
    let sourceLength :=
      findAddressLength hdlcFrameBytes
        [(sourceStartPos, 1); (sourceStartPos + 1, 2); (sourceStartPos + 3, 4)] 1 in
    let* sourceData :=
      readAddress hdlcFrameBytes sourceStartPos sourceLength
        "frame too short for source address" in
    Ok (destData, sourceData).

Definition DestinationFromBytes (frameBytes : list Z) (addressType : AddressType)
  : result HdlcAddress :=
  let* found := FindAddressInFrameBytes frameBytes in
  let destData := fst found in
  NewHdlcAddress (ad_Logical destData) (ad_Physical destData) addressType false.

Definition SourceFromBytes (frameBytes : list Z) (addressType : AddressType)
  : result HdlcAddress :=
  let* found := FindAddressInFrameBytes frameBytes in
  let sourceData := snd found in
  let extendedAddress := ad_Length sourceData =? 4 in
  NewHdlcAddress (ad_Logical sourceData) (ad_Physical sourceData) addressType
    extendedAddress.

(** *** Frames

    Go has no virtual dispatch through an embedded struct: a method of
    [*BaseHdlcFrame] that calls [b.FrameLength()], [b.Information()],
    [b.HCS()] or [b.GetControlField()] calls the method of
    [*BaseHdlcFrame], also when [b] is embedded in a frame type that
    declares a method of the same name.  The methods of [*BaseHdlcFrame]
    are therefore functions of the base struct alone; a frame type's own
    methods are separate definitions, and the methods a frame type does not
    declare are the promoted ones of its embedded base. *)

Definition HDLCFlag : Z := 0x7E.
Definition LLCCommandHeader : list Z := [0xE6; 0xE6; 0x00].
Definition LLCResponseHeader : list Z := [0xE7; 0xE7; 0x00].

Record BaseHdlcFrame : Type := {
  base_DestinationAddress : HdlcAddress;
  base_SourceAddress : HdlcAddress;
  base_Payload : list Z;
  base_Segmented : bool;
  base_Final : bool
}.

Definition FixedLengthBytes : Z := 7.

Definition Base_Information (b : BaseHdlcFrame) : list Z := base_Payload b.

Definition Base_FrameLength (b : BaseHdlcFrame) : Z :=
  FixedLengthBytes
  + Address_Length (base_DestinationAddress b)
  + Address_Length (base_SourceAddress b)
  + len (Base_Information b).

Definition Base_GetControlField (b : BaseHdlcFrame) : result HdlcControlField :=
  Panic "GetControlField must be implemented by specific frame type".

Definition Base_HeaderContent (b : BaseHdlcFrame) : result (list Z) :=
  let formatField :=
    {| ff_Length := u16 (Base_FrameLength b); ff_Segmented := base_Segmented b |} in
  let formatBytes := FormatField_ToBytes formatField in
  let* controlField := Base_GetControlField b in
  let controlBytes := ControlField_ToBytes controlField in
  Ok (formatBytes
        ++ Address_ToBytes (base_DestinationAddress b)
        ++ Address_ToBytes (base_SourceAddress b)
        ++ controlBytes).

Definition Base_HCS (b : BaseHdlcFrame) : result (list Z) :=
  let* headerContent := Base_HeaderContent b in
  if len headerContent =? 0 then Ok []
  else Ok (CalculateFor HCS headerContent false).

Definition Base_FrameContent (b : BaseHdlcFrame) : result (list Z) :=
  let* headerContent := Base_HeaderContent b in
  let* hcs := Base_HCS b in
  let result := if len hcs >? 0 then headerContent ++ hcs else headerContent in
  Ok (result ++ Base_Information b).

Definition Base_FCS (b : BaseHdlcFrame) : result (list Z) :=
  let* frameContent := Base_FrameContent b in
  Ok (CalculateFor FCS frameContent false).

Definition Base_ToBytes (b : BaseHdlcFrame) : result (list Z) :=
  let* frameContent := Base_FrameContent b in
  let* fcs := Base_FCS b in
  Ok ([u8 HDLCFlag] ++ frameContent ++ fcs ++ [u8 HDLCFlag]).

Definition ExtractFormatFieldFromBytes (frameBytes : list Z)
  : result DlmsHdlcFrameFormatField :=
  if len frameBytes <? 3 then Err (Errorf "frame too short for format field")
  else
    let* field := slice frameBytes 1 3 in
    FormatField_FromBytes field.

Definition FrameIsEnclosedByHdlcFlags (frameBytes : list Z) : bool :=
  if len frameBytes <? 2 then false
  else
    let first := nth 0 frameBytes 0 in
    let last := nth (Z.to_nat (len frameBytes - 1)) frameBytes 0 in
    (first =? HDLCFlag) && (last =? HDLCFlag) && (first =? last).

Definition FrameHasCorrectLength (controlFieldLength : Z) (frameBytes : list Z) : bool :=
  controlFieldLength + 2 =? len frameBytes.

(** The comparison of a received check sequence with the calculated one. *)
Definition checkSequence (what : string) (received calculated : list Z) : result unit :=
  if bytes_equal received calculated then Ok tt
  else Err (HdlcParsingError what).

(** **** SNRM *)

Record SetNormalResponseModeFrame : Type := { snrm_base : BaseHdlcFrame }.

Definition NewSetNormalResponseModeFrame (destinationAddress sourceAddress : HdlcAddress)
  : SetNormalResponseModeFrame :=
  {| snrm_base :=
       {| base_DestinationAddress := destinationAddress;
          base_SourceAddress := sourceAddress;
          base_Payload := [];
          base_Segmented := false;
          base_Final := true |} |}.

Definition SetNormalResponseModeFrame_HCS (s : SetNormalResponseModeFrame) : list Z := [].
Definition SetNormalResponseModeFrame_Information (s : SetNormalResponseModeFrame)
  : list Z := [].
Definition SetNormalResponseModeFrame_GetControlField (s : SetNormalResponseModeFrame)
  : HdlcControlField := NewSnrmControlField.
Definition SetNormalResponseModeFrame_FrameLength (s : SetNormalResponseModeFrame) : Z :=
  5 + Address_Length (base_DestinationAddress (snrm_base s))
    + Address_Length (base_SourceAddress (snrm_base s)).
(** Promoted from the embedded base. *)
Definition SetNormalResponseModeFrame_ToBytes (s : SetNormalResponseModeFrame)
  : result (list Z) := Base_ToBytes (snrm_base s).

(** **** UA *)

Record UnNumberedAcknowledgmentFrame : Type := { ua_base : BaseHdlcFrame }.

Definition NewUnNumberedAcknowledgmentFrame (destinationAddress sourceAddress : HdlcAddress)
  (payload : list Z) : UnNumberedAcknowledgmentFrame :=
  {| ua_base :=
       {| base_DestinationAddress := destinationAddress;
          base_SourceAddress := sourceAddress;
          base_Payload := payload;
          base_Segmented := false;
          base_Final := true |} |}.

(** [u.Information()] is the promoted base method. *)
Definition UnNumberedAcknowledgmentFrame_FrameLength (u : UnNumberedAcknowledgmentFrame)
  : Z :=
  let fixed := if len (Base_Information (ua_base u)) =? 0 then 5 else 7 in
  fixed + Address_Length (base_DestinationAddress (ua_base u))
        + Address_Length (base_SourceAddress (ua_base u))
        + len (Base_Information (ua_base u)).

Definition UnNumberedAcknowledgmentFrame_HCS (u : UnNumberedAcknowledgmentFrame)
  : result (list Z) :=
  if len (base_Payload (ua_base u)) >? 0 then Base_HCS (ua_base u) else Ok [].

Definition UnNumberedAcknowledgmentFrame_GetControlField
  (u : UnNumberedAcknowledgmentFrame) : HdlcControlField := NewUaControlField.

Definition UnNumberedAcknowledgmentFrame_FCS (u : UnNumberedAcknowledgmentFrame)
  : result (list Z) := Base_FCS (ua_base u).
Definition UnNumberedAcknowledgmentFrame_ToBytes (u : UnNumberedAcknowledgmentFrame)
  : result (list Z) := Base_ToBytes (ua_base u).

Definition UnNumberedAcknowledgmentFrame_FromBytes (frameBytes : list Z)
  : result UnNumberedAcknowledgmentFrame :=
  if negb (FrameIsEnclosedByHdlcFlags frameBytes) then Err MissingHdlcFlags
  else
    let* formatField := ExtractFormatFieldFromBytes frameBytes in
    if negb (FrameHasCorrectLength (ff_Length formatField) frameBytes)
    then Err (HdlcParsingError "frame data is not of length specified in frame format field")
    else
      let* destinationAddress := DestinationFromBytes frameBytes AddressTypeClient in
      let* sourceAddress := SourceFromBytes frameBytes AddressTypeServer in
      let hcsPosition :=
        1 + 2 + Address_Length destinationAddress + Address_Length sourceAddress + 1 in
      let* hcs := slice frameBytes hcsPosition (hcsPosition + 2) in
      let* fcs := slice frameBytes (len frameBytes - 3) (len frameBytes - 1) in
      let* information := slice frameBytes (hcsPosition + 2) (len frameBytes - 3) in
      let frame :=
        NewUnNumberedAcknowledgmentFrame destinationAddress sourceAddress information in
      let* hcsLen := UnNumberedAcknowledgmentFrame_HCS frame in
      let* _ :=
        if len hcsLen >? 0 then
          let* calculatedHCS := UnNumberedAcknowledgmentFrame_HCS frame in
          checkSequence "HCS is not correct" hcs calculatedHCS
        else Ok tt in
      let* calculatedFCS := UnNumberedAcknowledgmentFrame_FCS frame in
      let* _ := checkSequence "FCS is not correct" fcs calculatedFCS in
      Ok frame.

(** **** RR *)

Record ReceiveReadyFrame : Type := {
  rr_base : BaseHdlcFrame;
  rr_ReceiveSequenceNumber : Z (* uint8 *)
}.

Definition NewReceiveReadyFrame (destinationAddress sourceAddress : HdlcAddress)
  (receiveSequenceNumber : Z) : result ReceiveReadyFrame :=
  Ok {| rr_base :=
          {| base_DestinationAddress := destinationAddress;
             base_SourceAddress := sourceAddress;
             base_Payload := [];
             base_Segmented := false;
             base_Final := true |};
        rr_ReceiveSequenceNumber := receiveSequenceNumber |}.

Definition ReceiveReadyFrame_HCS (r : ReceiveReadyFrame) : list Z := [].
Definition ReceiveReadyFrame_Information (r : ReceiveReadyFrame) : list Z := [].
(** The error of the constructor is dropped; a nil control field is
    [None]. *)
Definition ReceiveReadyFrame_GetControlField (r : ReceiveReadyFrame)
  : option HdlcControlField :=
  match NewReceiveReadyControlField (rr_ReceiveSequenceNumber r) with
  | Ok control => Some (ReceiveReadyControl control)
  | _ => None
  end.
Definition ReceiveReadyFrame_FCS (r : ReceiveReadyFrame) : result (list Z) :=
  Base_FCS (rr_base r).
Definition ReceiveReadyFrame_ToBytes (r : ReceiveReadyFrame) : result (list Z) :=
  Base_ToBytes (rr_base r).

Definition ReceiveReadyFrame_FromBytes (frameBytes : list Z) : result ReceiveReadyFrame :=
  if negb (FrameIsEnclosedByHdlcFlags frameBytes) then Err MissingHdlcFlags
  else
    let* formatField := ExtractFormatFieldFromBytes frameBytes in
    if negb (FrameHasCorrectLength (ff_Length formatField) frameBytes)
    then Err (HdlcParsingError "frame data is not of length specified in frame format field")
    else
      let* destinationAddress := DestinationFromBytes frameBytes AddressTypeClient in
      let* sourceAddress := SourceFromBytes frameBytes AddressTypeServer in
      let controlBytePosition :=
        1 + 2 + Address_Length destinationAddress + Address_Length sourceAddress in
      let* controlByte := slice frameBytes controlBytePosition (controlBytePosition + 1) in
      let* control := ReceiveReadyControlField_FromBytes controlByte in
      let* fcs := slice frameBytes (len frameBytes - 3) (len frameBytes - 1) in
      let* frame :=
        NewReceiveReadyFrame destinationAddress sourceAddress
          (rrcf_ReceiveSequenceNumber control) in
      let* calculatedFCS := ReceiveReadyFrame_FCS frame in
      let* _ := checkSequence "FCS is not correct" fcs calculatedFCS in
      Ok frame.

(** **** I *)

Record InformationFrame : Type := {
  if_base : BaseHdlcFrame;
  if_SendSequenceNumber : Z;    (* uint8 *)
  if_ReceiveSequenceNumber : Z  (* uint8 *)
}.

Definition NewInformationFrame (destinationAddress sourceAddress : HdlcAddress)
  (payload : list Z) (sendSequenceNumber receiveSequenceNumber : Z)
  (segmented final : bool) : result InformationFrame :=
  Ok {| if_base :=
          {| base_DestinationAddress := destinationAddress;
             base_SourceAddress := sourceAddress;
             base_Payload := payload;
             base_Segmented := segmented;
             base_Final := final |};
        if_SendSequenceNumber := sendSequenceNumber;
        if_ReceiveSequenceNumber := receiveSequenceNumber |}.

Definition InformationFrame_Information (i : InformationFrame) : list Z :=
  if len (base_Payload (if_base i)) =? 0 then []
  else LLCCommandHeader ++ base_Payload (if_base i).

Definition InformationFrame_GetControlField (i : InformationFrame)
  : option HdlcControlField :=
  match NewInformationControlField (if_SendSequenceNumber i)
          (if_ReceiveSequenceNumber i) (base_Final (if_base i)) with
  | Ok control => Some (InformationControl control)
  | _ => None
  end.

(** Promoted from the embedded base. *)
Definition InformationFrame_HCS (i : InformationFrame) : result (list Z) :=
  Base_HCS (if_base i).
Definition InformationFrame_FCS (i : InformationFrame) : result (list Z) :=
  Base_FCS (if_base i).
Definition InformationFrame_ToBytes (i : InformationFrame) : result (list Z) :=
  Base_ToBytes (if_base i).

Definition InformationFrame_FromBytes (frameBytes : list Z) : result InformationFrame :=
  if negb (FrameIsEnclosedByHdlcFlags frameBytes) then Err MissingHdlcFlags
  else
    let* formatField := ExtractFormatFieldFromBytes frameBytes in
    if negb (FrameHasCorrectLength (ff_Length formatField) frameBytes)
    then Err (HdlcParsingError "frame data is not of length specified in frame format field")
    else
      let* destinationAddress := DestinationFromBytes frameBytes AddressTypeClient in
      let* sourceAddress := SourceFromBytes frameBytes AddressTypeServer in
      let informationControlBytePosition :=
        1 + 2 + Address_Length destinationAddress + Address_Length sourceAddress in
      let* informationControlByte :=
        slice frameBytes informationControlBytePosition
          (informationControlBytePosition + 1) in
      let* informationControl :=
        InformationControlField_FromBytes informationControlByte in
      let hcsPosition :=
        1 + 2 + Address_Length destinationAddress + Address_Length sourceAddress + 1 in
      let* hcs := slice frameBytes hcsPosition (hcsPosition + 2) in
      let* fcs := slice frameBytes (len frameBytes - 3) (len frameBytes - 1) in
      let* information := slice frameBytes (hcsPosition + 2) (len frameBytes - 3) in
      let payload :=
        if (len information >=? 3)
           && (bytes_equal (firstn 3 information) LLCCommandHeader
               || bytes_equal (firstn 3 information) LLCResponseHeader)
        then skipn 3 information
        else information in
      let* frame :=
        NewInformationFrame destinationAddress sourceAddress payload
          (icf_SendSequenceNumber informationControl)
          (icf_ReceiveSequenceNumber informationControl)
          (ff_Segmented formatField)
          (icf_Final informationControl) in
      let* calculatedHCS := InformationFrame_HCS frame in
      let* _ := checkSequence "HCS is not correct" hcs calculatedHCS in
      let* calculatedFCS := InformationFrame_FCS frame in
      let* _ := checkSequence "FCS is not correct" fcs calculatedFCS in
      Ok frame.

(** **** DISC *)

Record DisconnectFrame : Type := { disc_base : BaseHdlcFrame }.

Definition NewDisconnectFrame (destinationAddress sourceAddress : HdlcAddress)
  : DisconnectFrame :=
  {| disc_base :=
       {| base_DestinationAddress := destinationAddress;
          base_SourceAddress := sourceAddress;
          base_Payload := [];
          base_Segmented := false;
          base_Final := true |} |}.

Definition DisconnectFrame_HCS (d : DisconnectFrame) : list Z := [].
Definition DisconnectFrame_Information (d : DisconnectFrame) : list Z := [].
Definition DisconnectFrame_GetControlField (d : DisconnectFrame) : HdlcControlField :=
  NewDisconnectControlField.
Definition DisconnectFrame_FCS (d : DisconnectFrame) : result (list Z) :=
  Base_FCS (disc_base d).
Definition DisconnectFrame_ToBytes (d : DisconnectFrame) : result (list Z) :=
  Base_ToBytes (disc_base d).

Definition DisconnectFrame_FromBytes (frameBytes : list Z) : result DisconnectFrame :=
  if negb (FrameIsEnclosedByHdlcFlags frameBytes) then Err MissingHdlcFlags
  else
    let* formatField := ExtractFormatFieldFromBytes frameBytes in
    if negb (FrameHasCorrectLength (ff_Length formatField) frameBytes)
    then Err (HdlcParsingError "frame data is not of length specified in frame format field")
    else
      let* destinationAddress := DestinationFromBytes frameBytes AddressTypeServer in
      let* sourceAddress := SourceFromBytes frameBytes AddressTypeClient in
      let* fcs := slice frameBytes (len frameBytes - 3) (len frameBytes - 1) in
      let frame := NewDisconnectFrame destinationAddress sourceAddress in
      let* calculatedFCS := DisconnectFrame_FCS frame in
      let* _ := checkSequence "FCS is not correct" fcs calculatedFCS in
      Ok frame.

(** **** A frame of any of the five types *)

Inductive HdlcFrame : Type :=
| SNRM (f : SetNormalResponseModeFrame)
| UA (f : UnNumberedAcknowledgmentFrame)
| I (f : InformationFrame)
| RR (f : ReceiveReadyFrame)
| DISC (f : DisconnectFrame).

(** [frame.ToBytes()] *)
Definition ToBytes (frame : HdlcFrame) : result (list Z) :=
  match frame with
  | SNRM f => SetNormalResponseModeFrame_ToBytes f
  | UA f => UnNumberedAcknowledgmentFrame_ToBytes f
  | I f => InformationFrame_ToBytes f
  | RR f => ReceiveReadyFrame_ToBytes f
  | DISC f => DisconnectFrame_ToBytes f
  end.

(** The parser of the frame's own type applied to [frameBytes]; the source
    has no parser for SNRM frames. *)
Definition FromBytes_as (frame : HdlcFrame) (frameBytes : list Z)
  : option (result HdlcFrame) :=
  match frame with
  | SNRM _ => None
  | UA _ => Some (let* f := UnNumberedAcknowledgmentFrame_FromBytes frameBytes in Ok (UA f))
  | I _ => Some (let* f := InformationFrame_FromBytes frameBytes in Ok (I f))
  | RR _ => Some (let* f := ReceiveReadyFrame_FromBytes frameBytes in Ok (RR f))
  | DISC _ => Some (let* f := DisconnectFrame_FromBytes frameBytes in Ok (DISC f))
  end.

(** Scenario S3 of the specification: the information frame that carries
    the GET-Normal request for OBIS 1-0:1.8.0.255, from client address 0x10
    to the logical server 1, with N(S)=0, N(R)=0 and the final bit set. *)
Definition scenario_S3_frame : InformationFrame :=
  {| if_base :=
       {| base_DestinationAddress :=
            {| addr_LogicalAddress := 1; addr_PhysicalAddress := None;
               addr_AddressType := AddressTypeServer;
               addr_ExtendedAddressing := false |};
          base_SourceAddress :=
            {| addr_LogicalAddress := 0x10; addr_PhysicalAddress := None;
               addr_AddressType := AddressTypeClient;
               addr_ExtendedAddressing := false |};
          base_Payload :=
            [0xC0; 0x01; 0xC1; 0x00; 0x03; 0x01; 0x00; 0x01; 0x08; 0x00; 0xFF; 0x02; 0x00];
          base_Segmented := false;
          base_Final := true |};
     if_SendSequenceNumber := 0;
     if_ReceiveSequenceNumber := 0 |}.

(** *** state.go: the link state machine *)

Inductive HdlcState : Type :=
| HdlcStateNotConnected
| HdlcStateIdle
| HdlcStateAwaitingResponse
| HdlcStateAwaitingConnection
| HdlcStateAwaitingDisconnect
| HdlcStateClosed
| HdlcStateNeedData.

Definition all_hdlc_states : list HdlcState :=
  [ HdlcStateNotConnected; HdlcStateIdle; HdlcStateAwaitingResponse;
    HdlcStateAwaitingConnection; HdlcStateAwaitingDisconnect; HdlcStateClosed;
    HdlcStateNeedData ].

#[global] Instance HdlcState_eq_dec : EqDecision HdlcState.
Proof. solve_decision. Defined.

(** The value of the [iota] constant. *)
Definition HdlcState_index (s : HdlcState) : nat :=
  match s with
  | HdlcStateNotConnected => 0 | HdlcStateIdle => 1 | HdlcStateAwaitingResponse => 2
  | HdlcStateAwaitingConnection => 3 | HdlcStateAwaitingDisconnect => 4
  | HdlcStateClosed => 5 | HdlcStateNeedData => 6
  end%nat.

#[global] Instance HdlcState_countable : Countable HdlcState.
Proof.
  refine (inj_countable' HdlcState_index
            (fun n => nth n all_hdlc_states HdlcStateNeedData) _).
  intros []; reflexivity.
Defined.

Record HdlcConnectionState : Type := { CurrentState : HdlcState }.

Definition NewHdlcConnectionState : HdlcConnectionState :=
  {| CurrentState := HdlcStateNotConnected |}.

(** [FrameType] is a string type; [getFrameType] returns one of the five
    constants, or the empty string. *)
Definition FrameType : Type := string.
Definition FrameTypeSetNormalResponseMode : FrameType := "SetNormalResponseModeFrame".
Definition FrameTypeUnNumberedAcknowledgment : FrameType := "UnNumberedAcknowledgmentFrame".
Definition FrameTypeInformation : FrameType := "InformationFrame".
Definition FrameTypeReceiveReady : FrameType := "ReceiveReadyFrame".
Definition FrameTypeDisconnect : FrameType := "DisconnectFrame".

(** The argument of [ProcessFrame] is an [interface{}]: a pointer to one of
    the five frame structs, or a value of any other type. *)
Inductive any : Type :=
| Frame (frame : HdlcFrame)
| NotAFrame.

Definition getFrameType (frame : any) : FrameType :=
  match frame with
  | Frame (SNRM _) => FrameTypeSetNormalResponseMode
  | Frame (UA _) => FrameTypeUnNumberedAcknowledgment
  | Frame (I _) => FrameTypeInformation
  | Frame (RR _) => FrameTypeReceiveReady
  | Frame (DISC _) => FrameTypeDisconnect
  | NotAFrame => ""
  end.

Definition hdlcStateTransitions : gmap HdlcState (gmap FrameType HdlcState) :=
  list_to_map
    [ (HdlcStateNotConnected, list_to_map
         [ (FrameTypeSetNormalResponseMode, HdlcStateAwaitingConnection) ]);
      (HdlcStateAwaitingConnection, list_to_map
         [ (FrameTypeUnNumberedAcknowledgment, HdlcStateIdle) ]);
      (HdlcStateIdle, list_to_map
         [ (FrameTypeInformation, HdlcStateAwaitingResponse);
           (FrameTypeDisconnect, HdlcStateAwaitingDisconnect);
           (FrameTypeReceiveReady, HdlcStateAwaitingResponse) ]);
      (HdlcStateAwaitingResponse, list_to_map
         [ (FrameTypeInformation, HdlcStateIdle);
           (FrameTypeReceiveReady, HdlcStateIdle) ]);
      (HdlcStateAwaitingDisconnect, list_to_map
         [ (FrameTypeUnNumberedAcknowledgment, HdlcStateNotConnected) ]) ].

(** [hdlcStateTransitions[h.CurrentState][frameType]]: indexing a missing
    state gives the nil map, in which every lookup misses. *)
Definition ProcessFrame (h : HdlcConnectionState) (frame : any)
  : HdlcConnectionState * option error :=
  let frameType := getFrameType frame in
  match default ∅ (hdlcStateTransitions !! CurrentState h) !! frameType with
  | None => (h, Some (LocalProtocolError "can't handle frame type when state"))
  | Some newState => ({| CurrentState := newState |}, None)
  end.

Definition IsSendState (h : HdlcConnectionState) : bool :=
  bool_decide (CurrentState h = HdlcStateNotConnected)
  || bool_decide (CurrentState h = HdlcStateIdle).

Definition IsReceiveState (h : HdlcConnectionState) : bool :=
  bool_decide (CurrentState h = HdlcStateAwaitingConnection)
  || bool_decide (CurrentState h = HdlcStateAwaitingResponse)
  || bool_decide (CurrentState h = HdlcStateAwaitingDisconnect).

(** The transition table of section 4.5 of the specification, arc by arc,
    by the type of the frame. *)
Definition spec_link_table (s : HdlcState) (frame : any) : option HdlcState :=
  match s, frame with
  | HdlcStateNotConnected, Frame (SNRM _) => Some HdlcStateAwaitingConnection
  | HdlcStateAwaitingConnection, Frame (UA _) => Some HdlcStateIdle
  | HdlcStateIdle, Frame (I _) => Some HdlcStateAwaitingResponse
  | HdlcStateIdle, Frame (RR _) => Some HdlcStateAwaitingResponse
  | HdlcStateIdle, Frame (DISC _) => Some HdlcStateAwaitingDisconnect
  | HdlcStateAwaitingResponse, Frame (I _) => Some HdlcStateIdle
  | HdlcStateAwaitingResponse, Frame (RR _) => Some HdlcStateIdle
  | HdlcStateAwaitingDisconnect, Frame (UA _) => Some HdlcStateNotConnected
  | _, _ => None
  end.

End hdlc.

(** ** Package [cosem]: OBIS codes *)

Module cosem.

Record Obis : Type := {
  obis_A : Z; obis_B : Z; obis_C : Z; obis_D : Z; obis_E : Z; obis_F : Z (* int *)
}.

Definition validateOBISComponent (value : Z) : option error :=
  if (value <? 0) || (value >? 255)
  then Some (Errorf "OBIS component must be between 0 and 255")
  else None.

Definition NewObis (a b c d e f : Z) : result Obis :=
  match validateOBISComponent a with
  | Some _ => Err (Errorf "invalid A component")
  | None =>
  match validateOBISComponent b with
  | Some _ => Err (Errorf "invalid B component")
  | None =>
  match validateOBISComponent c with
  | Some _ => Err (Errorf "invalid C component")
  | None =>
  match validateOBISComponent d with
  | Some _ => Err (Errorf "invalid D component")
  | None =>
  match validateOBISComponent e with
  | Some _ => Err (Errorf "invalid E component")
  | None =>
  match validateOBISComponent f with
  | Some _ => Err (Errorf "invalid F component")
  | None =>
      Ok {| obis_A := a; obis_B := b; obis_C := c;
            obis_D := d; obis_E := e; obis_F := f |}
  end end end end end end.

Definition FromBytes (sourceBytes : list Z) : result Obis :=
  match sourceBytes with
  | [b0; b1; b2; b3; b4; b5] => NewObis b0 b1 b2 b3 b4 b5
  | _ => Err (Errorf "not enough data to parse OBIS. Need 6 bytes")
  end.

(** The two regular expressions are sequences of the capture group
    [(\d{1,3})] and the literal [\.], anchored at both ends. *)
Inductive regex_item : Type :=
| Digits1to3   (* (\d{1,3}) *)
| LiteralDot.  (* \. *)

Definition sixPartRegex : list regex_item :=
  [ Digits1to3; LiteralDot; Digits1to3; LiteralDot; Digits1to3; LiteralDot;
    Digits1to3; LiteralDot; Digits1to3; LiteralDot; Digits1to3 ].

Definition fivePartRegex : list regex_item :=
  [ Digits1to3; LiteralDot; Digits1to3; LiteralDot; Digits1to3; LiteralDot;
    Digits1to3; LiteralDot; Digits1to3 ].

(** [\d] is an ASCII digit. *)
Definition is_digit (c : ascii) : bool :=
  let n := nat_of_ascii c in (48 <=? n)%nat && (n <=? 57)%nat.

(** The first [n] characters when there are that many and all are digits. *)
Definition take_digits (n : nat) (s : list ascii) : option (list ascii * list ascii) :=
  let d := firstn n s in
  if (length d =? n)%nat && forallb is_digit d then Some (d, skipn n s) else None.

(** [FindStringSubmatch] for an anchored sequence of items: the capture
    groups in order, or [None] when the string does not match.  The
    repetition is greedy: three digits are tried first, then two, then
    one. *)
Fixpoint FindStringSubmatch (re : list regex_item) (s : list ascii)
  : option (list (list ascii)) :=
  match re with
  | [] => match s with [] => Some [] | _ => None end
  | LiteralDot :: re' =>
      match s with
      | c :: s' => if Ascii.eqb c "."%char then FindStringSubmatch re' s' else None
      | [] => None
      end
  | Digits1to3 :: re' =>
      let try (n : nat) : option (list (list ascii)) :=
        match take_digits n s with
        | Some (d, s') =>
            match FindStringSubmatch re' s' with
            | Some groups => Some (d :: groups)
            | None => None
            end
        | None => None
        end in
      match try 3%nat with
      | Some groups => Some groups
      | None =>
          match try 2%nat with
          | Some groups => Some groups
          | None => try 1%nat
          end
      end
  end.

(** [strconv.Atoi] on a string of decimal digits (a sign is accepted by
    Go, and cannot occur in a capture group). *)
Definition Atoi (part : list ascii) : result Z :=
  match part with
  | [] => Err (Errorf "strconv.Atoi: invalid syntax")
  | _ =>
      if forallb is_digit part
      then Ok (fold_left (fun acc c => 10 * acc + (Z.of_nat (nat_of_ascii c) - 48)) part 0)
      else Err (Errorf "strconv.Atoi: invalid syntax")
  end.

(** The loop that converts the capture groups. *)
Fixpoint parse_parts (parts : list (list ascii)) : result (list Z) :=
  match parts with
  | [] => Ok []
  | part :: rest =>
      let* val := Atoi part in
      let* values := parse_parts rest in
      Ok (val :: values)
  end.

Definition FromString (obisString : string) : result Obis :=
  let s := list_ascii_of_string obisString in
  match FindStringSubmatch sixPartRegex s with
  | Some parts =>
      let* values := parse_parts parts in
      match values with
      | [v0; v1; v2; v3; v4; v5] => NewObis v0 v1 v2 v3 v4 v5
      | _ => Panic "index out of range"
      end
  | None =>
      match FindStringSubmatch fivePartRegex s with
      | Some parts =>
          let* values := parse_parts parts in
          match values with
          | [v0; v1; v2; v3; v4] => NewObis v0 v1 v2 v3 v4 255
          | _ => Panic "index out of range"
          end
      | None => Err (Errorf "is not a parsable OBIS string")
      end
  end.

Definition in_range (o : Obis) : Prop :=
  0 <= obis_A o <= 255 /\ 0 <= obis_B o <= 255 /\ 0 <= obis_C o <= 255 /\
  0 <= obis_D o <= 255 /\ 0 <= obis_E o <= 255 /\ 0 <= obis_F o <= 255.

(** [ToBytes] of an OBIS code. *)
Definition Obis_ToBytes (o : Obis) : list Z :=
  [ u8 (obis_A o); u8 (obis_B o); u8 (obis_C o);
    u8 (obis_D o); u8 (obis_E o); u8 (obis_F o) ].

(** The verb [%d] of [fmt.Sprintf] on an [int]. *)
Definition Sprintf_d (n : Z) : string := NilZero.string_of_int (Z.to_int n).

Definition ToString (o : Obis) (separator : string) : string :=
  if negb (String.eqb separator "")
  then (Sprintf_d (obis_A o) ++ separator ++
        Sprintf_d (obis_B o) ++ separator ++
        Sprintf_d (obis_C o) ++ separator ++
        Sprintf_d (obis_D o) ++ separator ++
        Sprintf_d (obis_E o) ++ separator ++
        Sprintf_d (obis_F o))%string
  else (Sprintf_d (obis_A o) ++ "-" ++ Sprintf_d (obis_B o) ++ ":" ++
        Sprintf_d (obis_C o) ++ "." ++ Sprintf_d (obis_D o) ++ "." ++
        Sprintf_d (obis_E o) ++ "." ++ Sprintf_d (obis_F o))%string.

(** [String] of an OBIS code. *)
Definition Obis_String (o : Obis) : string := ToString o "".

(** *** base.go: the attribute descriptor *)

Record CosemAttribute : Type := {
  ca_Interface : Z;           (* enumerations.CosemInterface, a uint8 *)
  ca_Instance : option Obis;  (* *Obis, None is nil *)
  ca_Attribute : Z            (* uint8 *)
}.

Definition CosemAttributeLength : Z := 2 + 6 + 1.

Definition NewCosemAttribute (interfaceClass : Z) (instance : option Obis) (attribute : Z)
  : CosemAttribute :=
  {| ca_Interface := interfaceClass; ca_Instance := instance; ca_Attribute := attribute |}.

(** The conversion [enumerations.CosemInterface(...)] of the 16-bit value
    read keeps its low byte. *)
Definition CosemAttribute_FromBytes (sourceBytes : list Z) : result CosemAttribute :=
  if negb (len sourceBytes =? CosemAttributeLength)
  then Err (Errorf "data is not of correct length")
  else
    let* two := slice sourceBytes 0 2 in
    let* class := BigEndian_Uint16 two in
    let interfaceClass := u8 class in
    let* six := slice sourceBytes 2 8 in
    match FromBytes six with
    | Err _ => Err (Errorf "failed to parse OBIS")
    | Panic m => Panic m
    | Ok instance =>
        let* attribute := index sourceBytes 8 in
        Ok {| ca_Interface := interfaceClass;
              ca_Instance := Some instance;
              ca_Attribute := attribute |}
    end.

(** [copy(dst, src)]: the contents of [dst] after the call. *)
Definition copy (dst src : list Z) : list Z :=
  firstn (length dst) src ++ skipn (length src) dst.

(** [ToBytes] writes the three parts of [result] through the sub-slices
    [result[0:2]], [result[2:8]] and the index 8. *)
Definition CosemAttribute_ToBytes (c : CosemAttribute) : result (list Z) :=
  let result := make (Z.to_nat CosemAttributeLength) in
  let* two := slice result 0 2 in
  let* two := BigEndian_PutUint16 two (u16 (ca_Interface c)) in
  match ca_Instance c with
  | None => Panic "invalid memory address or nil pointer dereference"
  | Some instance =>
      let* six := slice result 2 8 in
      let six := copy six (Obis_ToBytes instance) in
      let* _ := index result 8 in
      Ok (two ++ six ++ [ca_Attribute c])
  end.

End cosem.

(** ** Package [xdlms] *)

Module xdlms.

(** *** conformance.go *)

Record Conformance : Type := {
  GeneralProtection : bool;
  GeneralBlockTransfer : bool;
  DeltaValueEncoding : bool;
  Attribute0SupportedWithSet : bool;
  PriorityManagementSupported : bool;
  Attribute0SupportedWithGet : bool;
  BlockTransferWithGetOrRead : bool;
  BlockTransferWithSetOrWrite : bool;
  BlockTransferWithAction : bool;
  MultipleReferences : bool;
  DataNotification : bool;
  Access : bool;
  Get : bool;
  Set_ : bool;   (* the field [Set] *)
  SelectiveAccess : bool;
  EventNotification : bool;
  Action : bool
}.

Definition ConformanceBitPosition : gmap string Z :=
  list_to_map
    [ ("general_protection", 22);
      ("general_block_transfer", 21);
      ("delta_value_encoding", 17);
      ("attribute_0_supported_with_set", 15);
      ("priority_management_supported", 14);
      ("attribute_0_supported_with_get", 13);
      ("block_transfer_with_get_or_read", 12);
      ("block_transfer_with_set_or_write", 11);
      ("block_transfer_with_action", 10);
      ("multiple_references", 9);
      ("data_notification", 7);
      ("access", 6);
      ("get", 4);
      ("set", 3);
      ("selective_access", 2);
      ("event_notification", 1);
      ("action", 0) ].

(** [ConformanceBitPosition[name]]: a missing key reads as 0. *)
Definition position (name : string) : Z :=
  default 0 (ConformanceBitPosition !! name).

(** [(integerRepresentation & (1 << position)) != 0] *)
Definition flag_of (integerRepresentation : Z) (name : string) : bool :=
  negb (Z.land integerRepresentation (u32 (Z.shiftl 1 (position name))) =? 0).

Definition Conformance_FromBytes (data : list Z) : result Conformance :=
  if len data <? 4
  then Err (Errorf "insufficient data for Conformance: need at least 4 bytes")
  else
    let* three := slice data 1 4 in
    let* integerRepresentation := BigEndian_Uint32 ([0] ++ three) in
    Ok {| GeneralProtection := flag_of integerRepresentation "general_protection";
          GeneralBlockTransfer := flag_of integerRepresentation "general_block_transfer";
          DeltaValueEncoding := flag_of integerRepresentation "delta_value_encoding";
          Attribute0SupportedWithSet :=
            flag_of integerRepresentation "attribute_0_supported_with_set";
          PriorityManagementSupported :=
            flag_of integerRepresentation "priority_management_supported";
          Attribute0SupportedWithGet :=
            flag_of integerRepresentation "attribute_0_supported_with_get";
          BlockTransferWithGetOrRead :=
            flag_of integerRepresentation "block_transfer_with_get_or_read";
          BlockTransferWithSetOrWrite :=
            flag_of integerRepresentation "block_transfer_with_set_or_write";
          BlockTransferWithAction :=
            flag_of integerRepresentation "block_transfer_with_action";
          MultipleReferences := flag_of integerRepresentation "multiple_references";
          DataNotification := flag_of integerRepresentation "data_notification";
          Access := flag_of integerRepresentation "access";
          Get := flag_of integerRepresentation "get";
          Set_ := flag_of integerRepresentation "set";
          SelectiveAccess := flag_of integerRepresentation "selective_access";
          EventNotification := flag_of integerRepresentation "event_notification";
          Action := flag_of integerRepresentation "action" |}.

(** The 24-bit string of the three bytes that follow the unused-bits
    octet, as [FromBytes] reads it. *)
Definition bit_string (b1 b2 b3 : Z) : Z :=
  Z.lor (Z.lor (Z.lor b3 (Z.shiftl b2 8)) (Z.shiftl b1 16)) (Z.shiftl 0 24).

(** [if field { out |= 1 << position }] *)
Definition set_flag (field : bool) (name : string) (out : Z) : Z :=
  if field then Z.lor out (u32 (Z.shiftl 1 (position name))) else out.

(** The 32-bit value [out] that [ToBytes] assembles. *)
Definition Conformance_bits (c : Conformance) : Z :=
  let out := 0 in
  let out := set_flag (GeneralProtection c) "general_protection" out in
  let out := set_flag (GeneralBlockTransfer c) "general_block_transfer" out in
  let out := set_flag (DeltaValueEncoding c) "delta_value_encoding" out in
  let out := set_flag (Attribute0SupportedWithSet c) "attribute_0_supported_with_set" out in
  let out := set_flag (PriorityManagementSupported c) "priority_management_supported" out in
  let out := set_flag (Attribute0SupportedWithGet c) "attribute_0_supported_with_get" out in
  let out := set_flag (BlockTransferWithGetOrRead c) "block_transfer_with_get_or_read" out in
  let out := set_flag (BlockTransferWithSetOrWrite c) "block_transfer_with_set_or_write" out in
  let out := set_flag (BlockTransferWithAction c) "block_transfer_with_action" out in
  let out := set_flag (MultipleReferences c) "multiple_references" out in
  let out := set_flag (DataNotification c) "data_notification" out in
  let out := set_flag (Access c) "access" out in
  let out := set_flag (Get c) "get" out in
  let out := set_flag (Set_ c) "set" out in
  let out := set_flag (SelectiveAccess c) "selective_access" out in
  let out := set_flag (EventNotification c) "event_notification" out in
  let out := set_flag (Action c) "action" out in
  out.

(** [ToBytes]: the four-byte buffer [result], its first byte set to 0, then
    [binary.BigEndian.PutUint32(result[1:], out)] on the three-byte tail,
    which writes through to [result], then [result[:4]]. *)
Definition Conformance_ToBytes (c : Conformance) : result (list Z) :=
  let out := Conformance_bits c in
  let result := make 4 in
  let result := <[0%nat := 0x00]> result in
  let* tail := slice_from result 1 in
  let* written := BigEndian_PutUint32 tail out in
  let result := firstn 1 result ++ written in
  slice result 0 4.

(** A conformance block proposing Get, Set, SelectiveAccess and Action. *)
Definition example_conformance : Conformance :=
  {| GeneralProtection := false; GeneralBlockTransfer := false;
     DeltaValueEncoding := false; Attribute0SupportedWithSet := false;
     PriorityManagementSupported := false; Attribute0SupportedWithGet := false;
     BlockTransferWithGetOrRead := false; BlockTransferWithSetOrWrite := false;
     BlockTransferWithAction := false; MultipleReferences := false;
     DataNotification := false; Access := false; Get := true; Set_ := true;
     SelectiveAccess := true; EventNotification := false; Action := true |}.

(** A data block response on the wire: block 2, the last-block flag set,
    three bytes of raw data. *)
Definition last_block_bytes : list Z :=
  [0xC4; 0x02; 0xC1; 0x01; 0x00; 0x00; 0x00; 0x02; 0x03; 0xAA; 0xBB; 0xCC].

(** *** exception_response.go *)

Definition ExceptionResponseTag : Z := 216.
Definition ServiceExceptionInvocationCounterError : Z := 6.

Record ExceptionResponse : Type := {
  er_Tag : Z;                            (* BaseXDlmsApdu.Tag *)
  StateError : Z;                        (* enumerations.StateException, uint8 *)
  ServiceError : Z;                      (* enumerations.ServiceException, uint8 *)
  InvocationCounterData : option Z       (* *uint32 *)
}.

Definition NewExceptionResponse (stateError serviceError : Z)
  (invocationCounterData : option Z) : ExceptionResponse :=
  {| er_Tag := ExceptionResponseTag;
     StateError := stateError;
     ServiceError := serviceError;
     InvocationCounterData := invocationCounterData |}.

Definition ExceptionResponse_FromBytes (sourceBytes : list Z) : result ExceptionResponse :=
  if len sourceBytes <? 3
  then Err (Errorf "insufficient data for ExceptionResponse, need at least 3 bytes")
  else
    let data := sourceBytes in
    let* tag := index data 0 in
    if negb (tag =? ExceptionResponseTag)
    then Err (Errorf "tag for ExceptionResponse is not 216")
    else
      let* stateError := index data 1 in
      let* serviceError := index data 2 in
      let* data := slice_from data 3 in
      if serviceError =? ServiceExceptionInvocationCounterError then
        if len data <? 4
        then Err (Errorf "insufficient data for invocation counter, need 4 bytes")
        else
          let* four := slice data 0 4 in
          let* counter := BigEndian_Uint32 four in
          Ok (NewExceptionResponse stateError serviceError (Some counter))
      else Ok (NewExceptionResponse stateError serviceError None).

Definition ExceptionResponse_ToBytes (e : ExceptionResponse) : result (list Z) :=
  let result := [u8 ExceptionResponseTag; u8 (StateError e); u8 (ServiceError e)] in
  match InvocationCounterData e with
  | Some counter =>
      let counterBytes := make 4 in
      let* counterBytes := BigEndian_PutUint32 counterBytes counter in
      Ok (result ++ counterBytes)
  | None => Ok result
  end.

(** *** invoke_id_and_priority.go *)

Record InvokeIdAndPriority : Type := {
  InvokeID : Z;       (* uint8, 0-15 *)
  Confirmed : bool;
  HighPriority : bool
}.

Definition InvokeIdAndPriorityLength : Z := 1.

Definition NewInvokeIdAndPriority (invokeID : Z) (confirmed highPriority : bool)
  : result InvokeIdAndPriority :=
  if invokeID >? 15 then Err (Errorf "invoke_id must be between 0-15")
  else Ok {| InvokeID := invokeID; Confirmed := confirmed; HighPriority := highPriority |}.

Definition InvokeIdAndPriority_FromBytes (data : list Z) : result InvokeIdAndPriority :=
  if negb (len data =? InvokeIdAndPriorityLength)
  then Err (Errorf "length of data does not correspond with class LENGTH")
  else
    let* val := index data 0 in
    let invokeID := Z.land val 0x0F in
    let confirmed := negb (Z.land val 0x40 =? 0) in
    let highPriority := negb (Z.land val 0x80 =? 0) in
    NewInvokeIdAndPriority invokeID confirmed highPriority.

Definition InvokeIdAndPriority_ToBytes (i : InvokeIdAndPriority) : list Z :=
  let out := InvokeID i in
  let out := if Confirmed i then Z.lor out 0x40 else out in
  let out := if HighPriority i then Z.lor out 0x80 else out in
  [out].

(** *** get.go: the response with a data block *)

Definition GetResponseTag : Z := 196.
Definition GetResponseWithBlock : Z := 2.   (* enumerations.GetResponseWithBlock *)

Record GetResponseWithDataBlock : Type := {
  grb_Tag : Z;
  grb_InvokeIdAndPriority : InvokeIdAndPriority;
  LastBlock : bool;
  BlockNumber : Z;   (* uint32 *)
  RawData : list Z
}.

Definition NewGetResponseWithDataBlock (invokeIdAndPriority : InvokeIdAndPriority)
  (lastBlock : bool) (blockNumber : Z) (rawData : list Z) : GetResponseWithDataBlock :=
  {| grb_Tag := GetResponseTag;
     grb_InvokeIdAndPriority := invokeIdAndPriority;
     LastBlock := lastBlock;
     BlockNumber := blockNumber;
     RawData := rawData |}.

Definition GetResponseWithDataBlock_FromBytes (data : list Z)
  : result GetResponseWithDataBlock :=
  if len data <? 2 then Err (Errorf "insufficient data for GetResponseWithDataBlock")
  else
    let* tag := index data 0 in
    if negb (tag =? GetResponseTag)
    then Err (Errorf "tag for GET response is not correct")
    else
      let* typeChoice := index data 1 in
      if negb (typeChoice =? GetResponseWithBlock)
      then Err (Errorf "the data for the GetResponse is not for a GetResponseWithDataBlock")
      else
        let* data := slice_from data 2 in
        if len data <? 1 then Err (Errorf "insufficient data for invoke_id_and_priority")
        else
          let* one := slice data 0 1 in
          match InvokeIdAndPriority_FromBytes one with
          | Err _ => Err (Errorf "failed to parse invoke_id_and_priority")
          | Panic m => Panic m
          | Ok invokeIdAndPriority =>
              let* data := slice_from data 1 in
              if len data <? 1 then Err (Errorf "insufficient data for last_block")
              else
                let* b := index data 0 in
                let lastBlock := negb (b =? 0) in
                let* data := slice_from data 1 in
                if len data <? 4 then Err (Errorf "insufficient data for block_number")
                else
                  let* four := slice data 0 4 in
                  let* blockNumber := BigEndian_Uint32 four in
                  let* data := slice_from data 4 in
                  if len data <? 1
                  then Err (Errorf "insufficient data for raw_data length")
                  else
                    let* rawDataLength := index data 0 in
                    let* data := slice_from data 1 in
                    if len data <? rawDataLength
                    then Err (Errorf "insufficient data for raw_data")
                    else
                      let* rawData := slice data 0 rawDataLength in
                      Ok (NewGetResponseWithDataBlock invokeIdAndPriority lastBlock
                            blockNumber rawData)
          end.

Definition GetResponseWithDataBlock_ToBytes (g : GetResponseWithDataBlock)
  : result (list Z) :=
  let result := [GetResponseTag] in
  let result := result ++ [u8 GetResponseWithBlock] in
  let invokeBytes := InvokeIdAndPriority_ToBytes (grb_InvokeIdAndPriority g) in
  let result := result ++ invokeBytes in
  let result := if LastBlock g then result ++ [0x01] else result ++ [0x00] in
  let blockBytes := make 4 in
  let* blockBytes := BigEndian_PutUint32 blockBytes (BlockNumber g) in
  let result := result ++ blockBytes in
  let result := result ++ [u8 (len (RawData g))] in
  Ok (result ++ RawData g).

(** *** The long invoke id *)

Record LongInvokeIdAndPriority : Type := {
  LongInvokeID : Z;   (* uint32 *)
  long_Prioritized : bool;
  long_Confirmed : bool;
  long_SelfDescriptive : bool;
  long_BreakOnError : bool
}.

Definition NewLongInvokeIdAndPriority (longInvokeID : Z)
  (prioritized confirmed selfDescriptive breakOnError : bool) : LongInvokeIdAndPriority :=
  {| LongInvokeID := longInvokeID;
     long_Prioritized := prioritized;
     long_Confirmed := confirmed;
     long_SelfDescriptive := selfDescriptive;
     long_BreakOnError := breakOnError |}.

Definition LongInvokeIdAndPriority_FromBytes (bytesData : list Z)
  : result LongInvokeIdAndPriority :=
  if negb (len bytesData =? 4)
  then Err (Errorf "LongInvokeIdAndPriority is 4 bytes long")
  else
    let* b1 := index bytesData 1 in
    let* b2 := index bytesData 2 in
    let* b3 := index bytesData 3 in
    let longInvokeID :=
      Z.lor (Z.lor (u32 (Z.shiftl b1 16)) (u32 (Z.shiftl b2 8))) b3 in
    let* statusByte := index bytesData 0 in
    let prioritized := negb (Z.land statusByte 0x80 =? 0) in
    let confirmed := negb (Z.land statusByte 0x40 =? 0) in
    let breakOnError := negb (Z.land statusByte 0x20 =? 0) in
    let selfDescriptive := negb (Z.land statusByte 0x10 =? 0) in
    Ok (NewLongInvokeIdAndPriority longInvokeID prioritized confirmed selfDescriptive
          breakOnError).

Definition LongInvokeIdAndPriority_ToBytes (l : LongInvokeIdAndPriority) : list Z :=
  let status := 0 in
  let status := if long_Prioritized l then Z.lor status 0x80 else status in
  let status := if long_Confirmed l then Z.lor status 0x40 else status in
  let status := if long_BreakOnError l then Z.lor status 0x20 else status in
  let status := if long_SelfDescriptive l then Z.lor status 0x10 else status in
  let result := [status] in
  result ++ [u8 (Z.shiftr (LongInvokeID l) 16); u8 (Z.shiftr (LongInvokeID l) 8);
             u8 (LongInvokeID l)].

End xdlms.

(** ** Package [acse] *)

Module acse.
Import encoding.

(** [bytesEqual] *)
Definition bytesEqual (a b : list Z) : bool :=
  if negb (len a =? len b) then false
  else forallb (fun p => fst p =? snd p) (combine a b).

(** *** The BER integer and the result source diagnostics *)

Record Asn1Integer : Type := { asn1_Value : Z (* int *) }.

Definition Asn1IntegerTag : Z := 2.

Definition NewAsn1Integer (value : Z) : Asn1Integer := {| asn1_Value := value |}.

Definition Asn1Integer_FromBytes (sourceBytes : list Z) : result Asn1Integer :=
  match BER_Decode sourceBytes 1 with
  | Err _ => Err (Errorf "failed to decode BER")
  | Panic m => Panic m
  | Ok (tag, length, data) =>
      if negb (bytesEqual tag [Asn1IntegerTag])
      then Err (Errorf "data provided is not of the correct type")
      else if len data =? 1 then
        let* value := index data 0 in
        Ok (NewAsn1Integer value)
      else if len data =? 2 then
        let* value := BigEndian_Uint16 data in
        Ok (NewAsn1Integer value)
      else if len data =? 4 then
        let* value := BigEndian_Uint32 data in
        Ok (NewAsn1Integer value)
      else Err (Errorf "unsupported integer length")
  end.

Definition Asn1Integer_ToBytes (a : Asn1Integer) : result (list Z) :=
  if (asn1_Value a >=? 0) && (asn1_Value a <=? 255)
  then BER_Encode (TagInt Asn1IntegerTag) [u8 (asn1_Value a)]
  else Err (Errorf "integer value does not fit in 1 byte").

Record ResultSourceDiagnostics : Type := {
  rsd_Name : string;   (* "acse-service-user" or "acse-service-provider" *)
  rsd_Value : Z        (* int *)
}.

Definition NewResultSourceDiagnostics (name : string) (value : Z) : ResultSourceDiagnostics :=
  {| rsd_Name := name; rsd_Value := value |}.

(** [FromBytes] makes the same attempt twice, for the tag 0x81 and for the
    tag 0x82; [None] is an attempt that falls through. *)
Definition ResultSourceDiagnostics_FromBytes (sourceBytes : list Z)
  : result ResultSourceDiagnostics :=
  let attempt (tagByte : Z) (name : string) : result (option ResultSourceDiagnostics) :=
    if (len sourceBytes >=? 2) && (nth 0 sourceBytes 0 =? tagByte) then
      match BER_Decode sourceBytes 1 with
      | Panic m => Panic m
      | Err _ => Ok None
      | Ok (tag, _, data) =>
          if bytesEqual tag [tagByte] then
            if len data >? 0 then
              let* value := index data 0 in
              Ok (Some (NewResultSourceDiagnostics name value))
            else Ok None
          else Ok None
      end
    else Ok None in
  let* user := attempt 0x81 "acse-service-user" in
  match user with
  | Some r => Ok r
  | None =>
      let* provider := attempt 0x82 "acse-service-provider" in
      match provider with
      | Some r => Ok r
      | None => Err (Errorf "failed to parse result source diagnostics")
      end
  end.

Definition ResultSourceDiagnostics_ToBytes (r : ResultSourceDiagnostics) : result (list Z) :=
  if String.eqb (rsd_Name r) "acse-service-user"
  then BER_Encode (TagInt 0x81) [u8 (rsd_Value r)]
  else if String.eqb (rsd_Name r) "acse-service-provider"
  then BER_Encode (TagInt 0x82) [u8 (rsd_Value r)]
  else Err (Errorf "invalid result source diagnostics name").

Section UserInformationContent.

(** The two APDUs of package [xdlms] a user information can hold, with
    their [FromBytes] and [ToBytes]; what is defined here holds for every
    behaviour of these four methods. *)
Variables InitiateRequest InitiateResponse : Type.
Variable InitiateRequest_FromBytes : list Z -> result InitiateRequest.
Variable InitiateResponse_FromBytes : list Z -> result InitiateResponse.
Variable InitiateRequest_ToBytes : InitiateRequest -> result (list Z).
Variable InitiateResponse_ToBytes : InitiateResponse -> result (list Z).

(** The dynamic type of the field [Content interface{}]. *)
Inductive Content : Type :=
| ContentInitiateRequest (c : InitiateRequest)     (* *xdlms.InitiateRequest *)
| ContentInitiateResponse (c : InitiateResponse)   (* *xdlms.InitiateResponse *)
| ContentOther.                                    (* nil, or any other type *)

Record UserInformation : Type := {
  ui_Tag : list Z;
  ui_Content : Content
}.

Definition NewUserInformation (content : Content) : UserInformation :=
  {| ui_Tag := [0x04]; ui_Content := content |}.

(** [FromBytes] compares the decoded tag with the tag of its receiver. *)
Definition UserInformation_FromBytes (u : UserInformation) (data : list Z)
  : result UserInformation :=
  match BER_Decode data 1 with
  | Err _ => Err (Errorf "failed to decode BER")
  | Panic m => Panic m
  | Ok (tag, length, berData) =>
      if negb (bytesEqual tag (ui_Tag u))
      then Err (Errorf "the tag for UserInformation data should be 0x04")
      else if len berData =? 0
      then Err (Errorf "insufficient data for user information content")
      else
        let* choice := index berData 0 in
        if choice =? 1 then
          match InitiateRequest_FromBytes berData with
          | Err _ => Err (Errorf "failed to parse InitiateRequest")
          | Panic m => Panic m
          | Ok parsedReq => Ok (NewUserInformation (ContentInitiateRequest parsedReq))
          end
        else if choice =? 8 then
          match InitiateResponse_FromBytes berData with
          | Err _ => Err (Errorf "failed to parse InitiateResponse")
          | Panic m => Panic m
          | Ok parsedResp => Ok (NewUserInformation (ContentInitiateResponse parsedResp))
          end
        else if choice =? 14 then Err (Errorf "ConfirmedServiceError not yet implemented")
        else if choice =? 33 then Err (Errorf "GlobalCipherInitiateRequest not yet implemented")
        else if choice =? 40 then Err (Errorf "GlobalCipherInitiateResponse not yet implemented")
        else Err (Errorf "not able to find a proper data tag in UserInformation")
  end.

Definition UserInformation_ToBytes (u : UserInformation) : result (list Z) :=
  match ui_Content u with
  | ContentInitiateRequest c =>
      match InitiateRequest_ToBytes c with
      | Err _ => Err (Errorf "failed to encode InitiateRequest")
      | Panic m => Panic m
      | Ok contentBytes => BER_Encode (TagBytes (ui_Tag u)) contentBytes
      end
  | ContentInitiateResponse c =>
      match InitiateResponse_ToBytes c with
      | Err _ => Err (Errorf "failed to encode InitiateResponse")
      | Panic m => Panic m
      | Ok contentBytes => BER_Encode (TagBytes (ui_Tag u)) contentBytes
      end
  | ContentOther => Err (Errorf "unsupported content type")
  end.

(** *** rlrq.go *)

Definition RLRQTag : Z := 98.

Record ReleaseRequest : Type := {
  rlrq_Reason : option Z;                        (* *enumerations.ReleaseRequestReason *)
  rlrq_UserInformation : option UserInformation  (* *UserInformation *)
}.

Definition NewReleaseRequest (reason : option Z) (userInformation : option UserInformation)
  : ReleaseRequest :=
  {| rlrq_Reason := reason; rlrq_UserInformation := userInformation |}.

(** A value of [objectDict map[string]interface{}]. *)
Inductive parsed : Type :=
| ParsedNil                                   (* the nil interface *)
| ParsedReason (reason : Z)                   (* *enumerations.ReleaseRequestReason *)
| ParsedUserInformation (u : UserInformation). (* *UserInformation *)

(** The loop [for len(rlrqData) > 0] of [FromBytes].  Every round takes at
    least two bytes off [rlrqData], so [length rlrqData] rounds of fuel
    are enough; see [parse_objects_fuel]. *)
Fixpoint parse_objects (fuel : nat) (rlrqData : list Z) (objectDict : gmap string parsed)
  : result (gmap string parsed) :=
  if negb (len rlrqData >? 0) then Ok objectDict
  else
    match fuel with
    | O => Panic "out of fuel"
    | S fuel =>
        if len rlrqData <? 2 then Err (Errorf "insufficient data for tag and length")
        else
          let* objectTag := index rlrqData 0 in
          let* objectLength := index rlrqData 1 in
          let* rlrqData := slice_from rlrqData 2 in
          if len rlrqData <? objectLength then Err (Errorf "insufficient data for object")
          else
            let* objectData := slice rlrqData 0 objectLength in
            let* rlrqData := slice_from rlrqData objectLength in
            let* entry :=
              if objectTag =? 0x80 then
                if len objectData >? 0 then
                  match BER_Decode objectData 1 with
                  | Err _ => Err (Errorf "failed to decode reason")
                  | Panic m => Panic m
                  | Ok (tag, length, data) =>
                      if negb (bytesEqual tag [2]) then Err (Errorf "reason is not an integer")
                      else if negb (len data =? length) || (len data =? 0)
                      then Err (Errorf "invalid reason data length")
                      else
                        let* reason := index data 0 in
                        Ok ("reason", ParsedReason reason)
                  end
                else Ok ("reason", ParsedNil)
              else if objectTag =? 0xBE then
                let userInfo := {| ui_Tag := []; ui_Content := ContentOther |} in
                match UserInformation_FromBytes userInfo objectData with
                | Err _ => Err (Errorf "failed to parse user_information")
                | Panic m => Panic m
                | Ok parsedData => Ok ("user_information", ParsedUserInformation parsedData)
                end
              else Err (Errorf "could not find object with tag in RLRQ definition") in
            parse_objects fuel rlrqData (<[fst entry := snd entry]> objectDict)
    end.

Definition ReleaseRequest_FromBytes (sourceBytes : list Z) : result ReleaseRequest :=
  if len sourceBytes =? 0 then Err (Errorf "insufficient data for RLRQ tag")
  else
    let rlrqData := sourceBytes in
    let* rlrqTag := index rlrqData 0 in
    if negb (rlrqTag =? RLRQTag) then Err (Errorf "bytes are not an RLRQ APDU")
    else if len rlrqData <? 2 then Err (Errorf "insufficient data for RLRQ length")
    else
      let* rlrqLength := index rlrqData 1 in
      let* rlrqData := slice_from rlrqData 2 in
      if negb (len rlrqData =? rlrqLength)
      then Err (Errorf "the APDU data length does not correspond to length byte")
      else
        let* objectDict := parse_objects (length rlrqData) rlrqData ∅ in
        let reason :=
          match objectDict !! "reason" with
          | Some (ParsedReason reason) => Some reason
          | _ => None
          end in
        let userInformation :=
          match objectDict !! "user_information" with
          | Some (ParsedUserInformation u) => Some u
          | _ => None
          end in
        Ok (NewReleaseRequest reason userInformation).

Definition ReleaseRequest_ToBytes (r : ReleaseRequest) : result (list Z) :=
  let rlrqData := [] in
  let* rlrqData :=
    match rlrq_Reason r with
    | Some reason =>
        match BER_Encode (TagInt 0x80) [u8 reason] with
        | Err _ => Err (Errorf "failed to encode reason")
        | Panic m => Panic m
        | Ok reasonBytes => Ok (rlrqData ++ reasonBytes)
        end
    | None => Ok rlrqData
    end in
  let* rlrqData :=
    match rlrq_UserInformation r with
    | Some userInformation =>
        match UserInformation_ToBytes userInformation with
        | Err _ => Err (Errorf "failed to encode user_information")
        | Panic m => Panic m
        | Ok userInfoBytes =>
            match BER_Encode (TagInt 0xBE) userInfoBytes with
            | Err _ => Err (Errorf "failed to BER encode user_information")
            | Panic m => Panic m
            | Ok encoded => Ok (rlrqData ++ encoded)
            end
        end
    | None => Ok rlrqData
    end in
  BER_Encode (TagInt RLRQTag) rlrqData.

End UserInformationContent.

Arguments ContentInitiateRequest {_ _} c.
Arguments ContentInitiateResponse {_ _} c.
Arguments ContentOther {_ _}.
Arguments ui_Tag {_ _} u.
Arguments ui_Content {_ _} u.
Arguments NewUserInformation {_ _} content.
Arguments UserInformation_FromBytes {_ _} _ _ u data.
Arguments UserInformation_ToBytes {_ _} _ _ u.
Arguments rlrq_Reason {_ _} r.
Arguments rlrq_UserInformation {_ _} r.
Arguments NewReleaseRequest {_ _} reason userInformation.
Arguments ParsedNil {_ _}.
Arguments ParsedReason {_ _} reason.
Arguments ParsedUserInformation {_ _} u.
Arguments parse_objects {_ _} _ _ fuel rlrqData objectDict.
Arguments ReleaseRequest_FromBytes {_ _} _ _ sourceBytes.
Arguments ReleaseRequest_ToBytes {_ _} _ _ r.

End acse.

(** ** Package [dlms]: the session state machine *)

Module dlms.

(** The thirteen sentinel [*State] values.  A state is compared and used
    as a map key by pointer identity, so each sentinel is one
    constructor. *)
Inductive State : Type :=
| NoAssociation
| AwaitingAssociationResponse
| Ready
| AwaitingReleaseResponse
| AwaitingActionResponse
| AwaitingGetResponse
| AwaitingGetBlockResponse
| ShouldAckLastGetBlock
| AwaitingSetResponse
| ShouldSendHlsServerChallengeResult
| AwaitingHlsClientChallengeResult
| HlsDone
| NeedData.

Definition all_states : list State :=
  [ NoAssociation; AwaitingAssociationResponse; Ready; AwaitingReleaseResponse;
    AwaitingActionResponse; AwaitingGetResponse; AwaitingGetBlockResponse;
    ShouldAckLastGetBlock; AwaitingSetResponse; ShouldSendHlsServerChallengeResult;
    AwaitingHlsClientChallengeResult; HlsDone; NeedData ].

#[global] Instance State_eq_dec : EqDecision State.
Proof. solve_decision. Defined.

Definition State_index (s : State) : nat :=
  match s with
  | NoAssociation => 0 | AwaitingAssociationResponse => 1 | Ready => 2
  | AwaitingReleaseResponse => 3 | AwaitingActionResponse => 4
  | AwaitingGetResponse => 5 | AwaitingGetBlockResponse => 6
  | ShouldAckLastGetBlock => 7 | AwaitingSetResponse => 8
  | ShouldSendHlsServerChallengeResult => 9
  | AwaitingHlsClientChallengeResult => 10 | HlsDone => 11 | NeedData => 12
  end%nat.

#[global] Instance State_countable : Countable State.
Proof.
  refine (inj_countable' State_index (fun n => nth n all_states NeedData) _).
  intros []; reflexivity.
Defined.

(** The struct types of the packages [acse], [xdlms] and [dlms] that an
    event can have. *)
Inductive TypeName : Type :=
| ApplicationAssociationRequest | ApplicationAssociationResponse
| ReleaseRequest | ReleaseResponse
| InitiateRequest | InitiateResponse
| GetRequestNormal | GetRequestNext | GetRequestWithList
| GetResponseNormal | GetResponseNormalWithError | GetResponseWithDataBlock
| GetResponseWithList | GetResponseLastBlock | GetResponseLastBlockWithError
| SetRequestNormal | SetResponseNormal
| ActionRequestNormal | ActionResponseNormal | ActionResponseNormalWithData
| ActionResponseNormalWithError
| DataNotification | ExceptionResponse
| HlsStart | HlsSuccess | HlsFailed | RejectAssociation | EndAssociation.

Definition all_type_names : list TypeName :=
  [ ApplicationAssociationRequest; ApplicationAssociationResponse;
    ReleaseRequest; ReleaseResponse; InitiateRequest; InitiateResponse;
    GetRequestNormal; GetRequestNext; GetRequestWithList;
    GetResponseNormal; GetResponseNormalWithError; GetResponseWithDataBlock;
    GetResponseWithList; GetResponseLastBlock; GetResponseLastBlockWithError;
    SetRequestNormal; SetResponseNormal;
    ActionRequestNormal; ActionResponseNormal; ActionResponseNormalWithData;
    ActionResponseNormalWithError;
    DataNotification; ExceptionResponse;
    HlsStart; HlsSuccess; HlsFailed; RejectAssociation; EndAssociation ].

#[global] Instance TypeName_eq_dec : EqDecision TypeName.
Proof. solve_decision. Defined.

Definition TypeName_index (t : TypeName) : nat :=
  match t with
  | ApplicationAssociationRequest => 0 | ApplicationAssociationResponse => 1
  | ReleaseRequest => 2 | ReleaseResponse => 3
  | InitiateRequest => 4 | InitiateResponse => 5
  | GetRequestNormal => 6 | GetRequestNext => 7 | GetRequestWithList => 8
  | GetResponseNormal => 9 | GetResponseNormalWithError => 10
  | GetResponseWithDataBlock => 11 | GetResponseWithList => 12
  | GetResponseLastBlock => 13 | GetResponseLastBlockWithError => 14
  | SetRequestNormal => 15 | SetResponseNormal => 16
  | ActionRequestNormal => 17 | ActionResponseNormal => 18
  | ActionResponseNormalWithData => 19 | ActionResponseNormalWithError => 20
  | DataNotification => 21 | ExceptionResponse => 22
  | HlsStart => 23 | HlsSuccess => 24 | HlsFailed => 25
  | RejectAssociation => 26 | EndAssociation => 27
  end%nat.

#[global] Instance TypeName_countable : Countable TypeName.
Proof.
  refine (inj_countable' TypeName_index
            (fun n => nth n all_type_names EndAssociation) _).
  intros []; reflexivity.
Defined.

(** A [reflect.Type]: the struct type itself, a pointer to it (what the
    [New...] constructors and the APDU factory return), or the nil type
    of a nil interface. *)
Inductive rtype : Type :=
| TStruct (n : TypeName)
| TPtr (n : TypeName)
| TNil.

#[global] Instance rtype_eq_dec : EqDecision rtype.
Proof. solve_decision. Defined.

#[global] Instance rtype_countable : Countable rtype.
Proof.
  refine (inj_countable'
            (fun t => match t with
                      | TStruct n => inl n
                      | TPtr n => inr (inl n)
                      | TNil => inr (inr tt)
                      end)
            (fun x => match x with
                      | inl n => TStruct n
                      | inr (inl n) => TPtr n
                      | inr (inr _) => TNil
                      end) _).
  intros []; reflexivity.
Defined.

(** [reflect.TypeOf] of a nil pointer to [T], then [Elem()]: the struct
    type [T] itself. *)
Definition TypeOf_nil_ptr_Elem (n : TypeName) : rtype := TStruct n.

(** A value passed as [interface{}] carries its dynamic type. *)
Class Dynamic (A : Type) := reflect_TypeOf : A -> rtype.

(** The flow control events are empty structs. *)
Inductive FlowEvent : Type :=
| EvHlsStart | EvHlsSuccess | EvHlsFailed | EvRejectAssociation | EvEndAssociation.

#[global] Instance FlowEvent_dynamic : Dynamic FlowEvent :=
  fun e => match e with
           | EvHlsStart => TStruct HlsStart
           | EvHlsSuccess => TStruct HlsSuccess
           | EvHlsFailed => TStruct HlsFailed
           | EvRejectAssociation => TStruct RejectAssociation
           | EvEndAssociation => TStruct EndAssociation
           end.

(** A parsed data block response, passed as the struct or as the pointer
    the parser returns. *)
Inductive ptr (A : Type) : Type := AddressOf (a : A).
Arguments AddressOf {A} a.

#[global] Instance GetResponseWithDataBlock_dynamic
  : Dynamic xdlms.GetResponseWithDataBlock :=
  fun _ => TStruct GetResponseWithDataBlock.

#[global] Instance GetResponseWithDataBlock_ptr_dynamic
  : Dynamic (ptr xdlms.GetResponseWithDataBlock) :=
  fun _ => TPtr GetResponseWithDataBlock.

(** An event given by its type alone. *)
#[global] Instance rtype_dynamic : Dynamic rtype := fun t => t.

Record DlmsConnectionState : Type := { currentState : State }.

Definition NewDlmsConnectionState : DlmsConnectionState :=
  {| currentState := NoAssociation |}.

Definition NewDlmsConnectionStateWithState (state : State) : DlmsConnectionState :=
  {| currentState := state |}.

Definition CurrentState (d : DlmsConnectionState) : State := currentState d.

(** [dlmsStateTransitions]: the transition table, entry by entry. *)
Definition dlmsStateTransitions : gmap State (gmap rtype State) :=
  list_to_map
    [ (NoAssociation, list_to_map
         [ (TypeOf_nil_ptr_Elem ApplicationAssociationRequest, AwaitingAssociationResponse) ]);
      (AwaitingAssociationResponse, list_to_map
         [ (TypeOf_nil_ptr_Elem ApplicationAssociationResponse, Ready);
           (TypeOf_nil_ptr_Elem ExceptionResponse, NoAssociation) ]);
      (Ready, list_to_map
         [ (TypeOf_nil_ptr_Elem ReleaseRequest, AwaitingReleaseResponse);
           (TypeOf_nil_ptr_Elem GetRequestNormal, AwaitingGetResponse);
           (TypeOf_nil_ptr_Elem SetRequestNormal, AwaitingSetResponse);
           (TypeOf_nil_ptr_Elem HlsStart, ShouldSendHlsServerChallengeResult);
           (TypeOf_nil_ptr_Elem RejectAssociation, NoAssociation);
           (TypeOf_nil_ptr_Elem ActionRequestNormal, AwaitingActionResponse);
           (TypeOf_nil_ptr_Elem DataNotification, Ready);
           (TypeOf_nil_ptr_Elem EndAssociation, NoAssociation) ]);
      (ShouldSendHlsServerChallengeResult, list_to_map
         [ (TypeOf_nil_ptr_Elem ActionRequestNormal, AwaitingHlsClientChallengeResult) ]);
      (AwaitingHlsClientChallengeResult, list_to_map
         [ (TypeOf_nil_ptr_Elem ActionResponseNormalWithData, HlsDone);
           (TypeOf_nil_ptr_Elem ActionResponseNormal, NoAssociation);
           (TypeOf_nil_ptr_Elem ActionResponseNormalWithError, NoAssociation) ]);
      (HlsDone, list_to_map
         [ (TypeOf_nil_ptr_Elem HlsSuccess, Ready);
           (TypeOf_nil_ptr_Elem HlsFailed, NoAssociation) ]);
      (AwaitingGetResponse, list_to_map
         [ (TypeOf_nil_ptr_Elem GetResponseNormal, Ready);
           (TypeOf_nil_ptr_Elem GetResponseWithDataBlock, ShouldAckLastGetBlock);
           (TypeOf_nil_ptr_Elem GetResponseNormalWithError, Ready);
           (TypeOf_nil_ptr_Elem ExceptionResponse, Ready) ]);
      (AwaitingGetBlockResponse, list_to_map
         [ (TypeOf_nil_ptr_Elem GetResponseWithDataBlock, ShouldAckLastGetBlock);
           (TypeOf_nil_ptr_Elem GetResponseNormalWithError, Ready);
           (TypeOf_nil_ptr_Elem ExceptionResponse, Ready) ]);
      (AwaitingSetResponse, list_to_map
         [ (TypeOf_nil_ptr_Elem SetResponseNormal, Ready) ]);
      (AwaitingActionResponse, list_to_map
         [ (TypeOf_nil_ptr_Elem ActionResponseNormal, Ready);
           (TypeOf_nil_ptr_Elem ActionResponseNormalWithData, Ready);
           (TypeOf_nil_ptr_Elem ActionResponseNormalWithError, Ready) ]);
      (ShouldAckLastGetBlock, list_to_map
         [ (TypeOf_nil_ptr_Elem GetRequestNext, AwaitingGetBlockResponse) ]);
      (AwaitingReleaseResponse, list_to_map
         [ (TypeOf_nil_ptr_Elem ReleaseResponse, NoAssociation);
           (TypeOf_nil_ptr_Elem ExceptionResponse, Ready) ]) ].

(** [transitionState]: the method mutates [d.currentState]; the model
    returns the connection state after the call next to the returned
    [error] ([None] is Go's [nil]). *)
Definition transitionState (d : DlmsConnectionState) (eventType : rtype)
  : DlmsConnectionState * option error :=
  match dlmsStateTransitions !! currentState d with
  | None => (d, Some (Errorf "no transitions defined for state"))
  | Some transitions =>
      match transitions !! eventType with
      | None => (d, Some (LocalDlmsProtocolError "can't handle event type when state"))
      | Some newState => ({| currentState := newState |}, None)
      end
  end.

Definition ProcessEvent {A} `{Dynamic A} (d : DlmsConnectionState) (event : A)
  : DlmsConnectionState * option error :=
  let eventType := reflect_TypeOf event in
  transitionState d eventType.

(** The states a connection created by [NewDlmsConnectionState] can be
    in: the initial one and those entered by a call of [ProcessEvent]
    that returned no error. *)
Inductive reachable : State -> Prop :=
| reachable_init : reachable (currentState NewDlmsConnectionState)
| reachable_step (d d' : DlmsConnectionState) (eventType : rtype) :
    reachable (currentState d) ->
    ProcessEvent d eventType = (d', None) ->
    reachable (currentState d').

(** The transition table of section 4.9 of the specification, row by
    row as the specification words it (the row for
    AwaitingGetBlockResponse reads "same as AwaitingGetResponse").  It is
    the specification's table, not the code's; the two are compared
    below. *)
Definition spec_table (s : State) (t : rtype) : option State :=
  match t with
  | TStruct e =>
      match s, e with
      | NoAssociation, ApplicationAssociationRequest => Some AwaitingAssociationResponse
      | AwaitingAssociationResponse, ApplicationAssociationResponse => Some Ready
      | AwaitingAssociationResponse, ExceptionResponse => Some NoAssociation
      | Ready, GetRequestNormal => Some AwaitingGetResponse
      | Ready, SetRequestNormal => Some AwaitingSetResponse
      | Ready, ActionRequestNormal => Some AwaitingActionResponse
      | Ready, ReleaseRequest => Some AwaitingReleaseResponse
      | Ready, HlsStart => Some ShouldSendHlsServerChallengeResult
      | Ready, DataNotification => Some Ready
      | Ready, RejectAssociation => Some NoAssociation
      | Ready, EndAssociation => Some NoAssociation
      | ShouldSendHlsServerChallengeResult, ActionRequestNormal =>
          Some AwaitingHlsClientChallengeResult
      | AwaitingHlsClientChallengeResult, ActionResponseNormalWithData => Some HlsDone
      | AwaitingHlsClientChallengeResult, ActionResponseNormal => Some NoAssociation
      | AwaitingHlsClientChallengeResult, ActionResponseNormalWithError => Some NoAssociation
      | HlsDone, HlsSuccess => Some Ready
      | HlsDone, HlsFailed => Some NoAssociation
      | AwaitingGetResponse, GetResponseNormal => Some Ready
      | AwaitingGetResponse, GetResponseNormalWithError => Some Ready
      | AwaitingGetResponse, ExceptionResponse => Some Ready
      | AwaitingGetResponse, GetResponseWithDataBlock => Some ShouldAckLastGetBlock
      | ShouldAckLastGetBlock, GetRequestNext => Some AwaitingGetBlockResponse
      | AwaitingGetBlockResponse, GetResponseNormal => Some Ready
      | AwaitingGetBlockResponse, GetResponseNormalWithError => Some Ready
      | AwaitingGetBlockResponse, ExceptionResponse => Some Ready
      | AwaitingGetBlockResponse, GetResponseWithDataBlock => Some ShouldAckLastGetBlock
      | AwaitingSetResponse, SetResponseNormal => Some Ready
      | AwaitingActionResponse, ActionResponseNormal => Some Ready
      | AwaitingActionResponse, ActionResponseNormalWithData => Some Ready
      | AwaitingActionResponse, ActionResponseNormalWithError => Some Ready
      | AwaitingReleaseResponse, ReleaseResponse => Some NoAssociation
      | AwaitingReleaseResponse, ExceptionResponse => Some Ready
      | _, _ => None
      end
  | _ => None
  end.

(** The twelve states of section 4.9 of the specification. *)
Definition spec_states : list State :=
  [ NoAssociation; AwaitingAssociationResponse; Ready; AwaitingReleaseResponse;
    AwaitingActionResponse; AwaitingGetResponse; AwaitingGetBlockResponse;
    ShouldAckLastGetBlock; AwaitingSetResponse; ShouldSendHlsServerChallengeResult;
    AwaitingHlsClientChallengeResult; HlsDone ].

(** A pair is accepted when [ProcessEvent] returns no error; [accepts]
    gives the state entered. *)
Definition accepts (s : State) (t : rtype) : option State :=
  match ProcessEvent (NewDlmsConnectionStateWithState s) t with
  | (d', None) => Some (currentState d')
  | (_, Some _) => None
  end.

(** Successive calls of [ProcessEvent] on one connection, up to the first
    that returns an error. *)
Fixpoint ProcessEvents (d : DlmsConnectionState) (events : list rtype)
  : DlmsConnectionState * option error :=
  match events with
  | [] => (d, None)
  | event :: events =>
      match ProcessEvent d event with
      | (d', None) => ProcessEvents d' events
      | (d', Some e) => (d', Some e)
      end
  end.

End dlms.

(* ================================================================== *)
(** * Theorems *)
(* ================================================================== *)

Section SessionFsm.
Import dlms.

(** The code's table differs from the specification's table in exactly
    one pair. *)
Lemma accepts_vs_spec_table (s : State) (t : rtype) :
  accepts s t =
    if decide (s = AwaitingGetBlockResponse /\ t = TStruct GetResponseNormal)
    then None else spec_table s t.
Proof.
  destruct s; destruct t as [n|n|]; try destruct n; vm_compute; reflexivity.
Qed.

Lemma ProcessEvent_accepts (d d' : DlmsConnectionState) (t : rtype) :
  ProcessEvent d t = (d', None) <-> accepts (currentState d) t = Some (currentState d').
Proof.
  destruct d as [s], d' as [s'].
  unfold accepts, NewDlmsConnectionStateWithState. cbn [currentState].
  destruct (ProcessEvent {| currentState := s |} t) as [[s''] [e|]]; cbn [currentState];
    split; intros H; try discriminate; congruence.
Qed.

Lemma accepts_never_NeedData (s : State) (t : rtype) : accepts s t <> Some NeedData.
Proof.
  destruct s; destruct t as [n|n|]; try destruct n; vm_compute; discriminate.
Qed.

Lemma reachable_via (s s' : State) (t : rtype) :
  reachable s -> accepts s t = Some s' -> reachable s'.
Proof.
  intros Hs Ha.
  apply (reachable_step {| currentState := s |} {| currentState := s' |} t Hs).
  apply ProcessEvent_accepts. exact Ha.
Qed.

Lemma reachable_not_NeedData (s : State) : reachable s -> s <> NeedData.
Proof.
  induction 1 as [|d d' t Hd IH Hstep].
  - discriminate.
  - apply ProcessEvent_accepts in Hstep. intros E. rewrite E in Hstep.
    exact (accepts_never_NeedData _ _ Hstep).
Qed.

Lemma reachable_spec_states (s : State) : In s spec_states -> reachable s.
Proof.
  assert (R0 : reachable NoAssociation) by exact reachable_init.
  assert (R1 : reachable AwaitingAssociationResponse)
    by (apply (reachable_via _ _ (TStruct ApplicationAssociationRequest) R0); reflexivity).
  assert (R2 : reachable Ready)
    by (apply (reachable_via _ _ (TStruct ApplicationAssociationResponse) R1); reflexivity).
  assert (R3 : reachable AwaitingGetResponse)
    by (apply (reachable_via _ _ (TStruct GetRequestNormal) R2); reflexivity).
  assert (R4 : reachable ShouldAckLastGetBlock)
    by (apply (reachable_via _ _ (TStruct GetResponseWithDataBlock) R3); reflexivity).
  assert (R5 : reachable ShouldSendHlsServerChallengeResult)
    by (apply (reachable_via _ _ (TStruct HlsStart) R2); reflexivity).
  assert (R6 : reachable AwaitingHlsClientChallengeResult)
    by (apply (reachable_via _ _ (TStruct ActionRequestNormal) R5); reflexivity).
  cbn. intros [<-|[<-|[<-|[<-|[<-|[<-|[<-|[<-|[<-|[<-|[<-|[<-|[]]]]]]]]]]]]];
    try assumption.
  - apply (reachable_via _ _ (TStruct ReleaseRequest) R2); reflexivity.
  - apply (reachable_via _ _ (TStruct ActionRequestNormal) R2); reflexivity.
  - apply (reachable_via _ _ (TStruct GetRequestNext) R4); reflexivity.
  - apply (reachable_via _ _ (TStruct SetRequestNormal) R2); reflexivity.
  - apply (reachable_via _ _ (TStruct ActionResponseNormalWithData) R6); reflexivity.
Qed.

Lemma has_transitions (s : State) :
  s <> NeedData -> (fun _ => tt) <$> (dlmsStateTransitions !! s) = Some tt.
Proof. destruct s; intros Hs; try (vm_compute; reflexivity). congruence. Qed.

Lemma reachable_has_transitions (s : State) :
  reachable s -> is_Some (dlmsStateTransitions !! s).
Proof.
  intros Hs. apply reachable_not_NeedData, has_transitions in Hs.
  destruct (dlmsStateTransitions !! s) as [m|]; [eexists; reflexivity|discriminate Hs].
Qed.

(** C2, counterexample: in AwaitingGetBlockResponse a
    GetResponseNormal is listed by the specification's table (the row
    "same as AwaitingGetResponse", where it leads to Ready) and is
    rejected by the code. *)
Lemma session_table_counterexample :
  spec_table AwaitingGetBlockResponse (TStruct GetResponseNormal) = Some Ready /\
  accepts AwaitingGetResponse (TStruct GetResponseNormal) = Some Ready /\
  ProcessEvent (NewDlmsConnectionStateWithState AwaitingGetBlockResponse)
    (TStruct GetResponseNormal)
  = (NewDlmsConnectionStateWithState AwaitingGetBlockResponse,
     Some (LocalDlmsProtocolError "can't handle event type when state")).
Proof.
  repeat (apply conj; [vm_compute; reflexivity|]). vm_compute. reflexivity.
Qed.

(** C2, amended.  The session state machine accepts a (state, event
    type) pair, entering the listed state, exactly when the pair is in the
    table of section 4.9 and is not (AwaitingGetBlockResponse,
    GetResponseNormal); every other pair returns an error and leaves the
    state as it was.  AwaitingGetBlockResponse accepts
    GetResponseWithDataBlock (to ShouldAckLastGetBlock),
    GetResponseNormalWithError and ExceptionResponse (to Ready) and nothing
    else. *)
Theorem session_fsm_accepts_table_but_one_pair :
  (forall (s s' : State) (t : rtype),
     ProcessEvent (NewDlmsConnectionStateWithState s) t
       = (NewDlmsConnectionStateWithState s', None)
     <-> (spec_table s t = Some s' /\
          ~ (s = AwaitingGetBlockResponse /\ t = TStruct GetResponseNormal))) /\
  (forall (s : State) (t : rtype),
     spec_table s t = None \/
     (s = AwaitingGetBlockResponse /\ t = TStruct GetResponseNormal) ->
     exists e, ProcessEvent (NewDlmsConnectionStateWithState s) t
                 = (NewDlmsConnectionStateWithState s, Some e)) /\
  (forall t : rtype,
     accepts AwaitingGetBlockResponse t =
       match t with
       | TStruct GetResponseWithDataBlock => Some ShouldAckLastGetBlock
       | TStruct GetResponseNormalWithError => Some Ready
       | TStruct ExceptionResponse => Some Ready
       | _ => None
       end).
Proof.
  split; [|split].
  - intros s s' t. rewrite ProcessEvent_accepts. cbn [currentState NewDlmsConnectionStateWithState].
    rewrite accepts_vs_spec_table. case_decide as Hd; split.
    + discriminate.
    + intros [_ Hn]. contradiction.
    + intros H. split; [exact H|exact Hd].
    + intros [H _]. exact H.
  - intros s t Hrej.
    assert (Ha : accepts s t = None).
    { rewrite accepts_vs_spec_table. case_decide as Hd; [reflexivity|].
      destruct Hrej as [Hn|Hn]; [exact Hn|contradiction]. }
    unfold accepts in Ha. unfold ProcessEvent, transitionState in *.
    cbn [currentState NewDlmsConnectionStateWithState] in *.
    destruct (dlmsStateTransitions !! s) as [m|]; [|eexists; reflexivity].
    destruct (m !! reflect_TypeOf t); [discriminate|eexists; reflexivity].
  - intros t. destruct t as [n|n|]; try destruct n; vm_compute; reflexivity.
Qed.

(** C9. In a state reachable from NoAssociation, an event whose type has
    no entry for that state in the transition table is answered with a
    LocalDlmsProtocolError, and the connection state is unchanged. *)
Theorem illegal_event_rejected_state_unchanged
  {A : Type} `{Dynamic A} (d : DlmsConnectionState) (event : A) :
  reachable (currentState d) ->
  (forall transitions : gmap rtype State,
     dlmsStateTransitions !! currentState d = Some transitions ->
     transitions !! reflect_TypeOf event = None) ->
  exists msg : string,
    ProcessEvent d event = (d, Some (LocalDlmsProtocolError msg)).
Proof.
  intros Hr Hno.
  destruct (reachable_has_transitions _ Hr) as [m Hm].
  unfold ProcessEvent, transitionState. rewrite Hm, (Hno m Hm).
  eexists. reflexivity.
Qed.

Lemma illegal_event_rejected_witness :
  exists msg : string,
    ProcessEvent NewDlmsConnectionState EvHlsStart
      = (NewDlmsConnectionState, Some (LocalDlmsProtocolError msg)).
Proof.
  apply illegal_event_rejected_state_unchanged.
  - exact reachable_init.
  - intros transitions Hm.
    assert (E : (dlmsStateTransitions !! NoAssociation)
                  ≫= (fun m => m !! reflect_TypeOf EvHlsStart) = None)
      by (vm_compute; reflexivity).
    cbn [currentState NewDlmsConnectionState] in Hm.
    rewrite Hm in E. exact E.
Defined.

(** C10. No entry of the transition table leads to NeedData, so NeedData
    is never entered from the initial state: the reachable states are
    exactly the twelve states of the specification, one fewer than the
    thirteen the code declares. *)
Theorem NeedData_is_unreachable :
  (forall (s : State) (t : rtype), accepts s t <> Some NeedData) /\
  ~ reachable NeedData /\
  (forall s : State, reachable s <-> In s spec_states) /\
  length spec_states = 12%nat /\ length all_states = 13%nat /\
  (forall s : State, In s all_states).
Proof.
  split; [exact accepts_never_NeedData|].
  split; [intros Hr; exact (reachable_not_NeedData _ Hr eq_refl)|].
  split; [|split; [reflexivity|split; [reflexivity|]]].
  - intros s. split; [|apply reachable_spec_states].
    intros Hr. apply reachable_not_NeedData in Hr.
    destruct s; cbn; tauto.
  - intros []; cbn; tauto.
Qed.

End SessionFsm.

Section CrcFacts.
Import encoding.

(** *** Exhaustive checks over the 256 byte values *)

Lemma all_bytes_complete (x : Z) : is_byte x -> In x all_bytes.
Proof.
  intros [H0 H1]. unfold all_bytes.
  apply in_map_iff. exists (Z.to_nat x). split; [lia|].
  apply in_seq. lia.
Qed.

Lemma forall_bytes (P : Z -> bool) :
  forallb P all_bytes = true -> forall x, is_byte x -> P x = true.
Proof.
  intros H x Hx. rewrite forallb_forall in H. apply H, all_bytes_complete, Hx.
Qed.

Lemma reverseByte_is_byte (x : Z) : is_byte x -> is_byte (reverseByte x).
Proof.
  intros Hx.
  pose proof (forall_bytes (fun x => is_byteb (reverseByte x)) eq_refl x Hx) as H.
  unfold is_byteb in H. apply andb_prop in H as [H0 H1].
  unfold is_byte. lia.
Qed.

Lemma reverseByte_involutive (x : Z) : is_byte x -> reverseByte (reverseByte x) = x.
Proof.
  intros Hx.
  pose proof (forall_bytes (fun x => reverseByte (reverseByte x) =? x) eq_refl x Hx) as H.
  lia.
Qed.

Lemma reverseByte_inj (x y : Z) :
  is_byte x -> is_byte y -> reverseByte x = reverseByte y -> x = y.
Proof.
  intros Hx Hy H.
  rewrite <- (reverseByte_involutive x Hx), <- (reverseByte_involutive y Hy), H.
  reflexivity.
Qed.

(** *** Fixed-width values *)

Lemma land_ones_range (n x : Z) : 0 <= n -> 0 <= Z.land x (Z.ones n) < 2 ^ n.
Proof.
  intros Hn. rewrite Z.land_ones by assumption.
  apply Z.mod_pos_bound. apply Z.pow_pos_nonneg; lia.
Qed.

Lemma range_land_ones (n x : Z) : 0 <= n -> 0 <= x < 2 ^ n -> Z.land x (Z.ones n) = x.
Proof.
  intros Hn Hx. rewrite Z.land_ones by assumption. apply Z.mod_small, Hx.
Qed.

Lemma lxor_range (n a b : Z) :
  0 <= n -> 0 <= a < 2 ^ n -> 0 <= b < 2 ^ n -> 0 <= Z.lxor a b < 2 ^ n.
Proof.
  intros Hn Ha Hb.
  rewrite <- (range_land_ones n a Hn Ha), <- (range_land_ones n b Hn Hb).
  replace (Z.lxor (Z.land a (Z.ones n)) (Z.land b (Z.ones n)))
    with (Z.land (Z.lxor a b) (Z.ones n)) by (Z.bitblast).
  apply land_ones_range, Hn.
Qed.

Lemma lxor_cancel_r (a b c : Z) : Z.lxor a c = Z.lxor b c -> a = b.
Proof.
  intros H. apply (f_equal (fun x => Z.lxor x c)) in H.
  rewrite !Z.lxor_assoc, !Z.lxor_nilpotent, !Z.lxor_0_r in H. exact H.
Qed.

Lemma lxor_cancel_l (a b c : Z) : Z.lxor c a = Z.lxor c b -> a = b.
Proof. rewrite !(Z.lxor_comm c). apply lxor_cancel_r. Qed.

Lemma u8_byte (x : Z) : is_byte x -> u8 x = x.
Proof. intros Hx. unfold u8. change 255 with (Z.ones 8). apply range_land_ones; [lia|exact Hx]. Qed.

Lemma lxor_byte (a b : Z) : is_byte a -> is_byte b -> is_byte (Z.lxor a b).
Proof. intros Ha Hb. apply (lxor_range 8); [lia|exact Ha|exact Hb]. Qed.

(** *** The lookup table *)

Lemma crcTable_entry_range (i : Z) :
  is_byte i -> is_u16 (nth (Z.to_nat i) (crcTable NewCRCCCITT) 0).
Proof.
  intros Hi.
  assert (H : forallb (fun i => let t := nth (Z.to_nat i) (crcTable NewCRCCCITT) 0 in
                                (0 <=? t) && (t <? 65536)) all_bytes = true)
    by (vm_compute; reflexivity).
  pose proof (forall_bytes _ H i Hi) as H'. cbv zeta in H'.
  apply andb_prop in H' as [H0 H1]. unfold is_u16. lia.
Qed.

(** The low bytes of the 256 entries are pairwise different. *)
Lemma crcTable_low_byte_inj (i j : Z) :
  is_byte i -> is_byte j ->
  Z.land (nth (Z.to_nat i) (crcTable NewCRCCCITT) 0) 0xFF =
  Z.land (nth (Z.to_nat j) (crcTable NewCRCCCITT) 0) 0xFF ->
  i = j.
Proof.
  intros Hi Hj.
  assert (H : forallb (fun i => forallb (fun j =>
                implb (Z.land (nth (Z.to_nat i) (crcTable NewCRCCCITT) 0) 0xFF =?
                       Z.land (nth (Z.to_nat j) (crcTable NewCRCCCITT) 0) 0xFF)
                      (i =? j)) all_bytes) all_bytes = true)
    by (vm_compute; reflexivity).
  pose proof (forall_bytes _ (forall_bytes _ H i Hi) j Hj) as H'. cbv beta in H'.
  intros E. rewrite E, Z.eqb_refl in H'. cbn in H'. lia.
Qed.

(** *** One step of the table-driven loop *)

Lemma calculate_step_index_byte (s c : Z) :
  is_byte c -> is_byte (Z.lxor (Z.land (Z.shiftr s 8) 0xFF) c).
Proof.
  intros Hc. apply lxor_byte; [|exact Hc].
  change 255 with (Z.ones 8). apply (land_ones_range 8). lia.
Qed.

Lemma calculate_step_range (s c : Z) :
  is_byte c -> is_u16 (calculate_step NewCRCCCITT s c).
Proof.
  intros Hc. unfold calculate_step, is_u16.
  apply (lxor_range 16); [lia| |apply crcTable_entry_range, calculate_step_index_byte, Hc].
  unfold u16. change 65535 with (Z.ones 16).
  rewrite <- Z.land_assoc, (Z.land_comm (Z.ones 16)), Z.land_assoc.
  apply (land_ones_range 16). lia.
Qed.

Lemma calculate_step_low_byte (s t : Z) :
  Z.land (Z.lxor (Z.land (u16 (Z.shiftl s 8)) 0xFF00) t) 0xFF = Z.land t 0xFF.
Proof.
  unfold u16. change 65535 with (Z.ones 16). change 255 with (Z.ones 8).
  change 65280 with (Z.shiftl (Z.ones 8) 8).
  Z.bitblast.
Qed.

Lemma u16_split (s : Z) :
  Z.land s (Z.ones 16) =
  Z.lor (Z.shiftl (Z.land (Z.shiftr s 8) 0xFF) 8)
        (Z.shiftr (Z.land (u16 (Z.shiftl s 8)) 0xFF00) 8).
Proof.
  unfold u16. change 65535 with (Z.ones 16). change 255 with (Z.ones 8).
  change 65280 with (Z.shiftl (Z.ones 8) 8).
  Z.bitblast.
Qed.

Lemma calculate_step_inj_char (s c1 c2 : Z) :
  is_byte c1 -> is_byte c2 ->
  calculate_step NewCRCCCITT s c1 = calculate_step NewCRCCCITT s c2 -> c1 = c2.
Proof.
  intros H1 H2 E. unfold calculate_step in E. cbv zeta in E.
  apply lxor_cancel_l in E.
  apply (f_equal (fun t => Z.land t 0xFF)) in E.
  apply crcTable_low_byte_inj in E; try (apply calculate_step_index_byte; assumption).
  apply lxor_cancel_l in E. exact E.
Qed.

Lemma calculate_step_inj_state (s1 s2 c : Z) :
  is_u16 s1 -> is_u16 s2 -> is_byte c ->
  calculate_step NewCRCCCITT s1 c = calculate_step NewCRCCCITT s2 c -> s1 = s2.
Proof.
  intros H1 H2 Hc E. unfold calculate_step in E. cbv zeta in E.
  pose proof (f_equal (fun t => Z.land t 0xFF) E) as Elow. cbv beta in Elow.
  rewrite !calculate_step_low_byte in Elow.
  apply crcTable_low_byte_inj in Elow; try (apply calculate_step_index_byte; assumption).
  rewrite Elow in E. apply lxor_cancel_r in E. apply lxor_cancel_r in Elow.
  rewrite <- (range_land_ones 16 s1), <- (range_land_ones 16 s2) by (unfold is_u16 in *; lia).
  rewrite (u16_split s1), (u16_split s2), E, Elow. reflexivity.
Qed.

Lemma calculate_from_range (l : list Z) (s : Z) :
  Forall is_byte l -> is_u16 s -> is_u16 (fold_left (calculate_step NewCRCCCITT) l s).
Proof.
  intros Hl. revert s. induction Hl as [|c l Hc Hl IH]; intros s Hs; cbn [fold_left].
  - exact Hs.
  - apply IH, calculate_step_range, Hc.
Qed.

Lemma calculate_from_inj (l : list Z) (s1 s2 : Z) :
  Forall is_byte l -> is_u16 s1 -> is_u16 s2 -> s1 <> s2 ->
  fold_left (calculate_step NewCRCCCITT) l s1 <> fold_left (calculate_step NewCRCCCITT) l s2.
Proof.
  intros Hl. revert s1 s2.
  induction Hl as [|c l Hc Hl IH]; intros s1 s2 H1 H2 Hne; cbn [fold_left].
  - exact Hne.
  - apply IH; try (apply calculate_step_range, Hc).
    intros E. apply Hne. eapply calculate_step_inj_state; eassumption.
Qed.

Lemma reverseByteMessage_bytes (b : list Z) :
  Forall is_byte b -> Forall is_byte (reverseByteMessage b).
Proof.
  induction 1 as [|x xs Hx Hxs IH]; cbn; constructor.
  - apply reverseByte_is_byte, Hx.
  - exact IH.
Qed.

(** *** Flipping one bit *)

Lemma flip_bit_is_byte (x i : Z) : is_byte x -> 0 <= i < 8 -> is_byte (flip_bit x i).
Proof.
  intros Hx Hi. apply lxor_byte; [exact Hx|].
  rewrite Z.shiftl_1_l. unfold is_byte.
  assert (2 ^ i < 2 ^ 8) by (apply Z.pow_lt_mono_r; lia).
  assert (0 < 2 ^ i) by (apply Z.pow_pos_nonneg; lia). lia.
Qed.

Lemma flip_bit_neq (x i : Z) : 0 <= i -> flip_bit x i <> x.
Proof.
  intros Hi E. unfold flip_bit in E.
  rewrite <- (Z.lxor_0_r x) in E at 2. apply lxor_cancel_l in E.
  rewrite Z.shiftl_1_l in E.
  assert (0 < 2 ^ i) by (apply Z.pow_pos_nonneg; lia). lia.
Qed.

Lemma flip_bit_at_length (b : list Z) (k : nat) (i : Z) :
  length (flip_bit_at b k i) = length b.
Proof.
  revert k. induction b as [|x xs IH]; intros [|k]; cbn; try reflexivity.
  rewrite IH. reflexivity.
Qed.

Lemma flip_bit_at_neq (b : list Z) (k : nat) (i : Z) :
  (k < length b)%nat -> 0 <= i -> flip_bit_at b k i <> b.
Proof.
  revert k. induction b as [|x xs IH]; intros [|k] Hk Hi; cbn in *; try lia.
  - intros E. injection E as E. exact (flip_bit_neq x i Hi E).
  - intros E. injection E as E. apply (IH k); [lia|exact Hi|exact E].
Qed.

(** A flipped message bit changes the register, whatever the register
    held before the message. *)
Lemma calculate_flip_bit_at (b : list Z) (k : nat) (i s : Z) :
  Forall is_byte b -> (k < length b)%nat -> 0 <= i < 8 -> is_u16 s ->
  fold_left (calculate_step NewCRCCCITT) (reverseByteMessage (flip_bit_at b k i)) s <>
  fold_left (calculate_step NewCRCCCITT) (reverseByteMessage b) s.
Proof.
  intros Hb. revert k s.
  induction Hb as [|x xs Hx Hxs IH]; intros k s Hk Hi Hs; cbn in Hk; [lia|].
  pose proof (reverseByteMessage_bytes xs Hxs) as Hrev.
  destruct k as [|k]; cbn [flip_bit_at reverseByteMessage map fold_left].
  - apply calculate_from_inj; try exact Hrev;
      try (apply calculate_step_range, reverseByte_is_byte;
           first [exact Hx | apply flip_bit_is_byte; assumption]).
    intros E. apply calculate_step_inj_char in E;
      try (apply reverseByte_is_byte; first [exact Hx | apply flip_bit_is_byte; assumption]).
    apply reverseByte_inj in E; [|apply flip_bit_is_byte; assumption|exact Hx].
    exact (flip_bit_neq x i (proj1 Hi) E).
  - apply IH; [lia|exact Hi|].
    apply calculate_step_range, reverseByte_is_byte, Hx.
Qed.

(** *** From the register to the two transmitted bytes *)

Lemma high_byte_alt (crc : Z) :
  Z.shiftr (Z.land crc 0xFF00) 8 = Z.land (Z.shiftr crc 8) (Z.ones 8).
Proof. change 65280 with (Z.shiftl (Z.ones 8) 8). Z.bitblast. Qed.

Lemma crc_halves (crc : Z) :
  is_u16 crc ->
  is_byte (Z.land crc 0x00FF) /\ is_byte (Z.shiftr (Z.land crc 0xFF00) 8) /\
  crc = Z.lor (Z.shiftl (Z.shiftr (Z.land crc 0xFF00) 8) 8) (Z.land crc 0x00FF).
Proof.
  intros Hc. rewrite high_byte_alt. change 255 with (Z.ones 8). split; [|split].
  - apply (land_ones_range 8). lia.
  - apply (land_ones_range 8). lia.
  - rewrite <- (range_land_ones 16 crc) at 1 by (unfold is_u16 in Hc; lia).
    Z.bitblast.
Qed.

Lemma crc_byte_inj (a1 a2 : Z) :
  is_byte a1 -> is_byte a2 ->
  u8 (Z.lxor (reverseByte (u8 a1)) 0xFF) = u8 (Z.lxor (reverseByte (u8 a2)) 0xFF) ->
  a1 = a2.
Proof.
  intros H1 H2 E.
  rewrite (u8_byte a1 H1), (u8_byte a2 H2) in E.
  rewrite !u8_byte in E
    by (apply lxor_byte; [apply reverseByte_is_byte; assumption | unfold is_byte; lia]).
  apply lxor_cancel_r in E. apply reverseByte_inj in E; assumption.
Qed.

Lemma CalculateFor_as_register (b : list Z) (lsbFirst : bool) :
  exists crc, crc = calculate NewCRCCCITT (reverseByteMessage b) /\
    CalculateFor NewCRCCCITT b lsbFirst =
      let lsbByte := u8 (Z.lxor (reverseByte (u8 (Z.land crc 0x00FF))) 0xFF) in
      let msbByte := u8 (Z.lxor (reverseByte (u8 (Z.shiftr (Z.land crc 0xFF00) 8))) 0xFF) in
      if lsbFirst then [lsbByte; msbByte] else [msbByte; lsbByte].
Proof. eexists. split; reflexivity. Qed.

Lemma CalculateFor_inj (b1 b2 : list Z) (lsbFirst : bool) :
  Forall is_byte b1 -> Forall is_byte b2 ->
  CalculateFor NewCRCCCITT b1 lsbFirst = CalculateFor NewCRCCCITT b2 lsbFirst ->
  calculate NewCRCCCITT (reverseByteMessage b1) = calculate NewCRCCCITT (reverseByteMessage b2).
Proof.
  intros H1 H2 E.
  destruct (CalculateFor_as_register b1 lsbFirst) as (c1 & Hc1 & E1).
  destruct (CalculateFor_as_register b2 lsbFirst) as (c2 & Hc2 & E2).
  rewrite E1, E2 in E. rewrite <- Hc1, <- Hc2. clear E1 E2.
  assert (R1 : is_u16 c1).
  { subst c1. apply calculate_from_range; [|unfold is_u16; cbn; lia].
    apply reverseByteMessage_bytes, H1. }
  assert (R2 : is_u16 c2).
  { subst c2. apply calculate_from_range; [|unfold is_u16; cbn; lia].
    apply reverseByteMessage_bytes, H2. }
  destruct (crc_halves c1 R1) as (L1 & M1 & S1).
  destruct (crc_halves c2 R2) as (L2 & M2 & S2).
  cbv zeta in E.
  assert (El : Z.land c1 255 = Z.land c2 255 /\
               Z.shiftr (Z.land c1 65280) 8 = Z.shiftr (Z.land c2 65280) 8).
  { destruct lsbFirst; injection E as Ea Eb; split;
      first [ apply crc_byte_inj; assumption ]. }
  destruct El as [El Em]. rewrite S1, S2, El, Em. reflexivity.
Qed.

Lemma bytes_equal_iff (x y : list Z) : bytes_equal x y = true <-> x = y.
Proof.
  revert y. induction x as [|a x IH]; intros [|c y]; cbn; split; intros H;
    try reflexivity; try discriminate.
  - apply andb_prop in H as [H1 H2]. apply IH in H2. f_equal; [lia|exact H2].
  - injection H as -> ->. rewrite Z.eqb_refl. cbn. apply IH. reflexivity.
Qed.

Lemma CalculateFor_length (b : list Z) (lsbFirst : bool) :
  length (CalculateFor NewCRCCCITT b lsbFirst) = 2%nat.
Proof. unfold CalculateFor. destruct lsbFirst; reflexivity. Qed.

(** C6. For every byte sequence [b] and either byte order, the equality
    check of [b] against [CalculateFor(b, lsbFirst)] succeeds; it fails
    after any single bit of [b] is flipped, and after any single bit of
    the two CRC bytes is flipped. *)
Theorem crc_verify_roundtrip_and_single_bit_flips
  (b : list Z) (lsbFirst : bool) (Hb : Forall is_byte b) :
  verify NewCRCCCITT b (CalculateFor NewCRCCCITT b lsbFirst) lsbFirst = true /\
  (forall (k : nat) (i : Z), (k < length b)%nat -> 0 <= i < 8 ->
     verify NewCRCCCITT (flip_bit_at b k i)
       (CalculateFor NewCRCCCITT b lsbFirst) lsbFirst = false) /\
  (forall (k : nat) (i : Z), (k < 2)%nat -> 0 <= i < 8 ->
     verify NewCRCCCITT b
       (flip_bit_at (CalculateFor NewCRCCCITT b lsbFirst) k i) lsbFirst = false).
Proof.
  unfold verify. split; [|split].
  - apply bytes_equal_iff. reflexivity.
  - intros k i Hk Hi. apply not_true_is_false. intros E.
    apply bytes_equal_iff in E. symmetry in E.
    apply CalculateFor_inj in E.
    + revert E. apply calculate_flip_bit_at; try assumption.
      unfold is_u16. cbn. lia.
    + clear E Hk. revert k. induction Hb as [|x xs Hx Hxs IH]; intros [|k]; cbn;
        constructor; try assumption; try (apply flip_bit_is_byte; assumption).
      apply IH.
    + exact Hb.
  - intros k i Hk Hi. apply not_true_is_false. intros E.
    apply bytes_equal_iff in E. revert E.
    apply flip_bit_at_neq; [rewrite CalculateFor_length; exact Hk | lia].
Qed.

(** The frame check sequence of the SNRM frame [A0 07 03 21 93]. *)
Lemma crc_verify_roundtrip_witness :
  verify NewCRCCCITT [0xA0; 0x07; 0x03; 0x21; 0x93]
    (CalculateFor NewCRCCCITT [0xA0; 0x07; 0x03; 0x21; 0x93] false) false = true /\
  verify NewCRCCCITT (flip_bit_at [0xA0; 0x07; 0x03; 0x21; 0x93] 2 0)
    (CalculateFor NewCRCCCITT [0xA0; 0x07; 0x03; 0x21; 0x93] false) false = false /\
  verify NewCRCCCITT [0xA0; 0x07; 0x03; 0x21; 0x93]
    (flip_bit_at (CalculateFor NewCRCCCITT [0xA0; 0x07; 0x03; 0x21; 0x93] false) 1 7)
    false = false.
Proof.
  assert (Hb : Forall is_byte [0xA0; 0x07; 0x03; 0x21; 0x93])
    by (repeat constructor; unfold is_byte; lia).
  destruct (crc_verify_roundtrip_and_single_bit_flips
              [0xA0; 0x07; 0x03; 0x21; 0x93] false Hb) as (H1 & H2 & H3).
  split; [exact H1|split].
  - apply H2; cbn; lia.
  - apply H3; lia.
Defined.

End CrcFacts.

Section LinkFsm.
Import hdlc.

(** C7. The link state machine accepts exactly the eight arcs of the
    transition table, entering the state the table gives; every other
    (state, frame) pair returns a LocalProtocolError and leaves the state
    as it was.  IsSendState holds exactly in NotConnected and Idle,
    IsReceiveState exactly in the three Awaiting states. *)
Theorem link_fsm_accepts_exactly_the_table :
  (forall (s : HdlcState) (frame : any),
     ProcessFrame {| CurrentState := s |} frame =
       match spec_link_table s frame with
       | Some s' => ({| CurrentState := s' |}, None)
       | None => ({| CurrentState := s |},
                  Some (LocalProtocolError "can't handle frame type when state"))
       end) /\
  (forall h : HdlcConnectionState,
     IsSendState h = true <->
     CurrentState h = HdlcStateNotConnected \/ CurrentState h = HdlcStateIdle) /\
  (forall h : HdlcConnectionState,
     IsReceiveState h = true <->
     CurrentState h = HdlcStateAwaitingConnection \/
     CurrentState h = HdlcStateAwaitingResponse \/
     CurrentState h = HdlcStateAwaitingDisconnect).
Proof.
  split; [|split].
  - intros s frame. destruct s; destruct frame as [[f|f|f|f|f]|]; vm_compute; reflexivity.
  - intros [s]. cbn [CurrentState]. destruct s; cbn; split; intros H;
      try discriminate; try reflexivity; try tauto;
      destruct H as [H|H]; discriminate.
  - intros [s]. cbn [CurrentState]. destruct s; cbn; split; intros H;
      try discriminate; try reflexivity; try tauto;
      destruct H as [H|[H|H]]; discriminate.
Qed.

End LinkFsm.

Section HdlcFrames.
Import hdlc.

Lemma Base_HeaderContent_panics (b : BaseHdlcFrame) :
  Base_HeaderContent b = Panic "GetControlField must be implemented by specific frame type".
Proof. reflexivity. Qed.

Lemma Base_HCS_panics (b : BaseHdlcFrame) :
  Base_HCS b = Panic "GetControlField must be implemented by specific frame type".
Proof. reflexivity. Qed.

Lemma Base_FCS_panics (b : BaseHdlcFrame) :
  Base_FCS b = Panic "GetControlField must be implemented by specific frame type".
Proof. reflexivity. Qed.

Lemma Base_ToBytes_panics (b : BaseHdlcFrame) :
  Base_ToBytes b = Panic "GetControlField must be implemented by specific frame type".
Proof. reflexivity. Qed.

Lemma is_ok_bind_false {A B : Type} (r : result A) (k : A -> result B) :
  (forall a, is_ok (k a) = false) -> is_ok (Go.bind r k) = false.
Proof. intros Hk. destruct r as [a| |]; cbn; [apply Hk|reflexivity..]. Qed.

(** Case analysis along a parser: every branch ends in an error or a
    panic. *)
Ltac follow_parser :=
  repeat first
    [ reflexivity
    | apply is_ok_bind_false; intros ?
    | match goal with
      | |- is_ok (if ?c then _ else _) = false => destruct c
      end ].

Lemma InformationFrame_FromBytes_never_ok (frameBytes : list Z) :
  is_ok (InformationFrame_FromBytes frameBytes) = false.
Proof. unfold InformationFrame_FromBytes. follow_parser. Qed.

Lemma ReceiveReadyFrame_FromBytes_never_ok (frameBytes : list Z) :
  is_ok (ReceiveReadyFrame_FromBytes frameBytes) = false.
Proof. unfold ReceiveReadyFrame_FromBytes. follow_parser. Qed.

Lemma DisconnectFrame_FromBytes_never_ok (frameBytes : list Z) :
  is_ok (DisconnectFrame_FromBytes frameBytes) = false.
Proof. unfold DisconnectFrame_FromBytes. follow_parser. Qed.

Lemma UnNumberedAcknowledgmentFrame_FromBytes_never_ok (frameBytes : list Z) :
  is_ok (UnNumberedAcknowledgmentFrame_FromBytes frameBytes) = false.
Proof. unfold UnNumberedAcknowledgmentFrame_FromBytes. follow_parser. Qed.

(** C1, what the code does.  Serialising the information frame of
    scenario S3 panics, as does serialising any frame of the five types:
    [BaseHdlcFrame.HeaderContent] calls [BaseHdlcFrame.GetControlField],
    which panics.  No frame parser returns a frame for any input, for the
    same reason: each reaches [BaseHdlcFrame.HCS] or [BaseHdlcFrame.FCS]
    unless it fails before.  So no frame survives the round trip. *)
Theorem hdlc_frame_ToBytes_panics :
  ToBytes (I scenario_S3_frame)
    = Panic "GetControlField must be implemented by specific frame type" /\
  (forall frame : HdlcFrame,
     ToBytes frame = Panic "GetControlField must be implemented by specific frame type") /\
  (forall (frame : HdlcFrame) (frameBytes : list Z) (r : result HdlcFrame),
     FromBytes_as frame frameBytes = Some r -> is_ok r = false).
Proof.
  split; [reflexivity|split].
  - intros [f|f|f|f|f]; reflexivity.
  - intros frame frameBytes r Hr. destruct frame as [f|f|f|f|f]; cbn in Hr;
      try discriminate; injection Hr as <-.
    + pose proof (UnNumberedAcknowledgmentFrame_FromBytes_never_ok frameBytes) as H.
      destruct (UnNumberedAcknowledgmentFrame_FromBytes frameBytes); [discriminate|reflexivity..].
    + pose proof (InformationFrame_FromBytes_never_ok frameBytes) as H.
      destruct (InformationFrame_FromBytes frameBytes); [discriminate|reflexivity..].
    + pose proof (ReceiveReadyFrame_FromBytes_never_ok frameBytes) as H.
      destruct (ReceiveReadyFrame_FromBytes frameBytes); [discriminate|reflexivity..].
    + pose proof (DisconnectFrame_FromBytes_never_ok frameBytes) as H.
      destruct (DisconnectFrame_FromBytes frameBytes); [discriminate|reflexivity..].
Qed.

End HdlcFrames.

Section Xdlms.
Import xdlms.

(** *** Conformance *)

Lemma Conformance_positions :
  position "action" = 0 /\ position "event_notification" = 1 /\
  position "selective_access" = 2 /\ position "set" = 3 /\ position "get" = 4 /\
  position "access" = 6 /\ position "data_notification" = 7 /\
  position "multiple_references" = 9 /\ position "block_transfer_with_action" = 10 /\
  position "block_transfer_with_set_or_write" = 11 /\
  position "block_transfer_with_get_or_read" = 12 /\
  position "attribute_0_supported_with_get" = 13 /\
  position "priority_management_supported" = 14 /\
  position "attribute_0_supported_with_set" = 15 /\
  position "delta_value_encoding" = 17 /\ position "general_block_transfer" = 21 /\
  position "general_protection" = 22.
Proof.
  repeat (apply conj; [vm_compute; reflexivity|]). vm_compute. reflexivity.
Qed.

Lemma land_pow2_testbit (n p : Z) :
  0 <= p -> negb (Z.land n (2 ^ p) =? 0) = Z.testbit n p.
Proof.
  intros Hp.
  assert (Hbits : forall i, 0 <= i ->
            Z.testbit (Z.land n (2 ^ p)) i = Z.testbit n i && (p =? i)).
  { intros i Hi. rewrite Z.land_spec, Z.pow2_bits_eqb by lia. reflexivity. }
  destruct (Z.testbit n p) eqn:E.
  - destruct (Z.land n (2 ^ p) =? 0) eqn:E0; [|reflexivity].
    apply Z.eqb_eq in E0. pose proof (Hbits p Hp) as H.
    rewrite E0, Z.bits_0, E, Z.eqb_refl in H. discriminate.
  - replace (Z.land n (2 ^ p)) with 0; [reflexivity|].
    symmetry. apply Z.bits_inj'. intros i Hi. rewrite Hbits, Z.bits_0 by lia.
    destruct (Z.eqb_spec p i) as [->|]; [rewrite E; reflexivity|apply andb_false_r].
Qed.

Lemma flag_of_testbit (n : Z) (name : string) (p : Z) :
  position name = p -> 0 <= p < 32 -> flag_of n name = Z.testbit n p.
Proof.
  intros <- Hp. unfold flag_of.
  replace (u32 (Z.shiftl 1 (position name))) with (2 ^ position name).
  - apply land_pow2_testbit. lia.
  - unfold u32. change 4294967295 with (Z.ones 32).
    rewrite Z.shiftl_1_l, Z.land_ones by lia.
    rewrite Z.mod_small; [reflexivity|].
    split; [apply Z.pow_nonneg; lia | apply Z.pow_lt_mono_r; lia].
Qed.

(** X1. [FromBytes] on at least four bytes reads every named flag at its
    documented position of the 24-bit string held by the second to fourth
    byte. *)
Lemma Conformance_FromBytes_positions (b0 b1 b2 b3 : Z) (rest : list Z) :
  Conformance_FromBytes (b0 :: b1 :: b2 :: b3 :: rest) =
    let n := bit_string b1 b2 b3 in
    Ok {| GeneralProtection := Z.testbit n 22;
          GeneralBlockTransfer := Z.testbit n 21;
          DeltaValueEncoding := Z.testbit n 17;
          Attribute0SupportedWithSet := Z.testbit n 15;
          PriorityManagementSupported := Z.testbit n 14;
          Attribute0SupportedWithGet := Z.testbit n 13;
          BlockTransferWithGetOrRead := Z.testbit n 12;
          BlockTransferWithSetOrWrite := Z.testbit n 11;
          BlockTransferWithAction := Z.testbit n 10;
          MultipleReferences := Z.testbit n 9;
          DataNotification := Z.testbit n 7;
          Access := Z.testbit n 6;
          Get := Z.testbit n 4;
          Set_ := Z.testbit n 3;
          SelectiveAccess := Z.testbit n 2;
          EventNotification := Z.testbit n 1;
          Action := Z.testbit n 0 |}.
Proof.
  unfold Conformance_FromBytes.
  assert (Hlen : (len (b0 :: b1 :: b2 :: b3 :: rest) <? 4) = false).
  { unfold len. cbn [length]. lia. }
  rewrite Hlen.
  assert (Hs : slice (b0 :: b1 :: b2 :: b3 :: rest) 1 4 = Ok [b1; b2; b3]).
  { unfold slice. replace (len (b0 :: b1 :: b2 :: b3 :: rest)) with (4 + len rest)
      by (unfold len; cbn [length]; lia).
    assert (0 <= len rest) by (unfold len; lia).
    replace ((0 <=? 1) && (1 <=? 4) && (4 <=? 4 + len rest)) with true by lia.
    reflexivity. }
  rewrite Hs. cbn [Go.bind app BigEndian_Uint32]. cbv zeta.
  fold (bit_string b1 b2 b3).
  destruct Conformance_positions
    as (P0 & P1 & P2 & P3 & P4 & P6 & P7 & P9 & P10 & P11 & P12 & P13 & P14 & P15
        & P17 & P21 & P22).
  repeat match goal with
         | |- context [flag_of ?n ?name] =>
             rewrite (flag_of_testbit n name _ ltac:(eassumption) ltac:(lia))
         end.
  reflexivity.
Qed.

(** C3, what the code does.  [Conformance.ToBytes] panics for every
    Conformance value: it hands the three-byte tail [result[1:]] of its
    four-byte buffer to [binary.BigEndian.PutUint32], which needs four
    bytes.  No encoding is produced, so there is nothing for FromBytes to
    restore.  (FromBytes alone reads every named flag at its documented
    bit position, see [Conformance_FromBytes_positions].) *)
Theorem Conformance_ToBytes_panics :
  Conformance_ToBytes example_conformance = Panic "index out of range [3]" /\
  (forall c : Conformance, Conformance_ToBytes c = Panic "index out of range [3]").
Proof. split; [|intros c]; reflexivity. Qed.

(** *** ExceptionResponse *)

Lemma PutUint32_small (counter : Z) :
  BigEndian_PutUint32 (make 4) counter =
    Ok [u8 (Z.shiftr counter 24); u8 (Z.shiftr counter 16); u8 (Z.shiftr counter 8);
        u8 counter].
Proof. reflexivity. Qed.

Lemma ExceptionResponse_ToBytes_eq (e : ExceptionResponse) :
  ExceptionResponse_ToBytes e =
    Ok ([u8 ExceptionResponseTag; u8 (StateError e); u8 (ServiceError e)] ++
        match InvocationCounterData e with
        | Some counter =>
            [u8 (Z.shiftr counter 24); u8 (Z.shiftr counter 16);
             u8 (Z.shiftr counter 8); u8 counter]
        | None => []
        end).
Proof.
  unfold ExceptionResponse_ToBytes. destruct (InvocationCounterData e); reflexivity.
Qed.

Lemma ExceptionResponse_FromBytes_counter (sourceBytes : list Z) (e : ExceptionResponse) :
  ExceptionResponse_FromBytes sourceBytes = Ok e ->
  (InvocationCounterData e <> None <->
   ServiceError e = ServiceExceptionInvocationCounterError).
Proof.
  unfold ExceptionResponse_FromBytes.
  repeat match goal with
         | |- context [if ?c then _ else _] =>
             lazymatch c with
             | context [if _ then _ else _] => fail
             | _ => destruct c eqn:?
             end
         | |- Go.bind ?r _ = Ok _ -> _ => destruct r; cbn [Go.bind]
         end;
    intros H; try discriminate H; injection H as <-; cbn.
  - split; [intros _; lia | intros _; discriminate].
  - split; [intros Hn; congruence | intros Hs; lia].
Qed.

(** C8, counterexample: a response whose service exception is
    InvocationCounterError and whose counter is nil encodes as three bytes,
    and a response with another service exception and a counter encodes
    the counter. *)
Lemma ExceptionResponse_counter_counterexample :
  ExceptionResponse_ToBytes
    (NewExceptionResponse 1 ServiceExceptionInvocationCounterError None)
    = Ok [0xD8; 0x01; 0x06] /\
  ExceptionResponse_ToBytes (NewExceptionResponse 1 1 (Some 0x1234))
    = Ok [0xD8; 0x01; 0x01; 0x00; 0x00; 0x12; 0x34].
Proof. split; reflexivity. Qed.

(** C8, amended.  The bytes D8 01 06 00 00 12 34 parse to state error 1,
    service error 6 (InvocationCounterError) and invocation counter
    0x1234, and that value encodes to the same seven bytes.  ToBytes
    appends the four-byte big-endian counter exactly when the value's
    invocation counter is present; in every value returned by FromBytes
    the counter is present exactly when the service exception is
    InvocationCounterError. *)
Theorem ExceptionResponse_scenario_and_counter :
  ExceptionResponse_FromBytes [0xD8; 0x01; 0x06; 0x00; 0x00; 0x12; 0x34]
    = Ok {| er_Tag := 0xD8; StateError := 1;
            ServiceError := ServiceExceptionInvocationCounterError;
            InvocationCounterData := Some 0x1234 |} /\
  ExceptionResponse_ToBytes
    {| er_Tag := 0xD8; StateError := 1;
       ServiceError := ServiceExceptionInvocationCounterError;
       InvocationCounterData := Some 0x1234 |}
    = Ok [0xD8; 0x01; 0x06; 0x00; 0x00; 0x12; 0x34] /\
  (forall e : ExceptionResponse,
     ExceptionResponse_ToBytes e =
       Ok ([u8 ExceptionResponseTag; u8 (StateError e); u8 (ServiceError e)] ++
           match InvocationCounterData e with
           | Some counter =>
               [u8 (Z.shiftr counter 24); u8 (Z.shiftr counter 16);
                u8 (Z.shiftr counter 8); u8 counter]
           | None => []
           end)) /\
  (forall (sourceBytes : list Z) (e : ExceptionResponse),
     ExceptionResponse_FromBytes sourceBytes = Ok e ->
     (InvocationCounterData e <> None <->
      ServiceError e = ServiceExceptionInvocationCounterError)).
Proof.
  split; [reflexivity|split; [reflexivity|split]].
  - exact ExceptionResponse_ToBytes_eq.
  - exact ExceptionResponse_FromBytes_counter.
Qed.

End Xdlms.

Section SmallCodecs.
Import xdlms hdlc.

(** X2. An invoke id within 0..15 and the two flags survive encoding and
    decoding. *)
Theorem InvokeIdAndPriority_roundtrip (invokeID : Z) (confirmed highPriority : bool) :
  0 <= invokeID <= 15 ->
  InvokeIdAndPriority_FromBytes
    (InvokeIdAndPriority_ToBytes
       {| InvokeID := invokeID; Confirmed := confirmed; HighPriority := highPriority |})
  = Ok {| InvokeID := invokeID; Confirmed := confirmed; HighPriority := highPriority |}.
Proof.
  intros H.
  assert (E : invokeID = 0 \/ invokeID = 1 \/ invokeID = 2 \/ invokeID = 3 \/
              invokeID = 4 \/ invokeID = 5 \/ invokeID = 6 \/ invokeID = 7 \/
              invokeID = 8 \/ invokeID = 9 \/ invokeID = 10 \/ invokeID = 11 \/
              invokeID = 12 \/ invokeID = 13 \/ invokeID = 14 \/ invokeID = 15) by lia.
  repeat destruct E as [->|E]; try subst invokeID;
    destruct confirmed, highPriority; vm_compute; reflexivity.
Qed.

Lemma InvokeIdAndPriority_roundtrip_witness :
  InvokeIdAndPriority_FromBytes
    (InvokeIdAndPriority_ToBytes
       {| InvokeID := 1; Confirmed := true; HighPriority := true |})
  = Ok {| InvokeID := 1; Confirmed := true; HighPriority := true |}.
Proof. apply InvokeIdAndPriority_roundtrip. lia. Defined.

(** X3. A frame format field with a length within 0..2047 survives
    encoding and decoding. *)
Theorem FormatField_roundtrip (length : Z) (segmented : bool) :
  0 <= length <= 2047 ->
  FormatField_FromBytes
    (FormatField_ToBytes {| ff_Length := length; ff_Segmented := segmented |})
  = Ok {| ff_Length := length; ff_Segmented := segmented |}.
Proof.
  intros H.
  assert (Hall : forallb (fun n =>
            forallb (fun seg =>
              match FormatField_FromBytes
                      (FormatField_ToBytes
                         {| ff_Length := Z.of_nat n; ff_Segmented := seg |}) with
              | Ok f => (ff_Length f =? Z.of_nat n) && Bool.eqb (ff_Segmented f) seg
              | _ => false
              end) [true; false]) (seq 0 2048) = true)
    by (vm_compute; reflexivity).
  rewrite forallb_forall in Hall.
  specialize (Hall (Z.to_nat length) ltac:(apply in_seq; lia)).
  rewrite forallb_forall in Hall.
  specialize (Hall segmented ltac:(destruct segmented; cbn; tauto)).
  rewrite Z2Nat.id in Hall by lia.
  destruct (FormatField_FromBytes _) as [[l s]| |]; try discriminate.
  cbn [ff_Length ff_Segmented] in Hall.
  apply andb_prop in Hall as [Hl Hs].
  apply Z.eqb_eq in Hl. apply Bool.eqb_prop in Hs. subst. reflexivity.
Qed.

Lemma FormatField_roundtrip_witness :
  FormatField_FromBytes
    (FormatField_ToBytes {| ff_Length := 7; ff_Segmented := false |})
  = Ok {| ff_Length := 7; ff_Segmented := false |}.
Proof. apply FormatField_roundtrip. lia. Defined.

End SmallCodecs.

Section BlockTransfer.
Import xdlms dlms.

Lemma last_block_bytes_parse :
  GetResponseWithDataBlock_FromBytes last_block_bytes =
    Ok {| grb_Tag := 196;
          grb_InvokeIdAndPriority :=
            {| InvokeID := 1; Confirmed := true; HighPriority := true |};
          LastBlock := true;
          BlockNumber := 2;
          RawData := [0xAA; 0xBB; 0xCC] |}.
Proof. vm_compute. reflexivity. Qed.

(** C4, what the code does.  ShouldAckLastGetBlock with a GetRequestNext
    enters AwaitingGetBlockResponse, as the specification says.  In
    AwaitingGetBlockResponse a GetResponseWithDataBlock leads to
    ShouldAckLastGetBlock whatever its last-block flag is, in particular
    for the parsed response [last_block_bytes] whose flag is 1; passed as
    the pointer the parser returns, it is rejected.  The only events that
    lead from AwaitingGetBlockResponse to Ready are
    GetResponseNormalWithError and ExceptionResponse; a
    GetResponseLastBlock is rejected. *)
Theorem last_block_does_not_return_to_Ready :
  ProcessEvent (NewDlmsConnectionStateWithState ShouldAckLastGetBlock)
    (TStruct GetRequestNext)
    = (NewDlmsConnectionStateWithState AwaitingGetBlockResponse, None) /\
  (exists apdu : xdlms.GetResponseWithDataBlock,
     GetResponseWithDataBlock_FromBytes last_block_bytes = Ok apdu /\
     LastBlock apdu = true /\
     ProcessEvent (NewDlmsConnectionStateWithState AwaitingGetBlockResponse) apdu
       = (NewDlmsConnectionStateWithState ShouldAckLastGetBlock, None) /\
     ProcessEvent (NewDlmsConnectionStateWithState AwaitingGetBlockResponse)
       (AddressOf apdu)
       = (NewDlmsConnectionStateWithState AwaitingGetBlockResponse,
          Some (LocalDlmsProtocolError "can't handle event type when state"))) /\
  (forall apdu : xdlms.GetResponseWithDataBlock,
     ProcessEvent (NewDlmsConnectionStateWithState AwaitingGetBlockResponse) apdu
       = (NewDlmsConnectionStateWithState ShouldAckLastGetBlock, None)) /\
  (forall t : rtype,
     accepts AwaitingGetBlockResponse t = Some Ready <->
     t = TStruct GetResponseNormalWithError \/ t = TStruct ExceptionResponse) /\
  accepts AwaitingGetBlockResponse (TStruct GetResponseLastBlock) = None.
Proof.
  split; [vm_compute; reflexivity|].
  split.
  { eexists. split; [exact last_block_bytes_parse|].
    split; [reflexivity|]. split; vm_compute; reflexivity. }
  split; [intros apdu; vm_compute; reflexivity|].
  split; [|vm_compute; reflexivity].
  intros t. split.
  - destruct t as [n|n|]; try destruct n; vm_compute; intros H;
      try discriminate H; auto.
  - intros [->| ->]; vm_compute; reflexivity.
Qed.

End BlockTransfer.

Section ObisCodes.
Import cosem.

Lemma NewObis_in_range (a b c d e f : Z) (o : Obis) :
  NewObis a b c d e f = Ok o -> in_range o.
Proof.
  unfold NewObis, validateOBISComponent.
  repeat match goal with
         | |- context [if ?x then _ else _] =>
             lazymatch x with
             | context [if _ then _ else _] => fail
             | _ => destruct x eqn:?
             end
         end;
    intros H; try discriminate H; injection H as <-.
  unfold in_range; cbn. lia.
Qed.

Lemma FromString_in_range (obisString : string) (o : Obis) :
  FromString obisString = Ok o -> in_range o.
Proof.
  unfold FromString.
  destruct (FindStringSubmatch sixPartRegex _) as [parts|].
  - destruct (parse_parts parts) as [values| |]; cbn [Go.bind]; try discriminate.
    destruct values as [|v0 [|v1 [|v2 [|v3 [|v4 [|v5 [|]]]]]]]; try discriminate.
    apply NewObis_in_range.
  - destruct (FindStringSubmatch fivePartRegex _) as [parts|]; [|discriminate].
    destruct (parse_parts parts) as [values| |]; cbn [Go.bind]; try discriminate.
    destruct values as [|v0 [|v1 [|v2 [|v3 [|v4 [|]]]]]]; try discriminate.
    apply NewObis_in_range.
Qed.

Lemma FromBytes_in_range (sourceBytes : list Z) (o : Obis) :
  FromBytes sourceBytes = Ok o -> in_range o.
Proof.
  unfold FromBytes.
  destruct sourceBytes as [|b0 [|b1 [|b2 [|b3 [|b4 [|b5 [|]]]]]]]; try discriminate.
  apply NewObis_in_range.
Qed.

Lemma NewObis_F (a b c d e f : Z) (o : Obis) :
  NewObis a b c d e f = Ok o -> obis_F o = f.
Proof.
  unfold NewObis.
  repeat match goal with
         | |- context [validateOBISComponent ?x] => destruct (validateOBISComponent x)
         end;
    intros H; try discriminate H; injection H as <-. reflexivity.
Qed.

Lemma five_part_defaults_F (obisString : string) (o : Obis) :
  FindStringSubmatch sixPartRegex (list_ascii_of_string obisString) = None ->
  FromString obisString = Ok o -> obis_F o = 255.
Proof.
  unfold FromString. intros ->.
  destruct (FindStringSubmatch fivePartRegex _) as [parts|]; [|discriminate].
  destruct (parse_parts parts) as [values| |]; cbn [Go.bind]; try discriminate.
  destruct values as [|v0 [|v1 [|v2 [|v3 [|v4 [|]]]]]]; try discriminate.
  apply NewObis_F.
Qed.

(** C5, what the code does.  [FromString] rejects "1-0:1.8.0.255": both
    regular expressions accept the dot as the only separator.  The dotted
    form and the six bytes parse to the same OBIS value; a five-part string
    gets F = 255; a value that is returned has every component within
    0..255, so a component outside that range is rejected. *)
Theorem FromString_rejects_dash_colon_form :
  FromString "1-0:1.8.0.255" = Err (Errorf "is not a parsable OBIS string") /\
  FromString "1.0.1.8.0.255"
    = Ok {| obis_A := 1; obis_B := 0; obis_C := 1;
            obis_D := 8; obis_E := 0; obis_F := 255 |} /\
  FromBytes [1; 0; 1; 8; 0; 255] = FromString "1.0.1.8.0.255" /\
  FromString "1.0.1.8.0" = FromString "1.0.1.8.0.255" /\
  FromString "1.0.1.8.0.256" = Err (Errorf "invalid F component") /\
  (forall (obisString : string) (o : Obis),
     FindStringSubmatch sixPartRegex (list_ascii_of_string obisString) = None ->
     FromString obisString = Ok o -> obis_F o = 255) /\
  (forall (obisString : string) (o : Obis),
     FromString obisString = Ok o -> in_range o) /\
  (forall (sourceBytes : list Z) (o : Obis),
     FromBytes sourceBytes = Ok o -> in_range o).
Proof.
  split; [vm_compute; reflexivity|].
  split; [vm_compute; reflexivity|].
  split; [vm_compute; reflexivity|].
  split; [vm_compute; reflexivity|].
  split; [vm_compute; reflexivity|].
  split; [exact five_part_defaults_F|].
  split; [exact FromString_in_range|exact FromBytes_in_range].
Qed.

End ObisCodes.

(* ================================================================== *)
(** * Further properties of the code *)
(* ================================================================== *)

Section CrcMore.
Import encoding.

Lemma CalculateFor_input_bytes_register (b : list Z) :
  Forall is_byte b -> is_u16 (calculate NewCRCCCITT (reverseByteMessage b)).
Proof.
  intros Hb. apply calculate_from_range; [apply reverseByteMessage_bytes, Hb|].
  unfold is_u16. cbn. lia.
Qed.

(** X4. Two messages of the same length that differ in exactly one byte
    (by any number of bits) have different CRC bytes, in either byte
    order. *)
Theorem crc_detects_one_changed_byte
  (pre post : list Z) (x y : Z) (lsbFirst : bool) :
  Forall is_byte pre -> Forall is_byte post -> is_byte x -> is_byte y -> x <> y ->
  CalculateFor NewCRCCCITT (pre ++ x :: post) lsbFirst <>
  CalculateFor NewCRCCCITT (pre ++ y :: post) lsbFirst.
Proof.
  intros Hpre Hpost Hx Hy Hxy E.
  apply CalculateFor_inj in E;
    try (apply Forall_app; split; [assumption|constructor; assumption]).
  unfold calculate, reverseByteMessage in E.
  rewrite !map_app, !fold_left_app in E. cbn [map fold_left] in E.
  revert E. apply calculate_from_inj.
  - apply (reverseByteMessage_bytes post Hpost).
  - apply calculate_step_range, reverseByte_is_byte, Hx.
  - apply calculate_step_range, reverseByte_is_byte, Hy.
  - intros E. apply calculate_step_inj_char in E;
      try (apply reverseByte_is_byte; assumption).
    apply reverseByte_inj in E; [exact (Hxy E)|assumption..].
Qed.

Lemma crc_detects_one_changed_byte_witness :
  CalculateFor NewCRCCCITT ([0xA0; 0x07] ++ 0x03 :: [0x21; 0x93]) false <>
  CalculateFor NewCRCCCITT ([0xA0; 0x07] ++ 0xFC :: [0x21; 0x93]) false.
Proof.
  apply crc_detects_one_changed_byte;
    repeat constructor; unfold is_byte; lia.
Defined.

Lemma reverseByte_of_crc_byte (a : Z) :
  is_byte a -> reverseByte (u8 (Z.lxor (reverseByte (u8 a)) 0xFF)) = Z.lxor a 0xFF.
Proof.
  intros Ha.
  pose proof (forall_bytes
                (fun a => reverseByte (u8 (Z.lxor (reverseByte (u8 a)) 0xFF))
                          =? Z.lxor a 0xFF) eq_refl a Ha) as H.
  lia.
Qed.

Lemma calculate_step_on_high_byte (s : Z) :
  is_u16 s ->
  calculate_step NewCRCCCITT s (Z.lxor (Z.shiftr (Z.land s 0xFF00) 8) 0xFF) =
  Z.lxor (Z.shiftl (Z.land s 0xFF) 8) (nth 255 (crcTable NewCRCCCITT) 0).
Proof.
  intros Hs. unfold calculate_step. cbv zeta.
  rewrite high_byte_alt. change 255 with (Z.ones 8) at 1 2 3.
  rewrite <- Z.lxor_assoc, Z.lxor_nilpotent, Z.lxor_0_l.
  change (Z.to_nat (Z.ones 8)) with 255%nat.
  f_equal. unfold u16. change 65535 with (Z.ones 16).
  change 65280 with (Z.shiftl (Z.ones 8) 8). Z.bitblast.
Qed.

Lemma calculate_step_on_low_byte (lo : Z) :
  is_byte lo ->
  calculate_step NewCRCCCITT
    (Z.lxor (Z.shiftl lo 8) (nth 255 (crcTable NewCRCCCITT) 0)) (Z.lxor lo 0xFF)
  = 0x1D0F.
Proof.
  intros Hlo.
  assert (H : forallb (fun lo =>
              calculate_step NewCRCCCITT
                (Z.lxor (Z.shiftl lo 8) (nth 255 (crcTable NewCRCCCITT) 0))
                (Z.lxor lo 0xFF) =? 0x1D0F) all_bytes = true)
    by (vm_compute; reflexivity).
  pose proof (forall_bytes _ H lo Hlo) as H'. cbv beta in H'. lia.
Qed.

(** X5. Appending the two CRC bytes, in the order the HDLC frames use
    (lsbFirst = false), to any message and running the calculation over
    the result leaves the fixed residue 0x1D0F in the register, so the CRC
    bytes of the extended message are always 47 0F. *)
Theorem crc_residue (b : list Z) :
  Forall is_byte b ->
  calculate NewCRCCCITT
    (reverseByteMessage (b ++ CalculateFor NewCRCCCITT b false)) = 0x1D0F /\
  CalculateFor NewCRCCCITT (b ++ CalculateFor NewCRCCCITT b false) false
    = [0x47; 0x0F].
Proof.
  intros Hb.
  assert (R : calculate NewCRCCCITT
                (reverseByteMessage (b ++ CalculateFor NewCRCCCITT b false)) = 0x1D0F).
  { pose proof (CalculateFor_input_bytes_register b Hb) as Hs.
    destruct (crc_halves _ Hs) as (Hlo & Hhi & _).
    unfold CalculateFor. cbv zeta.
    unfold calculate at 1. unfold reverseByteMessage at 1.
    rewrite map_app, fold_left_app. cbn [map fold_left].
    fold (reverseByteMessage b). fold (calculate NewCRCCCITT (reverseByteMessage b)).
    set (s := calculate NewCRCCCITT (reverseByteMessage b)) in *.
    rewrite (reverseByte_of_crc_byte _ Hhi), (reverseByte_of_crc_byte _ Hlo).
    rewrite (calculate_step_on_high_byte s Hs).
    apply calculate_step_on_low_byte, Hlo. }
  split; [exact R|].
  destruct (CalculateFor_as_register (b ++ CalculateFor NewCRCCCITT b false) false)
    as (c & Hc & E).
  rewrite E, Hc, R. vm_compute. reflexivity.
Qed.

Lemma crc_residue_witness :
  calculate NewCRCCCITT
    (reverseByteMessage
       ([0xA0; 0x07; 0x03; 0x21; 0x93]
          ++ CalculateFor NewCRCCCITT [0xA0; 0x07; 0x03; 0x21; 0x93] false)) = 0x1D0F /\
  CalculateFor NewCRCCCITT
    ([0xA0; 0x07; 0x03; 0x21; 0x93]
       ++ CalculateFor NewCRCCCITT [0xA0; 0x07; 0x03; 0x21; 0x93] false) false
    = [0x47; 0x0F].
Proof.
  apply crc_residue. repeat constructor; unfold is_byte; lia.
Defined.

End CrcMore.

Section GoSlices.

Lemma len_cons {A} (x : A) (l : list A) : len (x :: l) = len l + 1.
Proof. unfold len. simpl length. lia. Qed.

Lemma len_app {A} (l1 l2 : list A) : len (l1 ++ l2) = len l1 + len l2.
Proof. unfold len. rewrite length_app. lia. Qed.

Lemma len_nonneg {A} (l : list A) : 0 <= len l.
Proof. unfold len. lia. Qed.

Lemma index_0_cons (x : Z) (l : list Z) : index (x :: l) 0 = Ok x.
Proof.
unfold index. rewrite len_cons. pose proof (len_nonneg l).
replace ((0 <=? 0) && (0 <? len l + 1)) with true by lia. reflexivity.
Qed.

Lemma slice_from_1_cons (x : Z) (l : list Z) : slice_from (x :: l) 1 = Ok l.
Proof.
unfold slice_from, slice. rewrite len_cons. pose proof (len_nonneg l).
replace ((0 <=? 1) && (1 <=? len l + 1) && (len l + 1 <=? len l + 1)) with true by lia.
replace (len l + 1 - 1) with (len l) by lia.
unfold len. rewrite Nat2Z.id. simpl skipn. now rewrite firstn_all.
Qed.

Lemma slice_app_prefix (x : Z) (l1 l2 : list Z) :
  slice (x :: l1 ++ l2) 1 (len l1 + 1) = Ok l1.
Proof.
unfold slice. rewrite len_cons, len_app.
pose proof (len_nonneg l1). pose proof (len_nonneg l2).
replace ((0 <=? 1) && (1 <=? len l1 + 1) && (len l1 + 1 <=? len l1 + len l2 + 1))
  with true by lia.
replace (len l1 + 1 - 1) with (len l1) by lia.
unfold len. rewrite Nat2Z.id. change (Z.to_nat 1) with 1%nat. cbn [skipn]; rewrite ?skipn_O.
now rewrite take_app_length.
Qed.

Lemma slice_from_app_suffix (x : Z) (l1 l2 : list Z) :
  slice_from (x :: l1 ++ l2) (len l1 + 1) = Ok l2.
Proof.
unfold slice_from, slice. rewrite len_cons, len_app.
pose proof (len_nonneg l1). pose proof (len_nonneg l2).
replace ((0 <=? len l1 + 1) && (len l1 + 1 <=? len l1 + len l2 + 1) &&
         (len l1 + len l2 + 1 <=? len l1 + len l2 + 1)) with true by lia.
replace (len l1 + len l2 + 1 - (len l1 + 1)) with (len l2) by lia.
replace (Z.to_nat (len l1 + 1)) with (S (length l1)) by (unfold len; lia).
unfold len. rewrite Nat2Z.id. cbn [skipn]; rewrite ?skipn_O.
rewrite drop_app_length. now rewrite firstn_all.
Qed.

End GoSlices.

Section Ber.
Import encoding.

Lemma BER_take_tag_app (t rest : list Z) :
  BER_take_tag (length t) (t ++ rest) = Ok (t, rest).
Proof.
induction t as [|x t IH]; [reflexivity|].
cbn [length BER_take_tag app]. rewrite index_0_cons. simpl bind.
rewrite slice_from_1_cons. simpl bind. rewrite IH. reflexivity.
Qed.

Lemma BER_Decode_frame (t data : list Z) (l : Z) :
  BER_Decode (t ++ [l] ++ data) (len t) =
  if len data =? l then Ok (t, l, data)
  else Err (Errorf "BER-decoding failed. Length byte does not correspond to length of data").
Proof.
unfold BER_Decode. rewrite !len_app. rewrite len_cons.
pose proof (len_nonneg t). pose proof (len_nonneg data).
replace (len t + (len [] + 1 + len data) <? len t + 1) with false
  by (unfold len at 2; simpl; lia).
replace (len t <? 0) with false by lia.
unfold len at 1. rewrite Nat2Z.id. rewrite BER_take_tag_app. cbn [bind fst snd app].
rewrite index_0_cons. simpl bind. rewrite slice_from_1_cons. simpl bind.
destruct (len data =? l); reflexivity.
Qed.

Lemma u8_small (x : Z) : 0 <= x < 256 -> u8 x = x.
Proof. intros H. unfold u8. change 255 with (Z.ones 8). now apply range_land_ones. Qed.

Lemma u8_range (x : Z) : 0 <= u8 x < 256.
Proof. unfold u8. change 255 with (Z.ones 8). now apply land_ones_range. Qed.

(** X6. [Decode] undoes [Encode] for 1 to 255 bytes of data: with a tag
    given as bytes, and with a tag given as an integer (one tag byte, the
    integer truncated to a byte), decoding the encoded bytes with the
    tag's length returns the tag bytes, the data length and the data. *)
Theorem BER_roundtrip (t data : list Z) (n : Z) :
  0 < len data <= 255 ->
  (exists e, BER_Encode (TagBytes t) data = Ok e /\
             BER_Decode e (len t) = Ok (t, len data, data)) /\
  (exists e, BER_Encode (TagInt n) data = Ok e /\
             BER_Decode e 1 = Ok ([u8 n], len data, data)).
Proof.
intros Hlen.
assert (Hne : (len data =? 0) = false) by lia.
split.
- exists (t ++ [len data] ++ data). split.
  + unfold BER_Encode. rewrite Hne, u8_small by lia. reflexivity.
  + rewrite BER_Decode_frame, Z.eqb_refl. reflexivity.
- exists ([u8 n] ++ [len data] ++ data). split.
  + unfold BER_Encode. rewrite Hne, (u8_small (len data)) by lia. reflexivity.
  + change 1 with (len [u8 n]) at 1. rewrite BER_Decode_frame, Z.eqb_refl. reflexivity.
Qed.

Lemma BER_roundtrip_witness :
  (exists e, BER_Encode (TagBytes [0xBE; 0x10]) [4; 5; 6] = Ok e /\
             BER_Decode e (len [0xBE; 0x10]) = Ok ([0xBE; 0x10], len [4; 5; 6], [4; 5; 6])) /\
  (exists e, BER_Encode (TagInt 0x1A6) [4; 5; 6] = Ok e /\
             BER_Decode e 1 = Ok ([u8 0x1A6], len [4; 5; 6], [4; 5; 6])).
Proof. apply (BER_roundtrip [0xBE; 0x10] [4; 5; 6] 0x1A6). vm_compute. intuition discriminate. Defined.

(** X7. [Encode] never refuses its data, but what it returns for no data,
    or for more than 255 bytes of data, is not decodable: for no data the
    output is empty (the tag is dropped), for long data the length byte is
    the length modulo 256; [Decode] with the tag's length rejects both. *)
Theorem BER_Encode_not_decodable (t data : list Z) :
  len data = 0 \/ 255 < len data ->
  exists e, BER_Encode (TagBytes t) data = Ok e /\
            e = (if len data =? 0 then [] else t ++ [len data mod 256] ++ data) /\
            is_ok (BER_Decode e (len t)) = false.
Proof.
intros Hlen. unfold BER_Encode.
destruct (len data =? 0) eqn:E.
- exists []. repeat (apply conj; [reflexivity|]).
  unfold BER_Decode. pose proof (len_nonneg t).
  replace (len [] <? len t + 1) with true by (unfold len at 1; simpl; lia).
  reflexivity.
- eexists. split; [reflexivity|].
  assert (Hu : u8 (len data) = len data mod 256).
  { unfold u8. change 255 with (Z.ones 8). now rewrite Z.land_ones by lia. }
  rewrite Hu. split; [reflexivity|].
  rewrite BER_Decode_frame.
  replace (len data =? len data mod 256) with false; [reflexivity|].
  pose proof (Z.mod_pos_bound (len data) 256). lia.
Qed.

Lemma BER_Encode_not_decodable_witness :
  exists e, BER_Encode (TagBytes [0xBE]) (make 256) = Ok e /\
            e = (if len (make 256) =? 0 then [] else [0xBE] ++ [len (make 256) mod 256] ++ make 256) /\
            is_ok (BER_Decode e (len [0xBE])) = false.
Proof. apply (BER_Encode_not_decodable [0xBE] (make 256)). right. vm_compute. reflexivity. Defined.

End Ber.

Section VariableInteger.
Import dlmsdata encoding.

Lemma int_small (x : Z) : 0 <= x < 2 ^ 63 -> int x = x.
Proof.
intros H. unfold int. rewrite range_land_ones by lia.
replace (x <? 2 ^ 63) with true by lia. reflexivity.
Qed.

Lemma lor_shiftl_byte (x b : Z) : 0 <= b < 256 -> Z.lor (Z.shiftl x 8) b = x * 256 + b.
Proof.
intros Hb. pose proof (Z.add_lor_land (Z.shiftl x 8) b) as H.
assert (H0 : Z.land (Z.shiftl x 8) b = 0).
{ assert (Hb8 : b = Z.land b (Z.ones 8))
    by (symmetry; apply range_land_ones; [lia|change (2 ^ 8) with 256; lia]).
  rewrite Hb8. Z.bitblast. rewrite (Z.testbit_neg_r x) by lia. reflexivity. }
rewrite H0, Z.shiftl_mul_pow2 in H by lia. change (2 ^ 8) with 256 in H.
rewrite Z.shiftl_mul_pow2 by lia. change (2 ^ 8) with 256. lia.
Qed.

(** One round of the loop of [big_endian_int] on a value that does not
    overflow. *)
Lemma big_endian_round (x b : Z) :
  0 <= x -> x * 256 < 2 ^ 63 -> 0 <= b < 256 ->
  Z.lor (int (Z.shiftl x 8)) b = x * 256 + b.
Proof.
intros Hx Hov Hb.
assert (E : Z.shiftl x 8 = x * 256) by (rewrite Z.shiftl_mul_pow2 by lia; reflexivity).
rewrite E, int_small by lia. rewrite <- E at 1. now apply lor_shiftl_byte.
Qed.

Lemma lengthBytes_loop_app (k : nat) (n : Z) (acc : list Z) :
  lengthBytes_loop k n acc = lengthBytes_loop k n [] ++ acc.
Proof.
revert n acc. induction k as [|k IH]; intros n acc; [reflexivity|].
cbn [lengthBytes_loop]. rewrite IH. rewrite (IH _ [_]). now rewrite <- app_assoc.
Qed.

Lemma lengthBytes_loop_length (k : nat) (n : Z) (acc : list Z) :
  length (lengthBytes_loop k n acc) = (k + length acc)%nat.
Proof.
revert n acc. induction k as [|k IH]; intros n acc; [reflexivity|].
cbn [lengthBytes_loop]. rewrite IH. simpl. lia.
Qed.

Lemma lengthBytes_loop_bytes (k : nat) (n : Z) (acc : list Z) :
  Forall is_byte acc -> Forall is_byte (lengthBytes_loop k n acc).
Proof.
revert n acc. induction k as [|k IH]; intros n acc Hacc; [exact Hacc|].
cbn [lengthBytes_loop]. apply IH. constructor; [apply u8_range|exact Hacc].
Qed.

(** Reading back what the second loop of [EncodeVariableInteger] wrote. *)
Lemma big_endian_int_lengthBytes (k : nat) (n init : Z) (acc : list Z) :
  0 <= n < 2 ^ (8 * Z.of_nat k) -> 0 <= init ->
  init * 2 ^ (8 * Z.of_nat k) + n < 2 ^ 63 ->
  fold_left (fun length b => Z.lor (int (Z.shiftl length 8)) b)
            (lengthBytes_loop k n acc) init =
  fold_left (fun length b => Z.lor (int (Z.shiftl length 8)) b)
            acc (init * 2 ^ (8 * Z.of_nat k) + n).
Proof.
revert n acc. induction k as [|k IH]; intros n acc Hn Hinit Hov.
- cbn [lengthBytes_loop]. change (2 ^ (8 * Z.of_nat 0)) with 1 in *.
  f_equal. lia.
- cbn [lengthBytes_loop].
  assert (Hp : 2 ^ (8 * Z.of_nat (S k)) = 2 ^ (8 * Z.of_nat k) * 256).
  { replace (8 * Z.of_nat (S k)) with (8 * Z.of_nat k + 8) by lia.
    rewrite Z.pow_add_r by lia. reflexivity. }
  rewrite Hp in Hn, Hov.
  assert (Hpos : 0 < 2 ^ (8 * Z.of_nat k)) by (apply Z.pow_pos_nonneg; lia).
  set (P := 2 ^ (8 * Z.of_nat k)) in *.
  assert (Hd : Z.shiftr n 8 = n / 256) by (rewrite Z.shiftr_div_pow2 by lia; reflexivity).
  assert (Hm : u8 (Z.land n 255) = n mod 256).
  { unfold u8. rewrite <- Z.land_assoc. change (Z.land 255 255) with (Z.ones 8).
    now rewrite Z.land_ones by lia. }
  pose proof (Z.div_mod n 256 ltac:(lia)) as Hdm.
  pose proof (Z.mod_pos_bound n 256 ltac:(lia)) as Hmb.
  assert (Hq : 0 <= n / 256 < P).
  { split; [apply Z.div_pos; lia|]. apply Z.div_lt_upper_bound; lia. }
  rewrite Hd, Hm. rewrite IH; [| exact Hq | exact Hinit | nia ].
  cbn [fold_left]. rewrite big_endian_round; [| nia | nia | exact Hmb].
  f_equal. rewrite Hp. fold P. nia.
Qed.

Lemma encodedLength_loop_step (fuel : nat) (n k : Z) :
  1 <= k <= 7 ->
  encodedLength_loop (S fuel) n k =
  if n <=? 2 ^ (8 * k) - 1 then Some (Ok k) else encodedLength_loop fuel n (k + 1).
Proof.
intros Hk.
assert (H : k = 1 \/ k = 2 \/ k = 3 \/ k = 4 \/ k = 5 \/ k = 6 \/ k = 7) by lia.
destruct H as [->|[->|[->|[->|[->|[->| ->]]]]]]; reflexivity.
Qed.

(** The first loop stops within seven rounds on a length below [2^56]. *)
Lemma encodedLength_loop_stops (fuel : nat) (n : Z) :
  (7 <= fuel)%nat -> 0x7F < n < 2 ^ 56 ->
  exists k, encodedLength_loop fuel n 1 = Some (Ok k) /\ 1 <= k <= 7 /\ n < 2 ^ (8 * k).
Proof.
intros Hfuel Hn.
do 7 (destruct fuel as [|fuel]; [lia|]).
rewrite encodedLength_loop_step by lia.
destruct (n <=? 2 ^ (8 * 1) - 1) eqn:E1; [exists 1; repeat split; lia|].
change (1 + 1) with 2. rewrite encodedLength_loop_step by lia.
destruct (n <=? 2 ^ (8 * 2) - 1) eqn:E2; [exists 2; repeat split; lia|].
change (2 + 1) with 3. rewrite encodedLength_loop_step by lia.
destruct (n <=? 2 ^ (8 * 3) - 1) eqn:E3; [exists 3; repeat split; lia|].
change (3 + 1) with 4. rewrite encodedLength_loop_step by lia.
destruct (n <=? 2 ^ (8 * 4) - 1) eqn:E4; [exists 4; repeat split; lia|].
change (4 + 1) with 5. rewrite encodedLength_loop_step by lia.
destruct (n <=? 2 ^ (8 * 5) - 1) eqn:E5; [exists 5; repeat split; lia|].
change (5 + 1) with 6. rewrite encodedLength_loop_step by lia.
destruct (n <=? 2 ^ (8 * 6) - 1) eqn:E6; [exists 6; repeat split; lia|].
change (6 + 1) with 7. rewrite encodedLength_loop_step by lia.
destruct (n <=? 2 ^ (8 * 7) - 1) eqn:E7; [exists 7; repeat split; lia|].
change (2 ^ (8 * 7)) with (2 ^ 56) in E7. lia.
Qed.

(** What the two decoders do with a multi-byte prefix. *)
Lemma decoders_on_long_prefix (k : Z) (B rest : list Z) :
  1 <= k <= 7 -> len B = k ->
  DecodeVariableInteger (u8 (Z.lor 0x80 k) :: B ++ rest) = Ok (big_endian_int B, rest) /\
  GetAXdrLength (u8 (Z.lor 0x80 k) :: B ++ rest) = Ok (big_endian_int B, rest).
Proof.
intros Hk HB.
assert (Hf : Z.land (u8 (Z.lor 0x80 k)) 0x80 = 0x80 /\ Z.land (u8 (Z.lor 0x80 k)) 0x7F = k).
{ assert (H : k = 1 \/ k = 2 \/ k = 3 \/ k = 4 \/ k = 5 \/ k = 6 \/ k = 7) by lia.
  destruct H as [->|[->|[->|[->|[->|[->| ->]]]]]]; split; reflexivity. }
destruct Hf as [Hhi Hlo].
pose proof (len_nonneg rest) as Hr.
unfold DecodeVariableInteger, GetAXdrLength.
rewrite len_cons, len_app, index_0_cons. cbn [bind]. rewrite Hhi, Hlo, HB.
replace (k + len rest + 1 =? 0) with false by lia.
change (negb (negb (128 =? 0))) with false. cbv iota.
replace (k + len rest + 1 <? k + 1) with false by lia.
rewrite <- HB, slice_app_prefix, slice_from_app_suffix. cbn [bind]. split; reflexivity.
Qed.

(** X8. The variable-length integer: for a length within 0..2^56-1 the
    first loop of [EncodeVariableInteger] stops within seven rounds, the
    prefix it returns consists of bytes, and both [DecodeVariableInteger]
    and [GetAXdrLength] read the length back and return the data after
    the prefix untouched. *)
Theorem VariableInteger_roundtrip (fuel : nat) (n : Z) (rest : list Z) :
  (7 <= fuel)%nat -> 0 <= n < 2 ^ 56 ->
  exists prefix,
    EncodeVariableInteger fuel n = Some (Ok prefix) /\
    Forall is_byte prefix /\
    DecodeVariableInteger (prefix ++ rest) = Ok (n, rest) /\
    GetAXdrLength (prefix ++ rest) = Ok (n, rest).
Proof.
intros Hfuel Hn. unfold EncodeVariableInteger.
destruct (n <=? 127) eqn:E.
- exists [u8 n]. rewrite u8_small by lia. split; [reflexivity|].
  split; [repeat constructor; lia|].
  assert (H7 : Z.land n 0x80 = 0 /\ Z.land n 0x7F = n).
  { assert (Hn7 : Z.land n (Z.ones 7) = n)
      by (apply range_land_ones; [lia|change (2 ^ 7) with 128; lia]).
    split; [|exact Hn7].
    rewrite <- Hn7. change 0x80 with (Z.shiftl 1 7). Z.bitblast.
    rewrite (Z.testbit_neg_r 1) by lia. apply andb_false_r. }
  destruct H7 as [Hhi Hlo].
  unfold DecodeVariableInteger, GetAXdrLength. cbn [app].
  rewrite len_cons, index_0_cons. cbn [bind]. rewrite Hhi, Hlo.
  pose proof (len_nonneg rest).
  replace (len rest + 1 =? 0) with false by lia.
  change (negb (negb (0 =? 0))) with true. cbv iota.
  rewrite slice_from_1_cons. split; reflexivity.
- destruct (encodedLength_loop_stops fuel n Hfuel ltac:(lia)) as (k & -> & Hk & Hnk).
  cbn [bind]. eexists. split; [reflexivity|].
  set (B := lengthBytes_loop (Z.to_nat k) n []).
  assert (HB : len B = k).
  { unfold len, B. rewrite lengthBytes_loop_length. simpl. lia. }
  assert (Hval : big_endian_int B = n).
  { unfold big_endian_int, B. rewrite big_endian_int_lengthBytes.
    - reflexivity.
    - rewrite Z2Nat.id by lia. lia.
    - lia.
    - rewrite Z.mul_0_l, Z.add_0_l. lia. }
  split.
  { constructor; [apply u8_range|]. apply lengthBytes_loop_bytes. constructor. }
  cbn [app]. destruct (decoders_on_long_prefix k B rest Hk HB) as [H1 H2].
  rewrite H1, H2, Hval. split; reflexivity.
Qed.

Lemma VariableInteger_roundtrip_witness :
  exists prefix,
    EncodeVariableInteger 7 300 = Some (Ok prefix) /\
    Forall is_byte prefix /\
    DecodeVariableInteger (prefix ++ [0xAA]) = Ok (300, [0xAA]) /\
    GetAXdrLength (prefix ++ [0xAA]) = Ok (300, [0xAA]).
Proof. apply (VariableInteger_roundtrip 7 300 [0xAA]); lia. Defined.

(** X9. On every byte string [GetAXdrLength] and
    [DecodeVariableInteger] agree: either both return the same length and
    the same rest, or both return an error; neither panics. *)
Theorem length_decoders_agree (data : list Z) :
  Forall is_byte data ->
  (exists v rest, GetAXdrLength data = Ok (v, rest) /\
                  DecodeVariableInteger data = Ok (v, rest)) \/
  (exists e1 e2, GetAXdrLength data = Err e1 /\ DecodeVariableInteger data = Err e2).
Proof.
intros Hdata. destruct data as [|x l].
- right. do 2 eexists. split; reflexivity.
- apply Forall_cons in Hdata as [Hx _].
  unfold GetAXdrLength, DecodeVariableInteger.
  pose proof (len_nonneg l) as Hl.
  rewrite len_cons, index_0_cons. cbn [bind].
  replace (len l + 1 =? 0) with false by lia.
  pose proof (forall_bytes
    (fun x => negb (Z.land x 0x80 =? 0) || (Z.land x 0x7F =? x)) eq_refl x Hx) as Hshort.
  cbv beta in Hshort.
  destruct (Z.land x 0x80 =? 0) eqn:E; cbn [negb]; cbv iota.
  + left. rewrite slice_from_1_cons. cbn [bind].
    replace (Z.land x 0x7F) with x by (simpl in Hshort; lia).
    do 2 eexists. split; reflexivity.
  + assert (Hk : 0 <= Z.land x 0x7F) by (apply Z.land_nonneg; lia).
    destruct (len l + 1 <? Z.land x 0x7F + 1) eqn:El.
    * right. do 2 eexists. split; reflexivity.
    * left. unfold slice_from, slice. rewrite len_cons.
      replace ((0 <=? 1) && (1 <=? Z.land x 0x7F + 1) && (Z.land x 0x7F + 1 <=? len l + 1))
        with true by lia.
      replace ((0 <=? Z.land x 0x7F + 1) && (Z.land x 0x7F + 1 <=? len l + 1) &&
               (len l + 1 <=? len l + 1)) with true by lia.
      cbn [bind]. do 2 eexists. split; reflexivity.
Qed.

Lemma length_decoders_agree_witness :
  (exists v rest, GetAXdrLength [0x82; 0x01; 0x2C; 0xAA] = Ok (v, rest) /\
                  DecodeVariableInteger [0x82; 0x01; 0x2C; 0xAA] = Ok (v, rest)) \/
  (exists e1 e2, GetAXdrLength [0x82; 0x01; 0x2C; 0xAA] = Err e1 /\
                 DecodeVariableInteger [0x82; 0x01; 0x2C; 0xAA] = Err e2).
Proof.
apply (length_decoders_agree [0x82; 0x01; 0x2C; 0xAA]).
repeat constructor; vm_compute; discriminate.
Defined.

End VariableInteger.

Section DlmsData.
Import dlmsdata encoding.

Lemma Uint16_of_PutUint16 (v : Z) :
  0 <= v < 65536 ->
  Z.lor (u8 v) (Z.shiftl (u8 (Z.shiftr v 8)) 8) = v.
Proof.
intros Hv. rewrite <- (range_land_ones 16 v) at 3 by (change (2 ^ 16) with 65536; lia).
unfold u8. change 255 with (Z.ones 8). Z.bitblast.
Qed.

Lemma Uint32_of_PutUint32 (v : Z) :
  0 <= v < 4294967296 ->
  Z.lor (Z.lor (Z.lor (u8 v) (Z.shiftl (u8 (Z.shiftr v 8)) 8))
               (Z.shiftl (u8 (Z.shiftr v 16)) 16))
        (Z.shiftl (u8 (Z.shiftr v 24)) 24) = v.
Proof.
intros Hv. rewrite <- (range_land_ones 32 v) at 5 by (change (2 ^ 32) with 4294967296; lia).
unfold u8. change 255 with (Z.ones 8). Z.bitblast.
Qed.

Lemma u16_mod (v : Z) : u16 v = v mod 65536.
Proof. unfold u16. change 65535 with (Z.ones 16). now rewrite Z.land_ones by lia. Qed.

Lemma u32_mod (v : Z) : u32 v = v mod 4294967296.
Proof. unfold u32. change 4294967295 with (Z.ones 32). now rewrite Z.land_ones by lia. Qed.

Lemma u8_mod (v : Z) : u8 v = v mod 256.
Proof. unfold u8. change 255 with (Z.ones 8). now rewrite Z.land_ones by lia. Qed.

Lemma int8_u8 (v : Z) : -128 <= v <= 127 -> int8 (u8 v) = v.
Proof.
intros Hv. unfold int8. rewrite !u8_mod, Z.mod_mod by lia.
destruct (Z.leb_spec 0 v).
- rewrite Z.mod_small by lia. replace (v <? 128) with true by lia. reflexivity.
- replace (v mod 256) with (v + 256).
  + replace (v + 256 <? 128) with false by lia. lia.
  + apply Z.mod_unique with (q := -1); lia.
Qed.

Lemma int16_u16 (v : Z) : -32768 <= v <= 32767 -> int16 (u16 v) = v.
Proof.
intros Hv. unfold int16. rewrite !u16_mod, Z.mod_mod by lia.
destruct (Z.leb_spec 0 v).
- rewrite Z.mod_small by lia. replace (v <? 32768) with true by lia. reflexivity.
- replace (v mod 65536) with (v + 65536).
  + replace (v + 65536 <? 32768) with false by lia. lia.
  + apply Z.mod_unique with (q := -1); lia.
Qed.

Lemma int32_u32 (v : Z) : -2147483648 <= v <= 2147483647 -> int32 (u32 v) = v.
Proof.
intros Hv. unfold int32. rewrite !u32_mod, Z.mod_mod by lia.
destruct (Z.leb_spec 0 v).
- rewrite Z.mod_small by lia. replace (v <? 2147483648) with true by lia. reflexivity.
- replace (v mod 4294967296) with (v + 4294967296).
  + replace (v + 4294967296 <? 2147483648) with false by lia. lia.
  + apply Z.mod_unique with (q := -1); lia.
Qed.

Lemma u16_range (v : Z) : 0 <= u16 v < 65536.
Proof. rewrite u16_mod. apply Z.mod_pos_bound. lia. Qed.

Lemma u32_range (v : Z) : 0 <= u32 v < 4294967296.
Proof. rewrite u32_mod. apply Z.mod_pos_bound. lia. Qed.

(** X10. For each scalar data type, [ValueToBytes] of a value the Go
    type can hold returns bytes from which the type's [FromBytes] builds
    the same value again. *)
Theorem scalar_value_roundtrip (d : ScalarData) :
  well_typed d ->
  exists valueBytes,
    ValueToBytes d = Ok valueBytes /\
    Forall is_byte valueBytes /\
    FromBytes_as d valueBytes = Ok d.
Proof.
destruct d as [|b|v|v|v|v|v|v|v|v]; intros Hd; cbn [well_typed] in Hd;
  cbn [ValueToBytes FromBytes_as].
- exists []. repeat split. constructor.
- exists [if b then 1 else 0]. destruct b; repeat split; repeat constructor; lia.
- exists [u8 v]. split; [reflexivity|]. split; [repeat constructor; apply u8_range|].
  unfold IntegerData_FromBytes. cbn [len length]. rewrite index_0_cons. cbn [bind].
  simpl. now rewrite int8_u8.
- exists [v]. split; [reflexivity|]. split; [repeat constructor; lia|]. reflexivity.
- eexists. split; [reflexivity|]. split; [repeat constructor; apply u8_range|].
  unfold LongData_FromBytes. simpl. 
  rewrite Uint16_of_PutUint16 by apply u16_range. now rewrite int16_u16.
- eexists. split; [reflexivity|]. split; [repeat constructor; apply u8_range|].
  unfold UnsignedLongData_FromBytes. simpl.
  rewrite Uint16_of_PutUint16 by lia. reflexivity.
- eexists. split; [reflexivity|]. split; [repeat constructor; apply u8_range|].
  unfold DoubleLongData_FromBytes. simpl.
  rewrite Uint32_of_PutUint32 by apply u32_range. now rewrite int32_u32.
- eexists. split; [reflexivity|]. split; [repeat constructor; apply u8_range|].
  unfold DoubleLongUnsignedData_FromBytes. simpl.
  rewrite Uint32_of_PutUint32 by lia. reflexivity.
- exists v. repeat split. exact Hd.
- exists v. repeat split. exact Hd.
Qed.

Lemma scalar_value_roundtrip_witness :
  exists valueBytes,
    ValueToBytes (LongData (-2)) = Ok valueBytes /\
    Forall is_byte valueBytes /\
    FromBytes_as (LongData (-2)) valueBytes = Ok (LongData (-2)).
Proof. apply (scalar_value_roundtrip (LongData (-2))). simpl. lia. Defined.

(** X11. [ToBytes] of every scalar data type other than NullData is the
    method promoted from the embedded base struct; it calls the base
    [ValueToBytes] and so returns that method's error for every value,
    although the type's own [ValueToBytes] succeeds. *)
Theorem scalar_ToBytes_always_fails (d : ScalarData) :
  d <> NullData ->
  is_ok (ValueToBytes d) = true /\
  ToBytes d = Err (Errorf "value_to_bytes must be implemented in subclass").
Proof.
intros Hd. destruct d; try (split; reflexivity). contradiction.
Qed.

Lemma scalar_ToBytes_always_fails_witness :
  is_ok (ValueToBytes (UnsignedIntegerData 7)) = true /\
  ToBytes (UnsignedIntegerData 7) = Err (Errorf "value_to_bytes must be implemented in subclass").
Proof. apply (scalar_ToBytes_always_fails (UnsignedIntegerData 7)). discriminate. Defined.

(** X12. The clock status byte: [FromBytes] undoes [ToBytes] for every
    status, and [ToBytes] of a parsed byte gives the byte with the three
    unused bits 4 to 6 cleared. *)
Theorem ClockStatus_roundtrip (c : ClockStatus) (b : Z) :
  is_byte b ->
  ClockStatus_FromBytes (ClockStatus_ToBytes c) = Ok c /\
  exists c', ClockStatus_FromBytes [b] = Ok c' /\
             ClockStatus_ToBytes c' = [Z.land b 0x8F].
Proof.
intros Hb. split.
- destruct c as [[] [] [] [] []]; reflexivity.
- unfold ClockStatus_FromBytes. cbn [len length negb]. 
  change (negb (Z.of_nat 1 =? 1)) with false. cbv iota.
  rewrite index_0_cons. cbn [bind]. eexists. split; [reflexivity|].
  pose proof (forall_bytes
    (fun b => match ClockStatus_FromBytes [b] with
              | Ok c' => bytes_equal (ClockStatus_ToBytes c') [Z.land b 0x8F]
              | _ => false
              end) eq_refl b Hb) as H.
  cbv beta in H. unfold ClockStatus_FromBytes in H. cbn [len length negb] in H.
  change (negb (Z.of_nat 1 =? 1)) with false in H. cbv iota in H.
  rewrite index_0_cons in H. cbn [bind] in H.
  now apply bytes_equal_iff in H.
Qed.

Lemma ClockStatus_roundtrip_witness :
  ClockStatus_FromBytes
    (ClockStatus_ToBytes {| Invalid := true; Doubtful := false; DifferentBase := false;
                            InvalidStatus := false; DaylightSavingActive := true |}) =
  Ok {| Invalid := true; Doubtful := false; DifferentBase := false;
        InvalidStatus := false; DaylightSavingActive := true |} /\
  exists c', ClockStatus_FromBytes [0xFF] = Ok c' /\
             ClockStatus_ToBytes c' = [Z.land 0xFF 0x8F].
Proof.
apply (ClockStatus_roundtrip
         {| Invalid := true; Doubtful := false; DifferentBase := false;
            InvalidStatus := false; DaylightSavingActive := true |} 0xFF).
unfold is_byte. lia.
Defined.

End DlmsData.

Section ControlFields.
Import hdlc encoding.

Lemma forall_seq_numbers (P : Z -> bool) :
  forallb P [0; 1; 2; 3; 4; 5; 6; 7] = true -> forall x, 0 <= x <= 7 -> P x = true.
Proof.
intros H x Hx. rewrite forallb_forall in H. apply H.
assert (E : x = 0 \/ x = 1 \/ x = 2 \/ x = 3 \/ x = 4 \/ x = 5 \/ x = 6 \/ x = 7) by lia.
simpl. intuition.
Qed.

(** X13. Control fields survive encoding and decoding: an information
    field with both sequence numbers within 0..7 and either final flag, a
    receive-ready field with a sequence number within 0..7, and an
    unnumbered-information field with either final flag. *)
Theorem control_field_roundtrip (ssn rsn : Z) (final : bool) :
  0 <= ssn <= 7 -> 0 <= rsn <= 7 ->
  InformationControlField_FromBytes
    (ControlField_ToBytes
       (InformationControl {| icf_SendSequenceNumber := ssn;
                              icf_ReceiveSequenceNumber := rsn;
                              icf_Final := final |})) =
  Ok {| icf_SendSequenceNumber := ssn; icf_ReceiveSequenceNumber := rsn;
        icf_Final := final |} /\
  ReceiveReadyControlField_FromBytes
    (ControlField_ToBytes (ReceiveReadyControl {| rrcf_ReceiveSequenceNumber := rsn |})) =
  Ok {| rrcf_ReceiveSequenceNumber := rsn |} /\
  UnnumberedInformationControlField_FromBytes
    (ControlField_ToBytes (UnnumberedInformationControlField final)) =
  Ok (UnnumberedInformationControlField final).
Proof.
intros Hs Hr.
split; [|split].
- assert (H : forallb (fun ssn => forallb (fun rsn => forallb (fun final =>
      match InformationControlField_FromBytes
              (ControlField_ToBytes
                 (InformationControl {| icf_SendSequenceNumber := ssn;
                                        icf_ReceiveSequenceNumber := rsn;
                                        icf_Final := final |})) with
      | Ok i => (icf_SendSequenceNumber i =? ssn)
                && (icf_ReceiveSequenceNumber i =? rsn)
                && eqb (icf_Final i) final
      | _ => false
      end) [true; false]) [0; 1; 2; 3; 4; 5; 6; 7]) [0; 1; 2; 3; 4; 5; 6; 7] = true)
    by (vm_compute; reflexivity).
  pose proof (forall_seq_numbers _ (forall_seq_numbers _ H ssn Hs) rsn Hr) as H'.
  cbv beta in H'. rewrite forallb_forall in H'.
  specialize (H' final ltac:(destruct final; simpl; auto)).
  destruct (InformationControlField_FromBytes _) as [[s' r' f']| |]; try discriminate.
  cbn in H'. rewrite !andb_true_iff, !Z.eqb_eq, eqb_true_iff in H'.
  destruct H' as [[-> ->] ->]. reflexivity.
- assert (H : forallb (fun rsn =>
      match ReceiveReadyControlField_FromBytes
              (ControlField_ToBytes
                 (ReceiveReadyControl {| rrcf_ReceiveSequenceNumber := rsn |})) with
      | Ok r => rrcf_ReceiveSequenceNumber r =? rsn
      | _ => false
      end) [0; 1; 2; 3; 4; 5; 6; 7] = true) by (vm_compute; reflexivity).
  pose proof (forall_seq_numbers _ H rsn Hr) as H'. cbv beta in H'.
  destruct (ReceiveReadyControlField_FromBytes _) as [[r]| |]; try discriminate.
  cbn in H'. f_equal. f_equal. lia.
- destruct final; reflexivity.
Qed.

Lemma control_field_roundtrip_witness :
  InformationControlField_FromBytes
    (ControlField_ToBytes
       (InformationControl {| icf_SendSequenceNumber := 5;
                              icf_ReceiveSequenceNumber := 2;
                              icf_Final := true |})) =
  Ok {| icf_SendSequenceNumber := 5; icf_ReceiveSequenceNumber := 2;
        icf_Final := true |} /\
  ReceiveReadyControlField_FromBytes
    (ControlField_ToBytes (ReceiveReadyControl {| rrcf_ReceiveSequenceNumber := 2 |})) =
  Ok {| rrcf_ReceiveSequenceNumber := 2 |} /\
  UnnumberedInformationControlField_FromBytes
    (ControlField_ToBytes (UnnumberedInformationControlField true)) =
  Ok (UnnumberedInformationControlField true).
Proof. apply (control_field_roundtrip 5 2 true); lia. Defined.

(** X14. How the two sequenced control field parsers read a byte: the
    information parser accepts exactly the bytes with the least
    significant bit clear, and re-encoding what it returns gives the byte
    back; the receive-ready parser accepts every byte with that bit set
    (also the control bytes of SNRM, UA and DISC frames), and re-encoding
    keeps the three sequence bits only, giving [(b & 0xE0) | 0x11]. *)
Theorem control_byte_classification (b : Z) :
  is_byte b ->
  is_ok (InformationControlField_FromBytes [b]) = negb (Z.testbit b 0) /\
  is_ok (ReceiveReadyControlField_FromBytes [b]) = Z.testbit b 0 /\
  (forall i, InformationControlField_FromBytes [b] = Ok i ->
             ControlField_ToBytes (InformationControl i) = [b]) /\
  (forall r, ReceiveReadyControlField_FromBytes [b] = Ok r ->
             ControlField_ToBytes (ReceiveReadyControl r) = [Z.lor (Z.land b 0xE0) 0x11]).
Proof.
intros Hb.
pose proof (forall_bytes (fun b =>
  eqb (is_ok (InformationControlField_FromBytes [b])) (negb (Z.testbit b 0))
  && eqb (is_ok (ReceiveReadyControlField_FromBytes [b])) (Z.testbit b 0)
  && match InformationControlField_FromBytes [b] with
     | Ok i => bytes_equal (ControlField_ToBytes (InformationControl i)) [b]
     | _ => true
     end
  && match ReceiveReadyControlField_FromBytes [b] with
     | Ok r => bytes_equal (ControlField_ToBytes (ReceiveReadyControl r))
                 [Z.lor (Z.land b 0xE0) 0x11]
     | _ => true
     end) eq_refl b Hb) as H.
cbv beta in H. rewrite !andb_true_iff, !eqb_true_iff in H.
destruct H as [[[H1 H2] H3] H4].
split; [exact H1|]. split; [exact H2|]. split.
- intros i Hi. rewrite Hi in H3. now apply bytes_equal_iff.
- intros r Hr. rewrite Hr in H4. now apply bytes_equal_iff.
Qed.

Lemma control_byte_classification_witness :
  is_ok (InformationControlField_FromBytes [0x93]) = negb (Z.testbit 0x93 0) /\
  is_ok (ReceiveReadyControlField_FromBytes [0x93]) = Z.testbit 0x93 0 /\
  (forall i, InformationControlField_FromBytes [0x93] = Ok i ->
             ControlField_ToBytes (InformationControl i) = [0x93]) /\
  (forall r, ReceiveReadyControlField_FromBytes [0x93] = Ok r ->
             ControlField_ToBytes (ReceiveReadyControl r) = [Z.lor (Z.land 0x93 0xE0) 0x11]).
Proof. apply (control_byte_classification 0x93). unfold is_byte. lia. Defined.

End ControlFields.

Section Addresses.
Import hdlc.

Lemma ExtractAddressBytes_loop_end_marked (bs rest acc : list Z) :
  end_marked bs = true -> len acc + len bs <= 4 ->
  ExtractAddressBytes_loop (bs ++ rest) acc = Ok (acc ++ bs, rest).
Proof.
revert acc. induction bs as [|b bs IH]; intros acc Hm Hlen; [discriminate|].
rewrite len_cons in Hlen. pose proof (len_nonneg bs) as Hbs.
cbn [app ExtractAddressBytes_loop]. rewrite len_app, len_cons.
change (len []) with 0. replace (len acc + (0 + 1) >? 4) with false by lia.
destruct bs as [|b' bs].
- cbn [end_marked] in Hm. rewrite Hm. reflexivity.
- change (end_marked (b :: b' :: bs)) with ((Z.land b 1 =? 0) && end_marked (b' :: bs)) in Hm.
  apply andb_true_iff in Hm as [Hb Hm]. rewrite Hb. cbn [negb].
  rewrite IH; [now rewrite <- app_assoc | exact Hm | rewrite len_app, len_cons; change (len []) with 0; lia].
Qed.

Lemma NewHdlcAddress_ok (l : Z) (p : option Z) (t : AddressType) (ext : bool) (a : HdlcAddress) :
  NewHdlcAddress l p t ext = Ok a ->
  a = {| addr_LogicalAddress := l; addr_PhysicalAddress := p;
         addr_AddressType := t; addr_ExtendedAddressing := ext |} /\
  0 <= l <= 127 /\
  match p with Some p => 0 <= p <= 127 | None => True end /\
  (t = AddressTypeClient \/ t = AddressTypeServer).
Proof.
unfold NewHdlcAddress, validateHdlcAddress, validateHdlcAddressType.
destruct ((l <? 0) || (l >? 127)) eqn:El; [discriminate|].
destruct p as [p|].
- destruct ((p <? 0) || (p >? 127)) eqn:Ep; [discriminate|].
  destruct (String.eqb t AddressTypeClient) eqn:E1;
  destruct (String.eqb t AddressTypeServer) eqn:E2; cbn [negb andb]; try discriminate;
  intros [= <-]; (split; [reflexivity|]); (split; [lia|]); (split; [lia|]);
  rewrite ?String.eqb_eq in *; auto.
- destruct (String.eqb t AddressTypeClient) eqn:E1;
  destruct (String.eqb t AddressTypeServer) eqn:E2; cbn [negb andb]; try discriminate;
  intros [= <-]; (split; [reflexivity|]); (split; [lia|]); (split; [trivial|]);
  rewrite ?String.eqb_eq in *; auto.
Qed.

Lemma splitAddress_small (l : Z) :
  0 <= l <= 127 ->
  exists x, splitAddress l = (0, x) /\ (Z.land x 1 =? 0) = true /\
            (Z.land (Z.lor x 1) 1 =? 0) = false /\ (Z.lor x 1 =? 0) = false.
Proof.
intros Hl. assert (Hb : is_byte l) by (unfold is_byte; lia).
pose proof (forall_bytes (fun l =>
  (l >? 127) ||
  let '(h, x) := splitAddress l in
  (h =? 0) && (Z.land x 1 =? 0) && negb (Z.land (Z.lor x 1) 1 =? 0) && negb (Z.lor x 1 =? 0))
  eq_refl l Hb) as H.
cbv beta in H. replace (l >? 127) with false in H by lia. cbn [orb] in H.
destruct (splitAddress l) as [h x]. exists x.
rewrite !andb_true_iff, !negb_true_iff, Z.eqb_eq in H.
destruct H as [[[-> H1] H2] H3]. auto.
Qed.

Lemma valid_address_end_marked (l : Z) (p : option Z) (t : AddressType) (ext : bool) :
  0 <= l <= 127 ->
  match p with Some p => 0 <= p <= 127 | None => True end ->
  t = AddressTypeClient \/ t = AddressTypeServer ->
  let a := {| addr_LogicalAddress := l; addr_PhysicalAddress := p;
              addr_AddressType := t; addr_ExtendedAddressing := ext |} in
  end_marked (Address_ToBytes a) && (len (Address_ToBytes a) <=? 4) = true.
Proof.
intros Hl Hp Ht a. subst a. unfold Address_ToBytes.
cbn [addr_LogicalAddress addr_PhysicalAddress addr_AddressType addr_ExtendedAddressing].
destruct Ht as [-> | ->].
- change (String.eqb AddressTypeClient AddressTypeClient) with true. cbv iota.
  assert (Hb : is_byte l) by (unfold is_byte; lia).
  pose proof (forall_bytes (fun l =>
    (l >? 127) ||
    negb (u8 (Z.lor (Z.shiftl l 1) 1) =? 0) &&
    negb (Z.land (u8 (Z.lor (Z.shiftl l 1) 1)) 1 =? 0)) eq_refl l Hb) as H.
  cbv beta in H. replace (l >? 127) with false in H by lia. cbn [orb] in H.
  rewrite andb_true_iff, !negb_true_iff in H. destruct H as [H1 H2].
  cbn [List.filter]. rewrite H1. cbn [end_marked]. rewrite H2. reflexivity.
- change (String.eqb AddressTypeServer AddressTypeClient) with false. cbv iota.
  destruct (splitAddress_small l Hl) as (x & -> & Hx0 & Hx1 & Hx2).
  destruct p as [p|].
  + destruct (splitAddress_small p Hp) as (y & -> & Hy0 & Hy1 & Hy2).
    cbn [List.filter]. change (0 =? 0) with true. cbv iota. rewrite Hy2.
    destruct ext, (x =? 0) eqn:Ex; cbn [end_marked]; rewrite ?Hx0, ?Hy1; reflexivity.
  + cbn [List.filter]. change (0 =? 0) with true. cbv iota. rewrite Hx2.
    destruct ext; cbn [end_marked]; rewrite ?Hx1; reflexivity.
Qed.

(** X15. The bytes [ToBytes] gives for an address that [NewHdlcAddress]
    accepted are one to four, all but the last with the least significant
    bit clear and the last with it set; [ExtractAddressBytes] splits
    exactly these bytes off whatever data follows them. *)
Theorem ExtractAddressBytes_of_ToBytes
  (l : Z) (p : option Z) (t : AddressType) (ext : bool) (a : HdlcAddress) (rest : list Z) :
  NewHdlcAddress l p t ext = Ok a ->
  end_marked (Address_ToBytes a) = true /\
  1 <= Address_Length a <= 4 /\
  ExtractAddressBytes (Address_ToBytes a ++ rest) = Ok (Address_ToBytes a, rest).
Proof.
intros Hnew. apply NewHdlcAddress_ok in Hnew as (-> & Hl & Hp & Ht).
pose proof (valid_address_end_marked l p t ext Hl Hp Ht) as H. cbv zeta in H.
apply andb_true_iff in H as [Hm Hlen].
split; [exact Hm|]. split.
- unfold Address_Length. split; [|lia].
  destruct (Address_ToBytes _); [discriminate|]. rewrite len_cons.
  pose proof (len_nonneg l0). lia.
- unfold ExtractAddressBytes.
  rewrite ExtractAddressBytes_loop_end_marked; [reflexivity|exact Hm|].
  change (len []) with 0. lia.
Qed.

Lemma ExtractAddressBytes_of_ToBytes_witness :
  end_marked (Address_ToBytes
    {| addr_LogicalAddress := 1; addr_PhysicalAddress := Some 17;
       addr_AddressType := AddressTypeServer; addr_ExtendedAddressing := true |}) = true /\
  1 <= Address_Length
    {| addr_LogicalAddress := 1; addr_PhysicalAddress := Some 17;
       addr_AddressType := AddressTypeServer; addr_ExtendedAddressing := true |} <= 4 /\
  ExtractAddressBytes (Address_ToBytes
    {| addr_LogicalAddress := 1; addr_PhysicalAddress := Some 17;
       addr_AddressType := AddressTypeServer; addr_ExtendedAddressing := true |} ++ [0x93]) =
  Ok (Address_ToBytes
    {| addr_LogicalAddress := 1; addr_PhysicalAddress := Some 17;
       addr_AddressType := AddressTypeServer; addr_ExtendedAddressing := true |}, [0x93]).
Proof.
apply (ExtractAddressBytes_of_ToBytes 1 (Some 17) AddressTypeServer true). reflexivity.
Defined.



Lemma nth_len_app (pre post : list Z) (x : Z) :
  nth (Z.to_nat (len pre)) (pre ++ x :: post) 0 = x.
Proof. unfold len. rewrite Nat2Z.id. apply nth_middle. Qed.

Lemma index_len_app (pre post : list Z) (x : Z) :
  index (pre ++ x :: post) (len pre) = Ok x.
Proof.
unfold index. rewrite len_app, len_cons, nth_len_app.
pose proof (len_nonneg pre). pose proof (len_nonneg post).
replace ((0 <=? len pre) && (len pre <? len pre + (len post + 1))) with true by lia.
reflexivity.
Qed.








End Addresses.

Section LinkFsmMore.
Import hdlc.

(** X17. Every frame the link state machine accepts moves the connection
    from a send state to a receive state or from a receive state to a
    send state; no accepted frame stays on the same side. *)
Theorem link_fsm_alternates (h h' : HdlcConnectionState) (frame : any) :
  ProcessFrame h frame = (h', None) ->
  (IsSendState h = true /\ IsReceiveState h = false /\
   IsSendState h' = false /\ IsReceiveState h' = true) \/
  (IsSendState h = false /\ IsReceiveState h = true /\
   IsSendState h' = true /\ IsReceiveState h' = false).
Proof.
destruct h as [s], h' as [s']. intros H.
assert (E : match ProcessFrame {| CurrentState := s |} frame with
            | (h', None) => Some (CurrentState h')
            | _ => None
            end = Some s') by (rewrite H; reflexivity).
clear H.
destruct s; destruct frame as [[f|f|f|f|f]|]; vm_compute in E;
  try discriminate E; injection E as <-; vm_compute; auto.
Qed.

Lemma link_fsm_alternates_witness :
  (IsSendState NewHdlcConnectionState = true /\
   IsReceiveState NewHdlcConnectionState = false /\
   IsSendState {| CurrentState := HdlcStateAwaitingConnection |} = false /\
   IsReceiveState {| CurrentState := HdlcStateAwaitingConnection |} = true) \/
  (IsSendState NewHdlcConnectionState = false /\
   IsReceiveState NewHdlcConnectionState = true /\
   IsSendState {| CurrentState := HdlcStateAwaitingConnection |} = true /\
   IsReceiveState {| CurrentState := HdlcStateAwaitingConnection |} = false).
Proof.
apply (link_fsm_alternates NewHdlcConnectionState
         {| CurrentState := HdlcStateAwaitingConnection |}
         (Frame (SNRM (NewSetNormalResponseModeFrame
            {| addr_LogicalAddress := 1; addr_PhysicalAddress := None;
               addr_AddressType := AddressTypeServer; addr_ExtendedAddressing := false |}
            {| addr_LogicalAddress := 16; addr_PhysicalAddress := None;
               addr_AddressType := AddressTypeClient; addr_ExtendedAddressing := false |})))).
vm_compute. reflexivity.
Defined.

End LinkFsmMore.

Section SessionFsmMore.
Import dlms.

(** X18. From every session state other than NeedData a connection can
    get back to NoAssociation by at most three events that
    [ProcessEvent] accepts one after the other. *)
Theorem session_can_return_to_NoAssociation (s : State) :
  s <> NeedData ->
  exists events,
    (length events <= 3)%nat /\
    ProcessEvents (NewDlmsConnectionStateWithState s) events =
    (NewDlmsConnectionState, None).
Proof.
intros Hs. destruct s; try contradiction.
- exists []. split; [simpl; lia | reflexivity].
- exists [TStruct ExceptionResponse]. split; [simpl; lia | vm_compute; reflexivity].
- exists [TStruct EndAssociation]. split; [simpl; lia | vm_compute; reflexivity].
- exists [TStruct ReleaseResponse]. split; [simpl; lia | vm_compute; reflexivity].
- exists [TStruct ActionResponseNormal; TStruct EndAssociation].
  split; [simpl; lia | vm_compute; reflexivity].
- exists [TStruct GetResponseNormal; TStruct EndAssociation].
  split; [simpl; lia | vm_compute; reflexivity].
- exists [TStruct ExceptionResponse; TStruct EndAssociation].
  split; [simpl; lia | vm_compute; reflexivity].
- exists [TStruct GetRequestNext; TStruct ExceptionResponse; TStruct EndAssociation].
  split; [simpl; lia | vm_compute; reflexivity].
- exists [TStruct SetResponseNormal; TStruct EndAssociation].
  split; [simpl; lia | vm_compute; reflexivity].
- exists [TStruct ActionRequestNormal; TStruct ActionResponseNormal].
  split; [simpl; lia | vm_compute; reflexivity].
- exists [TStruct ActionResponseNormal]. split; [simpl; lia | vm_compute; reflexivity].
- exists [TStruct HlsFailed]. split; [simpl; lia | vm_compute; reflexivity].
Qed.

Lemma session_can_return_to_NoAssociation_witness :
  exists events,
    (length events <= 3)%nat /\
    ProcessEvents (NewDlmsConnectionStateWithState ShouldAckLastGetBlock) events =
    (NewDlmsConnectionState, None).
Proof. apply (session_can_return_to_NoAssociation ShouldAckLastGetBlock). discriminate. Defined.

End SessionFsmMore.

Section CosemMore.
Import cosem.

Lemma NewObis_ok (a b c d e f : Z) :
  0 <= a <= 255 -> 0 <= b <= 255 -> 0 <= c <= 255 ->
  0 <= d <= 255 -> 0 <= e <= 255 -> 0 <= f <= 255 ->
  NewObis a b c d e f =
  Ok {| obis_A := a; obis_B := b; obis_C := c; obis_D := d; obis_E := e; obis_F := f |}.
Proof.
intros Ha Hb Hc Hd He Hf. unfold NewObis, validateOBISComponent.
replace ((a <? 0) || (a >? 255)) with false by lia.
replace ((b <? 0) || (b >? 255)) with false by lia.
replace ((c <? 0) || (c >? 255)) with false by lia.
replace ((d <? 0) || (d >? 255)) with false by lia.
replace ((e <? 0) || (e >? 255)) with false by lia.
replace ((f <? 0) || (f >? 255)) with false by lia.
reflexivity.
Qed.

Lemma FromBytes_Obis_ToBytes (o : Obis) : in_range o -> FromBytes (Obis_ToBytes o) = Ok o.
Proof.
destruct o as [a b c d e f]. unfold in_range. cbn. intros (Ha & Hb & Hc & Hd & He & Hf).
rewrite !u8_small by lia. now apply NewObis_ok.
Qed.

(** X19. OBIS codes and their six bytes: [FromBytes] undoes [ToBytes]
    for every code with components within 0..255, and [ToBytes] undoes
    [FromBytes] for every six bytes. *)
Theorem Obis_bytes_roundtrip (o : Obis) (sourceBytes : list Z) :
  in_range o -> Forall is_byte sourceBytes -> len sourceBytes = 6 ->
  FromBytes (Obis_ToBytes o) = Ok o /\
  exists o', FromBytes sourceBytes = Ok o' /\ Obis_ToBytes o' = sourceBytes.
Proof.
intros Ho Hb Hlen. split; [now apply FromBytes_Obis_ToBytes|].
destruct sourceBytes as [|b0 [|b1 [|b2 [|b3 [|b4 [|b5 [|]]]]]]];
  try (exfalso; unfold len in Hlen; cbn [length] in Hlen; lia).
repeat match goal with H : Forall _ (_ :: _) |- _ => apply Forall_cons in H as [? H] end.
unfold is_byte in *.
eexists. split.
- cbn [FromBytes]. apply NewObis_ok; lia.
- unfold Obis_ToBytes. cbn. rewrite !u8_small by lia. reflexivity.
Qed.

Lemma Obis_bytes_roundtrip_witness :
  FromBytes (Obis_ToBytes {| obis_A := 1; obis_B := 0; obis_C := 1;
                             obis_D := 8; obis_E := 0; obis_F := 255 |}) =
  Ok {| obis_A := 1; obis_B := 0; obis_C := 1; obis_D := 8; obis_E := 0; obis_F := 255 |} /\
  exists o', FromBytes [0; 0; 96; 1; 0; 255] = Ok o' /\
             Obis_ToBytes o' = [0; 0; 96; 1; 0; 255].
Proof.
apply (Obis_bytes_roundtrip
         {| obis_A := 1; obis_B := 0; obis_C := 1; obis_D := 8; obis_E := 0; obis_F := 255 |}
         [0; 0; 96; 1; 0; 255]).
- unfold in_range. simpl. lia.
- repeat constructor; unfold is_byte; lia.
- reflexivity.
Defined.

(** X20. The attribute descriptor: with an interface class and an
    attribute id within 0..255 and an OBIS code in range, [ToBytes] gives
    the nine bytes 0, class, the six OBIS bytes, attribute, and
    [FromBytes] builds the descriptor again from them.  [FromBytes] keeps
    the low byte of the two class bytes only: the first byte of its input
    has no effect on the result. *)
Theorem CosemAttribute_roundtrip (interfaceClass attribute : Z) (instance : Obis)
  (b0 b1 : Z) (rest : list Z) :
  0 <= interfaceClass <= 255 -> 0 <= attribute <= 255 -> in_range instance ->
  (exists bytes,
     CosemAttribute_ToBytes (NewCosemAttribute interfaceClass (Some instance) attribute)
       = Ok bytes /\
     bytes = [0; interfaceClass] ++ Obis_ToBytes instance ++ [attribute] /\
     CosemAttribute_FromBytes bytes
       = Ok (NewCosemAttribute interfaceClass (Some instance) attribute)) /\
  CosemAttribute_FromBytes (b0 :: b1 :: rest) = CosemAttribute_FromBytes (0 :: b1 :: rest).
Proof.
intros Hi Ha Ho. split.
- destruct instance as [a b c d e f]. unfold in_range in Ho. cbn in Ho.
  destruct Ho as (HA & HB & HC & HD & HE & HF).
  assert (Hu : u16 interfaceClass = interfaceClass).
  { rewrite u16_mod. apply Z.mod_small. lia. }
  assert (Hhi : u8 (Z.shiftr interfaceClass 8) = 0).
  { rewrite Z.shiftr_div_pow2 by lia. rewrite Z.div_small by (change (2 ^ 8) with 256; lia).
    reflexivity. }
  exists [0; interfaceClass; a; b; c; d; e; f; attribute]. split; [|split].
  + unfold CosemAttribute_ToBytes, NewCosemAttribute.
    cbn [ca_Interface ca_Instance ca_Attribute].
    change (slice (make (Z.to_nat CosemAttributeLength)) 0 2) with (Ok [0; 0]).
    change (slice (make (Z.to_nat CosemAttributeLength)) 2 8) with (Ok [0; 0; 0; 0; 0; 0]).
    change (index (make (Z.to_nat CosemAttributeLength)) 8) with (Ok 0).
    cbn [bind BigEndian_PutUint16]. rewrite Hu, Hhi.
    unfold copy, Obis_ToBytes. cbn. rewrite !u8_small by lia. reflexivity.
  + unfold Obis_ToBytes. cbn. rewrite !u8_small by lia. reflexivity.
  + unfold CosemAttribute_FromBytes.
    change (negb (len [0; interfaceClass; a; b; c; d; e; f; attribute] =? CosemAttributeLength))
      with false. cbv iota.
    change (slice [0; interfaceClass; a; b; c; d; e; f; attribute] 0 2)
      with (Ok [0; interfaceClass]).
    change (slice [0; interfaceClass; a; b; c; d; e; f; attribute] 2 8)
      with (Ok [a; b; c; d; e; f]).
    change (index [0; interfaceClass; a; b; c; d; e; f; attribute] 8) with (Ok attribute).
    cbn [bind BigEndian_Uint16 FromBytes].
    assert (Hl : u8 (Z.lor interfaceClass (Z.shiftl 0 8)) = interfaceClass).
    { change (Z.shiftl 0 8) with 0. rewrite Z.lor_0_r. apply u8_small. lia. }
    rewrite Hl. rewrite NewObis_ok by lia. reflexivity.
- unfold CosemAttribute_FromBytes.
  replace (len (b0 :: b1 :: rest)) with (len (0 :: b1 :: rest)) by reflexivity.
  destruct (negb (len (0 :: b1 :: rest) =? CosemAttributeLength)); [reflexivity|].
  destruct rest as [|r0 rest]; [reflexivity|].
  assert (E : u8 (Z.lor b1 (Z.shiftl b0 8)) = u8 (Z.lor b1 (Z.shiftl 0 8))).
  { unfold u8. change 255 with (Z.ones 8). Z.bitblast.
    rewrite (Z.testbit_neg_r b0) by lia. reflexivity. }
  unfold slice at 1 3. 
  destruct ((0 <=? 0) && (0 <=? 2) && (2 <=? len (b0 :: b1 :: r0 :: rest))) eqn:E1.
  + replace ((0 <=? 0) && (0 <=? 2) && (2 <=? len (0 :: b1 :: r0 :: rest))) with true
      by (rewrite <- E1; reflexivity).
    cbn [bind firstn skipn Z.to_nat Z.sub Pos.to_nat Pos.iter_op Nat.add BigEndian_Uint16].
    change (Z.to_nat (2 - 0)) with 2%nat. change (Z.to_nat 0) with 0%nat.
    cbn [bind firstn skipn BigEndian_Uint16]. rewrite E. reflexivity.
  + replace ((0 <=? 0) && (0 <=? 2) && (2 <=? len (0 :: b1 :: r0 :: rest))) with false
      by (rewrite <- E1; reflexivity).
    reflexivity.
Qed.

Lemma CosemAttribute_roundtrip_witness :
  let instance := {| obis_A := 1; obis_B := 0; obis_C := 1;
                     obis_D := 8; obis_E := 0; obis_F := 255 |} in
  (exists bytes,
     CosemAttribute_ToBytes (NewCosemAttribute 3 (Some instance) 2) = Ok bytes /\
     bytes = [0; 3] ++ Obis_ToBytes instance ++ [2] /\
     CosemAttribute_FromBytes bytes = Ok (NewCosemAttribute 3 (Some instance) 2)) /\
  CosemAttribute_FromBytes (0x80 :: 3 :: [1; 0; 1; 8; 0; 255; 2]) =
  CosemAttribute_FromBytes (0 :: 3 :: [1; 0; 1; 8; 0; 255; 2]).
Proof.
apply (CosemAttribute_roundtrip 3 2
         {| obis_A := 1; obis_B := 0; obis_C := 1; obis_D := 8; obis_E := 0; obis_F := 255 |}
         0x80 3 [1; 0; 1; 8; 0; 255; 2]).
- lia.
- lia.
- unfold in_range. simpl. lia.
Defined.

Lemma list_ascii_of_string_app (s1 s2 : string) :
  list_ascii_of_string (String.append s1 s2) =
  list_ascii_of_string s1 ++ list_ascii_of_string s2.
Proof.
induction s1 as [|c s1 IH]; [reflexivity|].
change (String.append (String c s1) s2) with (String c (String.append s1 s2)).
cbn [list_ascii_of_string app]. now rewrite IH.
Qed.

(** The text [%d] prints for a value within 0..255: one to three digits
    that [Atoi] reads back. *)
Lemma Sprintf_d_component (n : Z) :
  0 <= n <= 255 ->
  let ds := list_ascii_of_string (Sprintf_d n) in
  (1 <= length ds <= 3)%nat /\ forallb is_digit ds = true /\ Atoi ds = Ok n.
Proof.
intros Hn. assert (Hb : is_byte n) by (unfold is_byte; lia).
pose proof (forall_bytes (fun n =>
  let ds := list_ascii_of_string (Sprintf_d n) in
  (1 <=? length ds)%nat && (length ds <=? 3)%nat && forallb is_digit ds &&
  match Atoi ds with Ok v => v =? n | _ => false end) eq_refl n Hb) as H.
cbv beta zeta in H. rewrite !andb_true_iff in H. destruct H as [[[H1 H2] H3] H4].
cbv zeta. split; [split; [apply Nat.leb_le, H1 | apply Nat.leb_le, H2]|].
split; [exact H3|].
destruct (Atoi _) as [v| |]; try discriminate. f_equal. lia.
Qed.

Lemma digit_not_dot (c : ascii) : is_digit c = true -> Ascii.eqb c "."%char = false.
Proof.
intros H. destruct (Ascii.eqb_spec c "."%char) as [->|]; [discriminate H|reflexivity].
Qed.

Lemma forallb_firstn {A} (f : A -> bool) (n : nat) (l : list A) :
  forallb f l = true -> forallb f (firstn n l) = true.
Proof.
revert n. induction l as [|x l IH]; intros [|n] H; try reflexivity.
cbn [forallb] in H. apply andb_true_iff in H as [Hx Hl].
cbn [firstn forallb]. rewrite Hx. now apply IH.
Qed.

Lemma take_digits_run (n : nat) (ds : list ascii) (c : ascii) (rest : list ascii) :
  forallb is_digit ds = true -> is_digit c = false ->
  take_digits n (ds ++ c :: rest) =
  if (n <=? length ds)%nat then Some (firstn n ds, skipn n ds ++ c :: rest) else None.
Proof.
intros Hds Hc. unfold take_digits.
destruct (Nat.leb_spec n (length ds)) as [Hle|Hgt].
- rewrite firstn_app. replace (n - length ds)%nat with 0%nat by lia.
  cbn [firstn]. rewrite app_nil_r.
  rewrite length_firstn, Nat.min_l by lia. rewrite Nat.eqb_refl.
  rewrite forallb_firstn by exact Hds. cbn [andb].
  rewrite skipn_app. replace (n - length ds)%nat with 0%nat by lia. reflexivity.
- rewrite firstn_app.
  destruct (n - length ds)%nat as [|k] eqn:E; [lia|].
  cbn [firstn]. rewrite forallb_app. cbn [forallb]. rewrite Hc.
  rewrite andb_false_l, !andb_false_r. reflexivity.
Qed.

Lemma take_digits_end (n : nat) (ds : list ascii) :
  forallb is_digit ds = true ->
  take_digits n ds =
  if (n <=? length ds)%nat then Some (firstn n ds, skipn n ds) else None.
Proof.
intros Hds. unfold take_digits.
destruct (Nat.leb_spec n (length ds)) as [Hle|Hgt].
- rewrite length_firstn, Nat.min_l by lia. rewrite Nat.eqb_refl.
  rewrite forallb_firstn by exact Hds. reflexivity.
- rewrite firstn_all2 by lia. replace (length ds =? n)%nat with false by lia. reflexivity.
Qed.

(** One component followed by a character that is not a digit: the group
    takes the component's digits, and no shorter split of them lets the
    rest, which starts with a literal dot, match. *)
Lemma FindStringSubmatch_component (ds : list ascii) (c : ascii) (rest : list ascii)
  (re : list regex_item) :
  (1 <= length ds <= 3)%nat -> forallb is_digit ds = true -> is_digit c = false ->
  FindStringSubmatch (Digits1to3 :: LiteralDot :: re) (ds ++ c :: rest) =
  match FindStringSubmatch (LiteralDot :: re) (c :: rest) with
  | Some groups => Some (ds :: groups)
  | None => None
  end.
Proof.
intros Hlen Hds Hc.
change (FindStringSubmatch (Digits1to3 :: LiteralDot :: re) (ds ++ c :: rest)) with
  (let try := fun n : nat =>
     match take_digits n (ds ++ c :: rest) with
     | Some (d, s') =>
         match FindStringSubmatch (LiteralDot :: re) s' with
         | Some groups => Some (d :: groups)
         | None => None
         end
     | None => None
     end in
   match try 3%nat with
   | Some groups => Some groups
   | None => match try 2%nat with
             | Some groups => Some groups
             | None => try 1%nat
             end
   end).
cbv beta zeta. rewrite !take_digits_run by assumption.
destruct ds as [|c1 [|c2 [|c3 [|]]]]; cbn [length] in Hlen; try lia;
  cbn [forallb] in Hds; rewrite ?andb_true_iff in Hds.
- cbn [length Nat.leb firstn skipn app].
  destruct (FindStringSubmatch (LiteralDot :: re) (c :: rest)); reflexivity.
- destruct Hds as (H1 & H2 & _).
  cbn [length Nat.leb firstn skipn app].
  destruct (FindStringSubmatch (LiteralDot :: re) (c :: rest)); [reflexivity|].
  cbn [FindStringSubmatch]. rewrite (digit_not_dot c2 H2). reflexivity.
- destruct Hds as (H1 & H2 & H3 & _).
  cbn [length Nat.leb firstn skipn app].
  destruct (FindStringSubmatch (LiteralDot :: re) (c :: rest)); [reflexivity|].
  cbn [FindStringSubmatch]. rewrite (digit_not_dot c2 H2), (digit_not_dot c3 H3).
  reflexivity.
Qed.

(** The last component, at the end of the string. *)
Lemma FindStringSubmatch_last (ds : list ascii) :
  (1 <= length ds <= 3)%nat -> forallb is_digit ds = true ->
  FindStringSubmatch [Digits1to3] ds = Some [ds].
Proof.
intros Hlen Hds.
change (FindStringSubmatch [Digits1to3] ds) with
  (let try := fun n : nat =>
     match take_digits n ds with
     | Some (d, s') =>
         match FindStringSubmatch [] s' with
         | Some groups => Some (d :: groups)
         | None => None
         end
     | None => None
     end in
   match try 3%nat with
   | Some groups => Some groups
   | None => match try 2%nat with
             | Some groups => Some groups
             | None => try 1%nat
             end
   end).
cbv beta zeta. rewrite !take_digits_end by assumption.
destruct ds as [|c1 [|c2 [|c3 [|]]]]; cbn [length] in Hlen; try lia; reflexivity.
Qed.

Lemma FindStringSubmatch_dot (re : list regex_item) (rest : list ascii) :
  FindStringSubmatch (LiteralDot :: re) ("."%char :: rest) = FindStringSubmatch re rest.
Proof. reflexivity. Qed.

Lemma FindStringSubmatch_dash (re : list regex_item) (rest : list ascii) :
  FindStringSubmatch (LiteralDot :: re) ("-"%char :: rest) = None.
Proof. reflexivity. Qed.

(** X21. OBIS codes and strings: for every code with components within
    0..255, [FromString] reads back what [ToString] writes with the
    separator ".", and rejects what [String] (the default form
    "A-B:C.D.E.F") writes. *)
Theorem Obis_string_roundtrip (o : Obis) :
  in_range o ->
  FromString (ToString o ".") = Ok o /\
  FromString (Obis_String o) = Err (Errorf "is not a parsable OBIS string").
Proof.
destruct o as [a b c d e f]. unfold in_range.
cbn [obis_A obis_B obis_C obis_D obis_E obis_F]. intros (Ha & Hb & Hc & Hd & He & Hf).
destruct (Sprintf_d_component a Ha) as (La & Da & Aa).
destruct (Sprintf_d_component b Hb) as (Lb & Db & Ab).
destruct (Sprintf_d_component c Hc) as (Lc & Dc & Ac).
destruct (Sprintf_d_component d Hd) as (Ld & Dd & Ad).
destruct (Sprintf_d_component e He) as (Le & De & Ae).
destruct (Sprintf_d_component f Hf) as (Lf & Df & Af).
split.
- unfold FromString, ToString.
  change (negb (String.eqb "." "")) with true. cbv iota.
  cbn [obis_A obis_B obis_C obis_D obis_E obis_F].
  rewrite !list_ascii_of_string_app.
  change (list_ascii_of_string ".") with ["."%char]. cbn [app].
  unfold sixPartRegex.
  rewrite FindStringSubmatch_component, FindStringSubmatch_dot by (assumption || reflexivity).
  rewrite FindStringSubmatch_component, FindStringSubmatch_dot by (assumption || reflexivity).
  rewrite FindStringSubmatch_component, FindStringSubmatch_dot by (assumption || reflexivity).
  rewrite FindStringSubmatch_component, FindStringSubmatch_dot by (assumption || reflexivity).
  rewrite FindStringSubmatch_component, FindStringSubmatch_dot by (assumption || reflexivity).
  rewrite FindStringSubmatch_last by assumption.
  cbn [parse_parts]. rewrite Aa, Ab, Ac, Ad, Ae, Af. cbn [bind].
  now apply NewObis_ok.
- unfold FromString, Obis_String, ToString.
  change (negb (String.eqb "" "")) with false. cbv iota.
  cbn [obis_A obis_B obis_C obis_D obis_E obis_F].
  rewrite (list_ascii_of_string_app (Sprintf_d a)).
  rewrite (list_ascii_of_string_app "-").
  change (list_ascii_of_string "-") with ["-"%char]. cbn [app].
  unfold sixPartRegex, fivePartRegex.
  rewrite !FindStringSubmatch_component, !FindStringSubmatch_dash
    by (assumption || reflexivity).
  reflexivity.
Qed.

Lemma Obis_string_roundtrip_witness :
  let o := {| obis_A := 1; obis_B := 0; obis_C := 1;
              obis_D := 8; obis_E := 0; obis_F := 255 |} in
  FromString (ToString o ".") = Ok o /\
  FromString (Obis_String o) = Err (Errorf "is not a parsable OBIS string").
Proof.
apply (Obis_string_roundtrip
         {| obis_A := 1; obis_B := 0; obis_C := 1; obis_D := 8; obis_E := 0; obis_F := 255 |}).
unfold in_range. simpl. lia.
Defined.

End CosemMore.

Section XdlmsMore.
Import xdlms.

Lemma slice_from_at (n : Z) (pre l : list Z) :
  len pre = n -> slice_from (pre ++ l) n = Ok l.
Proof.
intros <-. unfold slice_from, slice. rewrite len_app.
pose proof (len_nonneg pre). pose proof (len_nonneg l).
replace ((0 <=? len pre) && (len pre <=? len pre + len l) &&
         (len pre + len l <=? len pre + len l)) with true by lia.
replace (len pre + len l - len pre) with (len l) by lia.
unfold len. rewrite !Nat2Z.id, drop_app_length. now rewrite firstn_all.
Qed.

Lemma slice_prefix_at (n : Z) (pre l : list Z) :
  len pre = n -> slice (pre ++ l) 0 n = Ok pre.
Proof.
intros <-. unfold slice. rewrite len_app.
pose proof (len_nonneg pre). pose proof (len_nonneg l).
replace ((0 <=? 0) && (0 <=? len pre) && (len pre <=? len pre + len l)) with true by lia.
rewrite Z.sub_0_r. change (Z.to_nat 0) with 0%nat. rewrite skipn_O.
unfold len. rewrite Nat2Z.id. now rewrite take_app_length.
Qed.

Lemma index_at (n : Z) (pre l : list Z) (x : Z) :
  len pre = n -> index (pre ++ x :: l) n = Ok x.
Proof. intros <-. apply index_len_app. Qed.

Lemma index_1_cons (a b : Z) (l : list Z) : index (a :: b :: l) 1 = Ok b.
Proof. exact (index_at 1 [a] l b eq_refl). Qed.

Lemma index_2_cons (a b c : Z) (l : list Z) : index (a :: b :: c :: l) 2 = Ok c.
Proof. exact (index_at 2 [a; b] l c eq_refl). Qed.

Lemma index_3_cons (a b c d : Z) (l : list Z) : index (a :: b :: c :: d :: l) 3 = Ok d.
Proof. exact (index_at 3 [a; b; c] l d eq_refl). Qed.

Lemma slice_from_2_cons (a b : Z) (l : list Z) : slice_from (a :: b :: l) 2 = Ok l.
Proof. exact (slice_from_at 2 [a; b] l eq_refl). Qed.

Lemma slice_from_3_cons (a b c : Z) (l : list Z) : slice_from (a :: b :: c :: l) 3 = Ok l.
Proof. exact (slice_from_at 3 [a; b; c] l eq_refl). Qed.

Lemma slice_from_4_cons (a b c d : Z) (l : list Z) :
  slice_from (a :: b :: c :: d :: l) 4 = Ok l.
Proof. exact (slice_from_at 4 [a; b; c; d] l eq_refl). Qed.

Lemma slice_0_1_cons (a : Z) (l : list Z) : slice (a :: l) 0 1 = Ok [a].
Proof. exact (slice_prefix_at 1 [a] l eq_refl). Qed.

Lemma slice_0_4_cons (a b c d : Z) (l : list Z) :
  slice (a :: b :: c :: d :: l) 0 4 = Ok [a; b; c; d].
Proof. exact (slice_prefix_at 4 [a; b; c; d] l eq_refl). Qed.

Lemma InvokeIdAndPriority_byte (i : InvokeIdAndPriority) :
  0 <= InvokeID i <= 15 ->
  exists b, InvokeIdAndPriority_ToBytes i = [b] /\ is_byte b /\
            InvokeIdAndPriority_FromBytes [b] = Ok i.
Proof.
destruct i as [id c h]. cbn [InvokeID]. intros Hid.
assert (H : forallb (fun id => forallb (fun c => forallb (fun h =>
    match InvokeIdAndPriority_ToBytes {| InvokeID := id; Confirmed := c; HighPriority := h |} with
    | [b] => is_byteb b &&
             match InvokeIdAndPriority_FromBytes [b] with
             | Ok i => (InvokeID i =? id) && eqb (Confirmed i) c && eqb (HighPriority i) h
             | _ => false
             end
    | _ => false
    end) [true; false]) [true; false])
    [0; 1; 2; 3; 4; 5; 6; 7; 8; 9; 10; 11; 12; 13; 14; 15] = true)
  by (vm_compute; reflexivity).
rewrite forallb_forall in H.
assert (Hin : In id [0; 1; 2; 3; 4; 5; 6; 7; 8; 9; 10; 11; 12; 13; 14; 15]).
{ assert (E : id = 0 \/ id = 1 \/ id = 2 \/ id = 3 \/ id = 4 \/ id = 5 \/ id = 6 \/ id = 7 \/
              id = 8 \/ id = 9 \/ id = 10 \/ id = 11 \/ id = 12 \/ id = 13 \/ id = 14 \/
              id = 15) by lia.
  simpl. intuition. }
specialize (H id Hin). rewrite forallb_forall in H.
specialize (H c ltac:(destruct c; simpl; auto)). rewrite forallb_forall in H.
specialize (H h ltac:(destruct h; simpl; auto)).
destruct (InvokeIdAndPriority_ToBytes _) as [|b [|]]; try discriminate H.
apply andb_true_iff in H as [Hb H]. exists b. split; [reflexivity|].
split; [unfold is_byteb in Hb; unfold is_byte; lia|].
destruct (InvokeIdAndPriority_FromBytes [b]) as [[id' c' h']| |]; try discriminate H.
cbn [InvokeID Confirmed HighPriority] in H.
rewrite !andb_true_iff, Z.eqb_eq, !eqb_true_iff in H. destruct H as [[-> ->] ->].
reflexivity.
Qed.

Lemma Uint32_PutUint32_bytes (v : Z) :
  0 <= v < 4294967296 ->
  BigEndian_Uint32
    [u8 (Z.shiftr v 24); u8 (Z.shiftr v 16); u8 (Z.shiftr v 8); u8 v] = Ok v.
Proof.
intros Hv. cbn [BigEndian_Uint32]. f_equal. now apply Uint32_of_PutUint32.
Qed.

(** X22. The data block response: with an invoke id within 0..15 and a
    block number below 2^32, [ToBytes] succeeds for raw data of any
    length, and [FromBytes] of its result returns the response with the
    first [len(RawData) mod 256] bytes of the raw data; this is the
    response itself when the raw data has at most 255 bytes. *)
Theorem GetResponseWithDataBlock_roundtrip
  (invokeIdAndPriority : InvokeIdAndPriority) (lastBlock : bool) (blockNumber : Z)
  (rawData : list Z) :
  0 <= InvokeID invokeIdAndPriority <= 15 -> 0 <= blockNumber < 4294967296 ->
  exists bytes,
    GetResponseWithDataBlock_ToBytes
      (NewGetResponseWithDataBlock invokeIdAndPriority lastBlock blockNumber rawData)
      = Ok bytes /\
    GetResponseWithDataBlock_FromBytes bytes
      = Ok (NewGetResponseWithDataBlock invokeIdAndPriority lastBlock blockNumber
              (firstn (Z.to_nat (len rawData mod 256)) rawData)) /\
    (len rawData <= 255 ->
     GetResponseWithDataBlock_FromBytes bytes
       = Ok (NewGetResponseWithDataBlock invokeIdAndPriority lastBlock blockNumber rawData)).
Proof.
intros Hid Hbn.
destruct (InvokeIdAndPriority_byte invokeIdAndPriority Hid) as (ib & Hib & Hibb & Hparse).
set (lb := if lastBlock then 1 else 0).
set (n := u8 (len rawData)).
set (b3 := u8 (Z.shiftr blockNumber 24)). set (b2 := u8 (Z.shiftr blockNumber 16)).
set (b1 := u8 (Z.shiftr blockNumber 8)). set (b0 := u8 blockNumber).
assert (Hto : GetResponseWithDataBlock_ToBytes
      (NewGetResponseWithDataBlock invokeIdAndPriority lastBlock blockNumber rawData)
      = Ok (GetResponseTag :: GetResponseWithBlock :: ib :: lb :: b3 :: b2 :: b1 :: b0 :: n
              :: rawData)).
{ unfold GetResponseWithDataBlock_ToBytes, NewGetResponseWithDataBlock.
  cbn [grb_InvokeIdAndPriority LastBlock BlockNumber RawData]. rewrite Hib.
  rewrite PutUint32_small. cbn [bind]. unfold lb. destruct lastBlock; reflexivity. }
assert (Hn : n = len rawData mod 256) by (unfold n; apply u8_mod).
pose proof (len_nonneg rawData) as Hraw.
pose proof (Z.mod_pos_bound (len rawData) 256 ltac:(lia)) as Hmod.
assert (Hle : len rawData mod 256 <= len rawData).
{ apply Z.mod_le; lia. }
assert (Hfrom : GetResponseWithDataBlock_FromBytes
      (GetResponseTag :: GetResponseWithBlock :: ib :: lb :: b3 :: b2 :: b1 :: b0 :: n
         :: rawData)
      = Ok (NewGetResponseWithDataBlock invokeIdAndPriority lastBlock blockNumber
              (firstn (Z.to_nat (len rawData mod 256)) rawData))).
{ unfold GetResponseWithDataBlock_FromBytes.
  rewrite !len_cons.
  replace (len rawData + 1 + 1 + 1 + 1 + 1 + 1 + 1 + 1 + 1 <? 2) with false by lia.
  rewrite index_0_cons. cbn [bind]. rewrite Z.eqb_refl. cbn [negb].
  rewrite index_1_cons. cbn [bind].
  rewrite Z.eqb_refl. cbn [negb].
  rewrite slice_from_2_cons. cbn [bind].
  rewrite !len_cons.
  replace (len rawData + 1 + 1 + 1 + 1 + 1 + 1 + 1 <? 1) with false by lia.
  rewrite slice_0_1_cons. cbn [bind]. rewrite Hparse.
  rewrite slice_from_1_cons. cbn [bind]. rewrite !len_cons.
  replace (len rawData + 1 + 1 + 1 + 1 + 1 + 1 <? 1) with false by lia.
  rewrite index_0_cons. cbn [bind]. rewrite slice_from_1_cons. cbn [bind].
  rewrite !len_cons.
  replace (len rawData + 1 + 1 + 1 + 1 + 1 <? 4) with false by lia.
  rewrite slice_0_4_cons. cbn [bind].
  unfold b3, b2, b1, b0. rewrite Uint32_PutUint32_bytes by lia. cbn [bind].
  fold b3 b2 b1 b0.
  rewrite slice_from_4_cons. cbn [bind].
  rewrite len_cons. replace (len rawData + 1 <? 1) with false by lia.
  rewrite index_0_cons. cbn [bind]. rewrite slice_from_1_cons. cbn [bind].
  rewrite Hn. replace (len rawData <? len rawData mod 256) with false by lia.
  unfold slice.
  replace ((0 <=? 0) && (0 <=? len rawData mod 256) && (len rawData mod 256 <=? len rawData))
    with true by lia.
  cbn [bind]. rewrite Z.sub_0_r. change (Z.to_nat 0) with 0%nat. rewrite skipn_O.
  assert (Elb : negb (lb =? 0) = lastBlock) by (unfold lb; destruct lastBlock; reflexivity).
  rewrite Elb. reflexivity. }
eexists. split; [exact Hto|]. split; [exact Hfrom|].
intros Hshort. rewrite Hfrom. rewrite Z.mod_small by lia.
unfold len. rewrite Nat2Z.id, firstn_all. reflexivity.
Qed.

Lemma GetResponseWithDataBlock_roundtrip_witness :
  let i := {| InvokeID := 1; Confirmed := true; HighPriority := true |} in
  exists bytes,
    GetResponseWithDataBlock_ToBytes (NewGetResponseWithDataBlock i true 3 (make 300))
      = Ok bytes /\
    GetResponseWithDataBlock_FromBytes bytes
      = Ok (NewGetResponseWithDataBlock i true 3
              (firstn (Z.to_nat (len (make 300) mod 256)) (make 300))) /\
    (len (make 300) <= 255 ->
     GetResponseWithDataBlock_FromBytes bytes
       = Ok (NewGetResponseWithDataBlock i true 3 (make 300))).
Proof.
apply (GetResponseWithDataBlock_roundtrip
         {| InvokeID := 1; Confirmed := true; HighPriority := true |} true 3 (make 300)).
- simpl. lia.
- lia.
Defined.

(** X23. An exception response with byte-sized errors survives encoding
    and decoding when it carries an invocation counter (below 2^32)
    exactly if its service error is InvocationCounterError; it takes
    seven bytes with the counter and three without. *)
Theorem ExceptionResponse_roundtrip (stateError serviceError : Z) (counter : option Z) :
  is_byte stateError -> is_byte serviceError ->
  match counter with
  | Some c => serviceError = ServiceExceptionInvocationCounterError /\ 0 <= c < 4294967296
  | None => serviceError <> ServiceExceptionInvocationCounterError
  end ->
  exists bytes,
    ExceptionResponse_ToBytes (NewExceptionResponse stateError serviceError counter)
      = Ok bytes /\
    len bytes = match counter with Some _ => 7 | None => 3 end /\
    ExceptionResponse_FromBytes bytes
      = Ok (NewExceptionResponse stateError serviceError counter).
Proof.
intros Hst Hsv Hc. unfold is_byte in *.
rewrite ExceptionResponse_ToBytes_eq. eexists. split; [reflexivity|].
cbn [StateError ServiceError InvocationCounterData NewExceptionResponse].
rewrite (u8_small stateError), (u8_small serviceError) by lia.
change (u8 ExceptionResponseTag) with ExceptionResponseTag.
destruct counter as [c|].
- destruct Hc as [-> Hc]. split; [reflexivity|].
  unfold ExceptionResponse_FromBytes. cbn [app]. rewrite !len_cons.
  change (len []) with 0. cbn [Z.add Z.ltb Z.compare Pos.compare Pos.compare_cont Pos.add
                                 Pos.succ].
  change (0 + 1 + 1 + 1 + 1 + 1 + 1 + 1 <? 3) with false. cbv iota.
  rewrite index_0_cons. cbn [bind]. rewrite Z.eqb_refl. cbn [negb].
  rewrite index_1_cons, index_2_cons. cbn [bind]. rewrite slice_from_3_cons. cbn [bind].
  rewrite Z.eqb_refl.
  change (len [u8 (Z.shiftr c 24); u8 (Z.shiftr c 16); u8 (Z.shiftr c 8); u8 c] <? 4)
    with false. cbv iota.
  rewrite slice_0_4_cons. cbn [bind]. rewrite Uint32_PutUint32_bytes by lia. reflexivity.
- split; [reflexivity|].
  unfold ExceptionResponse_FromBytes. cbn [app].
  change (len [ExceptionResponseTag; stateError; serviceError] <? 3) with false. cbv iota.
  rewrite index_0_cons. cbn [bind]. rewrite Z.eqb_refl. cbn [negb].
  rewrite index_1_cons, index_2_cons. cbn [bind]. rewrite slice_from_3_cons. cbn [bind].
  replace (serviceError =? ServiceExceptionInvocationCounterError) with false by lia.
  reflexivity.
Qed.

Lemma ExceptionResponse_roundtrip_witness :
  exists bytes,
    ExceptionResponse_ToBytes (NewExceptionResponse 1 6 (Some 0x01020304)) = Ok bytes /\
    len bytes = 7 /\
    ExceptionResponse_FromBytes bytes = Ok (NewExceptionResponse 1 6 (Some 0x01020304)).
Proof.
apply (ExceptionResponse_roundtrip 1 6 (Some 0x01020304)).
- unfold is_byte. lia.
- unfold is_byte. lia.
- split; [reflexivity|lia].
Defined.

(** X24. The long invoke id: [ToBytes] writes the low 24 bits of the id,
    so [FromBytes] of its result returns the four flags and the id modulo
    2^24; the value is returned unchanged when the id is below 2^24. *)
Theorem LongInvokeIdAndPriority_roundtrip (l : LongInvokeIdAndPriority) :
  0 <= LongInvokeID l < 4294967296 ->
  LongInvokeIdAndPriority_FromBytes (LongInvokeIdAndPriority_ToBytes l) =
  Ok (NewLongInvokeIdAndPriority (LongInvokeID l mod 2 ^ 24)
        (long_Prioritized l) (long_Confirmed l) (long_SelfDescriptive l)
        (long_BreakOnError l)) /\
  (LongInvokeID l < 2 ^ 24 ->
   LongInvokeIdAndPriority_FromBytes (LongInvokeIdAndPriority_ToBytes l) = Ok l).
Proof.
intros Hid. destruct l as [id p c s b]. cbn [LongInvokeID long_Prioritized long_Confirmed
  long_SelfDescriptive long_BreakOnError] in *.
assert (E : Z.lor (Z.lor (u32 (Z.shiftl (u8 (Z.shiftr id 16)) 16))
                         (u32 (Z.shiftl (u8 (Z.shiftr id 8)) 8))) (u8 id) = id mod 2 ^ 24).
{ rewrite <- Z.land_ones by lia. unfold u32, u8.
  change 4294967295 with (Z.ones 32). change 255 with (Z.ones 8). Z.bitblast. }
assert (H : LongInvokeIdAndPriority_FromBytes
              (LongInvokeIdAndPriority_ToBytes
                 {| LongInvokeID := id; long_Prioritized := p; long_Confirmed := c;
                    long_SelfDescriptive := s; long_BreakOnError := b |}) =
            Ok (NewLongInvokeIdAndPriority (id mod 2 ^ 24) p c s b)).
{ unfold LongInvokeIdAndPriority_FromBytes, LongInvokeIdAndPriority_ToBytes.
  cbn [LongInvokeID long_Prioritized long_Confirmed long_SelfDescriptive long_BreakOnError app].
  change (negb (len [?[x]; _; _; _] =? 4)) with false. cbv iota.
  rewrite index_1_cons, index_2_cons, index_3_cons, index_0_cons. cbn [bind].
  rewrite E. destruct p, c, s, b; reflexivity. }
split; [exact H|].
intros Hsmall. rewrite H. unfold NewLongInvokeIdAndPriority.
rewrite Z.mod_small by lia. reflexivity.
Qed.

Lemma LongInvokeIdAndPriority_roundtrip_witness :
  LongInvokeIdAndPriority_FromBytes
    (LongInvokeIdAndPriority_ToBytes (NewLongInvokeIdAndPriority 0x01020304 true false true false)) =
  Ok (NewLongInvokeIdAndPriority (0x01020304 mod 2 ^ 24) true false true false) /\
  (0x01020304 < 2 ^ 24 ->
   LongInvokeIdAndPriority_FromBytes
     (LongInvokeIdAndPriority_ToBytes (NewLongInvokeIdAndPriority 0x01020304 true false true false)) =
   Ok (NewLongInvokeIdAndPriority 0x01020304 true false true false)).
Proof.
apply (LongInvokeIdAndPriority_roundtrip
         (NewLongInvokeIdAndPriority 0x01020304 true false true false)).
simpl. lia.
Defined.

End XdlmsMore.

Section Utils.
Import utils.

(** X25. [ParseDlmsObject] on tag 1 or 2, a length byte and at least
    that many bytes returns exactly that many bytes (what follows them is
    ignored); every other tag is rejected. *)
Theorem ParseDlmsObject_items (tag : Z) (items rest : list Z) :
  tag = 1 \/ tag = 2 -> len items <= 255 ->
  ParseDlmsObject (tag :: len items :: items ++ rest) = Ok items /\
  (forall (other : Z) (data : list Z),
     other <> 1 -> other <> 2 ->
     ParseDlmsObject (other :: data) = Err (Errorf "cannot use dlms object parse with tag")).
Proof.
intros Htag Hlen. pose proof (len_nonneg items) as Hi. pose proof (len_nonneg rest) as Hr.
split.
- unfold ParseDlmsObject. rewrite !len_cons, len_app.
  replace (len items + len rest + 1 + 1 =? 0) with false by lia.
  rewrite index_0_cons. cbn [bind]. rewrite slice_from_1_cons. cbn [bind].
  assert (Ha : existsb (fun allowedTag => tag =? allowedTag) [1; 2] = true).
  { destruct Htag as [-> | ->]; reflexivity. }
  rewrite Ha. cbn [negb]. rewrite len_cons, len_app.
  replace (len items + len rest + 1 =? 0) with false by lia.
  rewrite index_0_cons. cbn [bind]. rewrite slice_from_1_cons. cbn [bind].
  rewrite len_app. replace (len items + len rest <? len items) with false by lia.
  unfold len. rewrite Nat2Z.id. now rewrite take_app_length.
- intros other data H1 H2. unfold ParseDlmsObject. rewrite len_cons.
  pose proof (len_nonneg data).
  replace (len data + 1 =? 0) with false by lia.
  rewrite index_0_cons. cbn [bind]. rewrite slice_from_1_cons. cbn [bind].
  cbn [existsb]. replace (other =? 1) with false by lia.
  replace (other =? 2) with false by lia. reflexivity.
Qed.

Lemma ParseDlmsObject_items_witness :
  ParseDlmsObject (2 :: len [7; 8; 9] :: [7; 8; 9] ++ [0xFF]) = Ok [7; 8; 9] /\
  (forall (other : Z) (data : list Z),
     other <> 1 -> other <> 2 ->
     ParseDlmsObject (other :: data) = Err (Errorf "cannot use dlms object parse with tag")).
Proof.
apply (ParseDlmsObject_items 2 [7; 8; 9] [0xFF]).
- right. reflexivity.
- vm_compute. discriminate.
Defined.

End Utils.

Section Acse.
Import encoding acse.

Context {InitiateRequest InitiateResponse : Type}.
Context (InitiateRequest_FromBytes : list Z -> result InitiateRequest).
Context (InitiateResponse_FromBytes : list Z -> result InitiateResponse).
Context (InitiateRequest_ToBytes : InitiateRequest -> result (list Z)).
Context (InitiateResponse_ToBytes : InitiateResponse -> result (list Z)).

Lemma BER_take_tag_length (n : nat) (input tag rest : list Z) :
  BER_take_tag n input = Ok (tag, rest) ->
  length tag = n /\ (length rest + n = length input)%nat.
Proof.
revert input tag rest. induction n as [|n IH]; intros input tag rest H.
- cbn in H. injection H as <- <-. simpl. lia.
- cbn [BER_take_tag] in H. destruct input as [|x input]; [discriminate H|].
  rewrite index_0_cons, slice_from_1_cons in H. cbn [bind] in H.
  destruct (BER_take_tag n input) as [[t r]| |] eqn:E; cbn [bind] in H; try discriminate H.
  injection H as <- <-. apply IH in E as [E1 E2]. cbn [fst snd length]. lia.
Qed.

Lemma BER_Decode_tag_length (data tag berData : list Z) (tagLength length : Z) :
  BER_Decode data tagLength = Ok (tag, length, berData) -> len tag = tagLength.
Proof.
unfold BER_Decode.
destruct (len data <? tagLength + 1); [discriminate|].
destruct (tagLength <? 0) eqn:E0; [discriminate|].
destruct (BER_take_tag (Z.to_nat tagLength) data) as [[t r]| |] eqn:E; cbn [bind];
  try discriminate.
apply BER_take_tag_length in E as [E _]. cbn [fst snd].
destruct (index r 0); cbn [bind]; try discriminate.
destruct (slice_from r 1); cbn [bind]; try discriminate.
destruct (negb _); [discriminate|]. intros [= <- _ _]. unfold len. lia.
Qed.

(** A receiver with no tag accepts nothing. *)
Lemma UserInformation_FromBytes_without_tag
  (content : Content InitiateRequest InitiateResponse) (data : list Z) :
  is_ok (UserInformation_FromBytes InitiateRequest_FromBytes InitiateResponse_FromBytes
           {| ui_Tag := []; ui_Content := content |} data) = false.
Proof.
unfold UserInformation_FromBytes.
destruct (BER_Decode data 1) as [[[tag length] berData]| |] eqn:E; try reflexivity.
apply BER_Decode_tag_length in E. cbn [ui_Tag]. unfold bytesEqual.
rewrite E. reflexivity.
Qed.

Lemma slice_from_length (l l' : list Z) (n : Z) :
  slice_from l n = Ok l' -> 0 <= n /\ (length l' + Z.to_nat n = length l)%nat.
Proof.
unfold slice_from, slice.
destruct ((0 <=? n) && (n <=? len l) && (len l <=? len l)) eqn:E; [|discriminate].
intros [= <-]. rewrite length_firstn, length_skipn. unfold len in *. lia.
Qed.

(** One round of the loop of [FromBytes], as a function of the data and
    the dictionary: the rest of the data and the dictionary after the
    round. *)
Lemma parse_objects_round (fuel : nat) (rlrqData : list Z)
  (objectDict : gmap string (parsed InitiateRequest InitiateResponse)) :
  rlrqData <> [] ->
  (exists e, forall fuel,
     parse_objects InitiateRequest_FromBytes InitiateResponse_FromBytes
       (S fuel) rlrqData objectDict = Err e) \/
  (exists m, forall fuel,
     parse_objects InitiateRequest_FromBytes InitiateResponse_FromBytes
       (S fuel) rlrqData objectDict = Panic m) \/
  (exists rest value,
     (length rest + 2 <= length rlrqData)%nat /\
     forall fuel,
       parse_objects InitiateRequest_FromBytes InitiateResponse_FromBytes
         (S fuel) rlrqData objectDict =
       parse_objects InitiateRequest_FromBytes InitiateResponse_FromBytes
         fuel rest (<["reason" := value]> objectDict)).
Proof.
intros Hne.
assert (Hpos : negb (len rlrqData >? 0) = false).
{ destruct rlrqData; [contradiction|]. rewrite len_cons. pose proof (len_nonneg rlrqData). lia. }
cbn [parse_objects]. rewrite Hpos.
destruct (len rlrqData <? 2) eqn:E2; [left; eexists; intros; reflexivity|].
destruct (index rlrqData 0) as [objectTag| |]; cbn [bind];
  [|left; eexists; intros; reflexivity|right; left; eexists; intros; reflexivity].
destruct (index rlrqData 1) as [objectLength| |]; cbn [bind];
  [|left; eexists; intros; reflexivity|right; left; eexists; intros; reflexivity].
destruct (slice_from rlrqData 2) as [data1| |] eqn:E3; cbn [bind];
  [|left; eexists; intros; reflexivity|right; left; eexists; intros; reflexivity].
destruct (len data1 <? objectLength); [left; eexists; intros; reflexivity|].
destruct (slice data1 0 objectLength) as [objectData| |]; cbn [bind];
  [|left; eexists; intros; reflexivity|right; left; eexists; intros; reflexivity].
destruct (slice_from data1 objectLength) as [data2| |] eqn:E4; cbn [bind];
  [|left; eexists; intros; reflexivity|right; left; eexists; intros; reflexivity].
apply slice_from_length in E3, E4.
assert (Hlen : (length data2 + 2 <= length rlrqData)%nat) by lia.
destruct (objectTag =? 128).
- destruct (len objectData >? 0).
  + destruct (BER_Decode objectData 1) as [[[tag length] data]| |];
      [|left; eexists; intros; reflexivity|right; left; eexists; intros; reflexivity].
    destruct (negb (bytesEqual tag [2])); [left; eexists; intros; reflexivity|].
    destruct (negb (len data =? length) || (len data =? 0));
      [left; eexists; intros; reflexivity|].
    destruct (index data 0) as [reason| |]; cbn [bind];
      [|left; eexists; intros; reflexivity|right; left; eexists; intros; reflexivity].
    right. right. exists data2, (ParsedReason reason). split; [exact Hlen|]. intros; reflexivity.
  + cbn [bind]. right. right. exists data2, ParsedNil. split; [exact Hlen|].
    intros; reflexivity.
- destruct (objectTag =? 190).
  + pose proof (UserInformation_FromBytes_without_tag ContentOther objectData) as Hui.
    destruct (UserInformation_FromBytes _ _ _ objectData) as [u| |]; [discriminate Hui| |];
      cbn [bind]; [left|right; left]; eexists; intros; reflexivity.
  + cbn [bind]. left; eexists; intros; reflexivity.
Qed.

Lemma parse_objects_nil (fuel : nat)
  (objectDict : gmap string (parsed InitiateRequest InitiateResponse)) :
  parse_objects InitiateRequest_FromBytes InitiateResponse_FromBytes fuel [] objectDict
  = Ok objectDict.
Proof. destruct fuel; reflexivity. Qed.

(** The fuel of the loop: any amount from the length of the data on gives
    the same result. *)
Lemma parse_objects_fuel (fuel1 fuel2 : nat) (rlrqData : list Z)
  (objectDict : gmap string (parsed InitiateRequest InitiateResponse)) :
  (length rlrqData <= fuel1)%nat -> (length rlrqData <= fuel2)%nat ->
  parse_objects InitiateRequest_FromBytes InitiateResponse_FromBytes fuel1 rlrqData objectDict
  = parse_objects InitiateRequest_FromBytes InitiateResponse_FromBytes fuel2 rlrqData objectDict.
Proof.
revert fuel2 rlrqData objectDict.
induction fuel1 as [|fuel1 IH]; intros fuel2 rlrqData objectDict H1 H2.
- destruct rlrqData; [|simpl in H1; lia]. now rewrite !parse_objects_nil.
- destruct rlrqData as [|x l] eqn:El; [now rewrite !parse_objects_nil|]. rewrite <- El in *.
  assert (Hne : rlrqData <> []) by (rewrite El; discriminate).
  assert (Hlen : (1 <= length rlrqData)%nat) by (rewrite El; simpl; lia).
  destruct fuel2 as [|fuel2]; [lia|].
  destruct (parse_objects_round 0 rlrqData objectDict Hne)
    as [[e He]|[[m Hm]|(rest & value & Hrest & Hstep)]].
  + now rewrite !He.
  + now rewrite !Hm.
  + rewrite !Hstep. apply IH; lia.
Qed.

Lemma parse_objects_no_user_information (fuel : nat) (rlrqData : list Z)
  (objectDict objectDict' : gmap string (parsed InitiateRequest InitiateResponse)) :
  objectDict !! "user_information" = None ->
  parse_objects InitiateRequest_FromBytes InitiateResponse_FromBytes fuel rlrqData objectDict
    = Ok objectDict' ->
  objectDict' !! "user_information" = None.
Proof.
revert rlrqData objectDict.
induction fuel as [|fuel IH]; intros rlrqData objectDict Hd H.
- destruct rlrqData as [|x l].
  + rewrite parse_objects_nil in H. now injection H as <-.
  + cbn [parse_objects] in H.
    replace (negb (len (x :: l) >? 0)) with false in H
      by (rewrite len_cons; pose proof (len_nonneg l); lia).
    discriminate H.
- destruct rlrqData as [|x l] eqn:El.
  + rewrite parse_objects_nil in H. now injection H as <-.
  + rewrite <- El in *.
    assert (Hne : rlrqData <> []) by (rewrite El; discriminate).
    destruct (parse_objects_round 0 rlrqData objectDict Hne)
      as [[e He]|[[m Hm]|(rest & value & Hrest & Hstep)]].
    * rewrite He in H. discriminate H.
    * rewrite Hm in H. discriminate H.
    * rewrite Hstep in H. apply IH in H; [exact H|].
      rewrite lookup_insert_ne by discriminate. exact Hd.
Qed.

Lemma ReleaseRequest_FromBytes_user_information
  (sourceBytes : list Z) (r : ReleaseRequest InitiateRequest InitiateResponse) :
  ReleaseRequest_FromBytes InitiateRequest_FromBytes InitiateResponse_FromBytes sourceBytes
    = Ok r ->
  rlrq_UserInformation r = None.
Proof.
unfold ReleaseRequest_FromBytes.
destruct (len sourceBytes =? 0); [discriminate|].
destruct (index sourceBytes 0) as [rlrqTag| |]; cbn [bind]; try discriminate.
destruct (negb (rlrqTag =? RLRQTag)); [discriminate|].
destruct (len sourceBytes <? 2); [discriminate|].
destruct (index sourceBytes 1) as [rlrqLength| |]; cbn [bind]; try discriminate.
destruct (slice_from sourceBytes 2) as [rlrqData| |]; cbn [bind]; try discriminate.
destruct (negb (len rlrqData =? rlrqLength)); [discriminate|].
destruct (parse_objects _ _ _ rlrqData ∅) as [objectDict| |] eqn:E; cbn [bind];
  try discriminate.
apply parse_objects_no_user_information in E; [|apply lookup_empty].
intros [= <-]. cbn [rlrq_UserInformation NewReleaseRequest]. rewrite E. reflexivity.
Qed.

(** X26. A release request that [FromBytes] returns never has user
    information: the parser of a user information object is called on a
    receiver without a tag, which accepts nothing, so every input with
    such an object is rejected.  An accepted input starts with the tag 98
    and a byte that is the length of all that follows.  This holds
    whatever the parsers of the initiate request and response do. *)
Theorem ReleaseRequest_FromBytes_drops_user_information
  (sourceBytes : list Z) (r : ReleaseRequest InitiateRequest InitiateResponse) :
  ReleaseRequest_FromBytes InitiateRequest_FromBytes InitiateResponse_FromBytes sourceBytes
    = Ok r ->
  rlrq_UserInformation r = None /\
  exists rlrqData, sourceBytes = RLRQTag :: len rlrqData :: rlrqData.
Proof.
intros H. split; [exact (ReleaseRequest_FromBytes_user_information _ _ H)|].
unfold ReleaseRequest_FromBytes in H.
destruct sourceBytes as [|rlrqTag [|rlrqLength rlrqData]]; [discriminate H| |].
- change (len [rlrqTag] =? 0) with false in H. cbv iota in H.
  rewrite index_0_cons in H. cbn [bind] in H.
  destruct (negb (rlrqTag =? RLRQTag)); discriminate H.
- destruct (len (rlrqTag :: rlrqLength :: rlrqData) =? 0); [discriminate H|].
  rewrite index_0_cons, index_1_cons, slice_from_2_cons in H. cbn [bind] in H.
  destruct (rlrqTag =? RLRQTag) eqn:Etag; cbn [negb] in H; [|discriminate H].
  destruct (len (rlrqTag :: rlrqLength :: rlrqData) <? 2); [discriminate H|].
  destruct (len rlrqData =? rlrqLength) eqn:Elen; cbn [negb] in H; [|discriminate H].
  exists rlrqData. f_equal; [lia|]. f_equal. lia.
Qed.

Lemma ReleaseRequest_ToBytes_without_user_information (reason : option Z) :
  ReleaseRequest_ToBytes InitiateRequest_ToBytes InitiateResponse_ToBytes
    (NewReleaseRequest reason None) =
  Ok match reason with
     | Some reason => [RLRQTag; 3; 0x80; 1; u8 reason]
     | None => []
     end.
Proof. destruct reason; reflexivity. Qed.

Lemma ReleaseRequest_FromBytes_of_ToBytes_reason (reason : Z) :
  ReleaseRequest_FromBytes InitiateRequest_FromBytes InitiateResponse_FromBytes
    [RLRQTag; 3; 0x80; 1; reason] = Err (Errorf "failed to decode reason").
Proof. reflexivity. Qed.

(** X27. No release request survives encoding and decoding: whenever
    [ToBytes] returns bytes for a request, [FromBytes] of these bytes does
    not return the request, and returns an error when the request has no
    user information (the reason is written as 80 01 rr and read as
    80 03 02 01 rr; a request with neither field is written as no bytes
    at all). *)
Theorem ReleaseRequest_never_roundtrips
  (r : ReleaseRequest InitiateRequest InitiateResponse) (bytes : list Z) :
  ReleaseRequest_ToBytes InitiateRequest_ToBytes InitiateResponse_ToBytes r = Ok bytes ->
  ReleaseRequest_FromBytes InitiateRequest_FromBytes InitiateResponse_FromBytes bytes <> Ok r /\
  (rlrq_UserInformation r = None ->
   is_ok (ReleaseRequest_FromBytes InitiateRequest_FromBytes InitiateResponse_FromBytes bytes)
     = false).
Proof.
intros Hto. destruct r as [reason [ui|]].
- split; [|discriminate].
  intros Hfrom. apply ReleaseRequest_FromBytes_user_information in Hfrom.
  discriminate Hfrom.
- change {| rlrq_Reason := reason; rlrq_UserInformation := None |}
    with (@NewReleaseRequest InitiateRequest InitiateResponse reason None) in *.
  rewrite ReleaseRequest_ToBytes_without_user_information in Hto. injection Hto as <-.
  destruct reason as [reason|].
  + rewrite ReleaseRequest_FromBytes_of_ToBytes_reason. split; [discriminate|reflexivity].
  + split; [discriminate|reflexivity].
Qed.

End Acse.

Section AcseWitnesses.
Import encoding acse.

Lemma ReleaseRequest_FromBytes_drops_user_information_witness :
  @ReleaseRequest_FromBytes unit unit (fun _ => Err (Errorf "")) (fun _ => Err (Errorf ""))
    [98; 5; 0x80; 3; 2; 1; 0] = Ok (NewReleaseRequest (Some 0) None) /\
  rlrq_UserInformation (@NewReleaseRequest unit unit (Some 0) None) = None /\
  exists rlrqData, [98; 5; 0x80; 3; 2; 1; 0] = RLRQTag :: len rlrqData :: rlrqData.
Proof.
split; [vm_compute; reflexivity|].
apply (@ReleaseRequest_FromBytes_drops_user_information unit unit
         (fun _ => Err (Errorf "")) (fun _ => Err (Errorf "")) [98; 5; 0x80; 3; 2; 1; 0]).
vm_compute. reflexivity.
Defined.

Lemma ReleaseRequest_never_roundtrips_witness :
  @ReleaseRequest_FromBytes unit unit (fun _ => Err (Errorf "")) (fun _ => Err (Errorf ""))
    [98; 3; 0x80; 1; 0] <> Ok (NewReleaseRequest (Some 0) None) /\
  (rlrq_UserInformation (@NewReleaseRequest unit unit (Some 0) None) = None ->
   is_ok (@ReleaseRequest_FromBytes unit unit
            (fun _ => Err (Errorf "")) (fun _ => Err (Errorf ""))
            [98; 3; 0x80; 1; 0]) = false).
Proof.
apply (@ReleaseRequest_never_roundtrips unit unit
         (fun _ => Err (Errorf "")) (fun _ => Err (Errorf ""))
         (fun _ => Err (Errorf "")) (fun _ => Err (Errorf ""))
         (NewReleaseRequest (Some 0) None) [98; 3; 0x80; 1; 0]).
reflexivity.
Defined.

End AcseWitnesses.

Section AcseCodecs.
Import encoding acse.

(** X28. The BER integer: a value within 0..255 is written as the three
    bytes 2, 1, value and read back; [FromBytes] also reads a two-byte
    integer, while [ToBytes] refuses every value outside 0..255. *)
Theorem Asn1Integer_roundtrip (value b0 b1 : Z) :
  0 <= value <= 255 ->
  (exists bytes,
     Asn1Integer_ToBytes (NewAsn1Integer value) = Ok bytes /\
     bytes = [Asn1IntegerTag; 1; value] /\
     Asn1Integer_FromBytes bytes = Ok (NewAsn1Integer value)) /\
  Asn1Integer_FromBytes [Asn1IntegerTag; 2; b0; b1] =
    Ok (NewAsn1Integer (Z.lor b1 (Z.shiftl b0 8))) /\
  (forall other, other < 0 \/ 255 < other ->
     Asn1Integer_ToBytes (NewAsn1Integer other) =
       Err (Errorf "integer value does not fit in 1 byte")).
Proof.
intros Hv. split; [|split].
- exists [Asn1IntegerTag; 1; value]. split; [|split; [reflexivity|reflexivity]].
  unfold Asn1Integer_ToBytes, NewAsn1Integer. cbn [asn1_Value].
  replace ((value >=? 0) && (value <=? 255)) with true by lia.
  unfold BER_Encode. cbn. rewrite u8_small by lia. reflexivity.
- reflexivity.
- intros other Ho. unfold Asn1Integer_ToBytes, NewAsn1Integer. cbn [asn1_Value].
  replace ((other >=? 0) && (other <=? 255)) with false by lia. reflexivity.
Qed.

Lemma Asn1Integer_roundtrip_witness :
  (exists bytes,
     Asn1Integer_ToBytes (NewAsn1Integer 7) = Ok bytes /\
     bytes = [Asn1IntegerTag; 1; 7] /\
     Asn1Integer_FromBytes bytes = Ok (NewAsn1Integer 7)) /\
  Asn1Integer_FromBytes [Asn1IntegerTag; 2; 1; 2] =
    Ok (NewAsn1Integer (Z.lor 2 (Z.shiftl 1 8))) /\
  (forall other, other < 0 \/ 255 < other ->
     Asn1Integer_ToBytes (NewAsn1Integer other) =
       Err (Errorf "integer value does not fit in 1 byte")).
Proof. apply (Asn1Integer_roundtrip 7 1 2). lia. Defined.

(** X29. Result source diagnostics with one of the two names are written
    with the low byte of their value and read back with the same name and
    the value modulo 256, which is the value itself when it is within
    0..255. *)
Theorem ResultSourceDiagnostics_roundtrip (name : string) (value : Z) :
  name = "acse-service-user" \/ name = "acse-service-provider" ->
  exists bytes,
    ResultSourceDiagnostics_ToBytes (NewResultSourceDiagnostics name value) = Ok bytes /\
    ResultSourceDiagnostics_FromBytes bytes
      = Ok (NewResultSourceDiagnostics name (value mod 256)) /\
    (0 <= value <= 255 ->
     ResultSourceDiagnostics_FromBytes bytes = Ok (NewResultSourceDiagnostics name value)).
Proof.
intros Hname. rewrite <- u8_mod.
destruct Hname as [-> | ->].
- exists [0x81; 1; u8 value]. split; [reflexivity|]. split; [reflexivity|].
  intros Hv. rewrite u8_small by lia. reflexivity.
- exists [0x82; 1; u8 value]. split; [reflexivity|]. split; [reflexivity|].
  intros Hv. rewrite u8_small by lia. reflexivity.
Qed.

Lemma ResultSourceDiagnostics_roundtrip_witness :
  exists bytes,
    ResultSourceDiagnostics_ToBytes (NewResultSourceDiagnostics "acse-service-provider" 258)
      = Ok bytes /\
    ResultSourceDiagnostics_FromBytes bytes
      = Ok (NewResultSourceDiagnostics "acse-service-provider" (258 mod 256)) /\
    (0 <= 258 <= 255 ->
     ResultSourceDiagnostics_FromBytes bytes
       = Ok (NewResultSourceDiagnostics "acse-service-provider" 258)).
Proof.
apply (ResultSourceDiagnostics_roundtrip "acse-service-provider" 258). right. reflexivity.
Defined.

End AcseCodecs.
